(** * Guidance and control core of [ArduPlane/Attitude.cpp] (TLAB PPG build)

    A shallow embedding of the path generator, the gain-scheduled lateral
    law, the line/circle supervisor and the altitude/throttle law, followed
    by the properties established about them.

    Numeric conventions.  A C++ [float] is read as a real number ([R]):
    rounding, infinities and NaN are not represented, so every statement
    below is about the exact-arithmetic reading of the formulas.  The
    integer types ([int8_t] .. [uint64_t]) are read as [Z]; where the source
    narrows or wraps an integer the wrap-around is written out.  A division
    whose divisor is zero has no real value in the program (it yields an
    infinity or NaN); the functions that the division-by-zero statements are
    about therefore record such an event in a log ([faults]) at the place
    where the source evaluates the quotient. *)

From Stdlib Require Import Reals Lra Lia ZArith List String Bool.
Import ListNotations.
Open Scope R_scope.

(** ** Numeric helpers *)

(** [static_cast<int32_t>(x)] for a float [x]: truncation toward zero. *)
Definition cast_int32 (v : R) : Z :=
  if Rle_dec 0 v then Int_part v else (- Int_part (- v))%Z.

(** Implicit conversion of an [int32_t] argument to an [int16_t] parameter:
    reduction modulo 2^16 into [-32768, 32767]. *)
Definition to_int16 (n : Z) : Z := ((n + 32768) mod 65536 - 32768)%Z.

(** [static_cast<int8_t>(n)]: reduction modulo 2^8 into [-128, 127]. *)
Definition to_int8 (n : Z) : Z := ((n + 128) mod 256 - 128)%Z.

(** Unsigned 64-bit subtraction, as in [current_time - prev_time]. *)
Definition sub_uint64 (a b : Z) : Z := ((a - b) mod 18446744073709551616)%Z.

(** Float comparisons as the conditions of the source write them. *)
Definition Rltb (a b : R) : bool := if Rlt_dec a b then true else false.
Definition Rleb (a b : R) : bool := if Rle_dec a b then true else false.
Definition Rgtb (a b : R) : bool := if Rgt_dec a b then true else false.
Definition Rgeb (a b : R) : bool := if Rge_dec a b then true else false.
Definition Reqb (a b : R) : bool := if Req_dec_T a b then true else false.

(** Degrees to radians, and centidegrees (an integer) to radians. *)
Definition deg2rad (d : R) : R := d * PI / 180.
Definition cd2rad (c : Z) : R := IZR c * 0.01 * PI / 180.

(** Modelled from the spec: [constrain_float] is declared in AP_Math, which
    is not part of the translated file; the spec describes it as clamping a
    value to a closed interval [[low, high]]. *)
Definition constrain_float (amt low high : R) : R :=
  if Rltb amt low then low else if Rgtb amt high then high else amt.

(** Modelled from the spec: [constrain_int32] (AP_Math), an integer clamp to
    [[low, high]]. *)
Definition constrain_int32 (amt low high : Z) : Z :=
  if (amt <? low)%Z then low else if (amt >? high)%Z then high else amt.

(** Modelled from the spec: [constrain_int16] (AP_Math), the same clamp on
    16-bit operands; the caller's value is first narrowed to 16 bits. *)
Definition constrain_int16 (amt low high : Z) : Z :=
  let a := to_int16 amt in
  if (a <? low)%Z then low else if (a >? high)%Z then high else a.

(** The C library's two-argument arctangent, on reals. *)
Definition atan2 (vy vx : R) : R :=
  if Rlt_dec 0 vx then atan (vy / vx)
  else if Rlt_dec vx 0 then
         (if Rle_dec 0 vy then atan (vy / vx) + PI else atan (vy / vx) - PI)
  else if Rlt_dec 0 vy then PI / 2
  else if Rlt_dec vy 0 then - (PI / 2)
  else 0.

(** Numeric events.  [DivByZero site] records that the quotient written at
    [site] was evaluated with a zero divisor. *)
Inductive fault : Type :=
| DivByZero (site : string).

(** A division as the source writes it, logging a zero divisor. *)
Definition fdiv (site : string) (a b : R) (log : list fault) : R * list fault :=
  (a / b, if Reqb b 0 then DivByZero site :: log else log).


(** ** Geometry types of the platform *)

Record Location : Type := mkLocation {
  lat : Z;   (* 1e-7 degrees *)
  lng : Z;   (* 1e-7 degrees *)
  alt : Z    (* centimetres *)
}.

Record Vector2f : Type := mkVector2f {
  x : R;
  y : R
}.

(** Geodesy and angle helpers of the surrounding platform (AP_Math,
    AP_Common).  Their code is outside the translated file and no statement
    below depends on what they compute, so they are parameters. *)
Class Platform : Type := {
  get_distance : Location -> Location -> R;
  get_bearing_cd : Location -> Location -> Z;
  location_diff : Location -> Location -> Vector2f;
  wrap_PI : R -> R;
  wrap_2PI : R -> R
}.

(** Readings taken from the estimation and mission subsystems during one
    control cycle. *)
Record Sensors : Type := mkSensors {
  current_loc : Location;
  prev_WP_loc : Location;
  next_WP_loc : Location;
  ahrs_pitch : R;
  ahrs_yaw : R;
  ahrs_yaw_sensor : Z;
  ahrs_gyro_y : R;
  gps_ground_course_cd : Z;
  gps_ground_course : R;
  gps_ground_speed : R;
  gps_velocity_z : R;
  micros64 : Z;
  mission_current_nav_index : Z
}.

(** The configuration block [g]: the [TPARAM_*] entries read by the
    translated functions.  Selector and coordinate entries are integers, the
    others are floats. *)
Record Parameters : Type := mkParameters {
  TPARAM_Bar_Control_Mode : Z;
  TPARAM_Combine : Z;
  TPARAM_F11 : R; TPARAM_F12 : R; TPARAM_F21 : R; TPARAM_F22 : R;
  TPARAM_F31 : R; TPARAM_F32 : R; TPARAM_F41 : R; TPARAM_F42 : R;
  TPARAM_Fchi1_1 : R; TPARAM_Fchi1_2 : R; TPARAM_Fchi1_3 : R;
  TPARAM_Fchi2_1 : R; TPARAM_Fchi2_2 : R; TPARAM_Fchi2_3 : R;
  TPARAM_Fchi3_1 : R; TPARAM_Fchi3_2 : R; TPARAM_Fchi3_3 : R;
  TPARAM_Fchi4_1 : R; TPARAM_Fchi4_2 : R; TPARAM_Fchi4_3 : R;
  TPARAM_Flight_Plan : Z;
  TPARAM_Fx1 : R; TPARAM_Fx2 : R; TPARAM_Fx3 : R;
  TPARAM_L_1 : R;
  TPARAM_MAX_slo : Z;
  TPARAM_Path_Origin_lat : Z;
  TPARAM_Path_Origin_lng : Z;
  TPARAM_R : R;
  TPARAM_U_max : R;
  TPARAM_U_min : R;
  TPARAM_V_a : R;
  TPARAM_Va : R;
  TPARAM_Vg_max : R;
  TPARAM_Vg_min : R;
  TPARAM_alpha_max : R;
  TPARAM_alpha_min : R;
  TPARAM_alternate : Z;
  TPARAM_c_alt : Z;
  TPARAM_calc_GCRS : Z;
  TPARAM_center_lat : Z;
  TPARAM_center_lng : Z;
  TPARAM_cha_pow : Z;
  TPARAM_change_y : R;
  TPARAM_chiF_max_deg : R;
  TPARAM_control_a : R;
  TPARAM_control_b : R;
  TPARAM_control_mode : Z;
  TPARAM_control_p : R;
  TPARAM_dzeta : R;
  TPARAM_height_kd0_Th : R;
  TPARAM_height_kd1_Th : R;
  TPARAM_height_kp0_Th : R;
  TPARAM_height_kp1_Th : R;
  TPARAM_k : R;
  TPARAM_k_prop_const : R;
  TPARAM_kappa_max : R;
  TPARAM_kappa_min : R;
  TPARAM_motor_neutral_Th : R;
  TPARAM_neutral_t : R;
  TPARAM_orbit_num : R;
  TPARAM_pdc_height_d1_Th : R;
  TPARAM_pdc_height_d2_Th : R;
  TPARAM_phi_max : R;
  TPARAM_r : R;
  TPARAM_r_min : R;
  TPARAM_rule_num : Z;
  TPARAM_servo_neutral : R;
  TPARAM_switch_mo : Z;
  TPARAM_theta_a : R;
  TPARAM_u_x_max : R;
  TPARAM_v_a : R;
  TPARAM_v_g_max : R;
  TPARAM_v_g_min : R
}.

(** ** Members of [Plane] used by the translated functions

    The members are grouped by the function that owns them; [Plane] below
    collects the groups. *)

(** Members shared by several controllers, together with the two logs kept
    by the model: [gcs] holds the texts passed to [gcs_send_text_fmt] (most
    recent first), [faults] the numeric events. *)
Record Shared : Type := mkShared {
  v_g : R;
  chi : R;
  alpha : R;
  u : R;
  servo : Z;
  v_a : R;
  yet_init : bool;
  TLAB_CMD_index : Z;
  prev_POS : Location;
  steering_control_rudder : Z;
  gcs : list string;
  faults : list fault
}.

(** Values copied from the configuration by [init_TLAB_Controller]. *)
Record LCConfig : Type := mkLCConfig {
  calc_GCRS_flag : Z;
  const_k : R;
  Vg_min : R;
  Vg_max : R;
  alpha_min : R;
  alpha_max : R;
  r_min : R;
  target_R : R;
  U_min : R;
  U_max : R;
  use_fuzzy_controller : bool;
  rule_num : Z;
  phi_max : R;
  F_fuzzy : list (list R);
  Combine_Mode_flag : bool;
  alternate_orbit_flag : bool;
  change_y : R;
  orbit_num : R
}.

(** Flags of the line/circle supervisor. *)
Record Supervisor : Type := mkSupervisor {
  TLAB_Control_flag : Z;
  TLAB_WP_nav_flag : bool;
  change_to_circle_flag : bool;
  init_TLAB_Controller_flag : bool;
  init_TLAB_Controller_AUTO_flag : bool;
  Target_Circle_Center : Location
}.

(** Waypoint-frame state written by [TLAB_Line_Trace_Controller]. *)
Record LineState : Type := mkLineState {
  Dist_currWP2UAV : R;
  rad_prevWP2UAV : R;
  rad_prevWP2currWP : R;
  state_UAV_x : R;
  state_UAV_y : R;
  state_UAV_phi : R;
  state_UAV_GCRS : R
}.

(** Intermediate values of the selectable line/circle laws. *)
Record LawState : Type := mkLawState {
  Vg_limited : R;
  u_star : R;
  L_conv : R;
  sinc_kai : R;
  det_a : R;
  det_b : R;
  det_p : R;
  L_1 : R;
  eta : R;
  h_mem : list R
}.

(** Circle-frame state written by [TLAB_Circle_Trace_Controller]. *)
Record CircleState : Type := mkCircleState {
  arg_r : R;
  theta : R;
  prev_theta : R;
  Int_theta : R;
  diff_theta : R;
  chi_r : R;
  e_r : R;
  e_chi : R;
  phi : R;
  r_limited : R;
  mid_POS : Location
}.

(** Values set by [init_TLAB_2D_Trace_Controller]. *)
Record P2Config : Type := mkP2Config {
  k_prop_const : R;
  Path_Origin : Location;
  Flight_Plan : Z;
  Fx : list R;
  Fchi : list (list R);
  v_g_min : R;
  v_g_max : R;
  kappa_max : R;
  kappa_min : R;
  u_x_max : R;
  chiF_max : R;
  z1_max : R;
  z1_min : R;
  z2_max : R;
  z2_min : R
}.

(** State of the path generator [TLAB_generate_2D_Path]. *)
Record PathState : Type := mkPathState {
  Path_Mode : Z;
  s : R;
  zeta : R;
  P0 : Vector2f;
  P1 : Vector2f;
  dist_WPs : R;
  i_now_CMD : Z;
  change_path_flag : bool;
  dot_zeta : R;
  x_d : R;
  y_d : R;
  chi_d : R;
  dot_chi_d : R;
  kappa : R;
  s_calc : R;
  i_zeta : Z
}.

(** Values written by [TLAB_2D_Trace_Controller]. *)
Record TraceState : Type := mkTraceState {
  u_x : R;
  t_now : Z;
  dt : R;
  xI : R;
  yI : R;
  psi : R;
  xF : R;
  yF : R;
  chiF : R;
  u_x_calc : R;
  K1 : R;
  K2 : R;
  M1 : R;
  M2 : R;
  h_chi : list R;
  u_chi : R;
  ds : R;
  d_angle : Z;
  bar_angle : R
}.

(** Members of the altitude/throttle law. *)
Record ThrottleState : Type := mkThrottleState {
  z : R;
  z_r : R;
  firsttime_Th : bool;
  z_old : Z;
  pitch_old : R;
  dz : R;
  err_count : Z;
  prev_time_Th : Z;
  d1_Th : R;
  d2_Th : R;
  kp_Th : list R;
  kd_Th : list R;
  motor_neutral : R;
  past_time_Th : Z;
  dz_f : R;
  d_pitch : R;
  speed_pitch : R;
  e_m : R;
  de_m : R;
  gps_dh : R;
  gps_dpitch : R;
  motor_Th_N : R;
  F1 : R;
  F2 : R;
  F3 : R;
  F4 : R;
  h_0 : R; h_1 : R; h_2 : R; h_3 : R;
  h_4 : R; h_5 : R; h_6 : R; h_7 : R;
  motor_per : R;
  airpower : R;
  kk : R;
  value1 : Z;
  value2 : Z
}.

(** The controller object. *)
Record Plane : Type := mkPlane {
  shared : Shared;
  lccfg : LCConfig;
  sup : Supervisor;
  line : LineState;
  law : LawState;
  circle : CircleState;
  p2cfg : P2Config;
  path : PathState;
  trace : TraceState;
  throttle : ThrottleState
}.

(** Replacement of one group of members. *)
Definition with_shared (p : Plane) (v : Shared) : Plane :=
  mkPlane v (lccfg p) (sup p) (line p) (law p) (circle p) (p2cfg p) (path p)
          (trace p) (throttle p).
Definition with_lccfg (p : Plane) (v : LCConfig) : Plane :=
  mkPlane (shared p) v (sup p) (line p) (law p) (circle p) (p2cfg p) (path p)
          (trace p) (throttle p).
Definition with_sup (p : Plane) (v : Supervisor) : Plane :=
  mkPlane (shared p) (lccfg p) v (line p) (law p) (circle p) (p2cfg p) (path p)
          (trace p) (throttle p).
Definition with_line (p : Plane) (v : LineState) : Plane :=
  mkPlane (shared p) (lccfg p) (sup p) v (law p) (circle p) (p2cfg p) (path p)
          (trace p) (throttle p).
Definition with_law (p : Plane) (v : LawState) : Plane :=
  mkPlane (shared p) (lccfg p) (sup p) (line p) v (circle p) (p2cfg p) (path p)
          (trace p) (throttle p).
Definition with_circle (p : Plane) (v : CircleState) : Plane :=
  mkPlane (shared p) (lccfg p) (sup p) (line p) (law p) v (p2cfg p) (path p)
          (trace p) (throttle p).
Definition with_p2cfg (p : Plane) (v : P2Config) : Plane :=
  mkPlane (shared p) (lccfg p) (sup p) (line p) (law p) (circle p) v (path p)
          (trace p) (throttle p).
Definition with_path (p : Plane) (v : PathState) : Plane :=
  mkPlane (shared p) (lccfg p) (sup p) (line p) (law p) (circle p) (p2cfg p) v
          (trace p) (throttle p).
Definition with_trace (p : Plane) (v : TraceState) : Plane :=
  mkPlane (shared p) (lccfg p) (sup p) (line p) (law p) (circle p) (p2cfg p)
          (path p) v (throttle p).
Definition with_throttle (p : Plane) (v : ThrottleState) : Plane :=
  mkPlane (shared p) (lccfg p) (sup p) (line p) (law p) (circle p) (p2cfg p)
          (path p) (trace p) v.

(** Element [j] of row [i] of a float matrix, and element [i] of a float
    array.  An index outside the array is undefined behaviour in the source;
    the model reads 0 there. *)
Definition elem (l : list R) (i : nat) : R := nth i l 0.
Definition elem2 (m : list (list R)) (i j : nat) : R := nth j (nth i m []) 0.

(** ** Line and circle tracking laws *)

Definition set_prev_POS (p : Plane) (v : Location) : Plane :=
  let sh := shared p in
  with_shared p
    {| v_g := v_g sh; chi := chi sh; alpha := alpha sh; u := u sh;
       servo := servo sh; v_a := v_a sh; yet_init := yet_init sh;
       TLAB_CMD_index := TLAB_CMD_index sh; prev_POS := v;
       steering_control_rudder := steering_control_rudder sh;
       gcs := gcs sh; faults := faults sh |}.

Definition set_h_mem (p : Plane) (v : list R) : Plane :=
  let l := law p in
  with_law p
    {| Vg_limited := Vg_limited l; u_star := u_star l; L_conv := L_conv l;
       sinc_kai := sinc_kai l; det_a := det_a l; det_b := det_b l;
       det_p := det_p l; L_1 := L_1 l; eta := eta l; h_mem := v |}.

(** The velocity membership pair [m_mem] of the comparison fuzzy law. *)
Definition m_mem (vg vmin vmax : R) : R * R :=
  if Rgtb vg vmax then (1, 0)
  else if Rltb vg vmin then (0, 1)
  else let m0 := (vg - vmin) / (vmax - vmin) in (m0, 1 - m0).

(** The heading membership pair [n_mem] of the comparison fuzzy law. *)
Definition n_mem (x2 pmax : R) : R * R :=
  if Rltb (Rabs x2) (2 * 180 / PI) then (1, 0)
  else if Rgtb (Rabs x2) pmax then (0, 1)
  else
    let b1 := 1 in
    let b2 := sin pmax / pmax in
    let n0 := (sin x2 - b2 * x2) / ((b1 - b2) * x2) in
    (n0, 1 - n0).

(** The blend weights [h_mem[0..3]] of the comparison fuzzy law. *)
Definition fuzzy_h_mem (rules : Z) (vg vmin vmax x2 pmax : R) : list R :=
  let m := m_mem vg vmin vmax in
  if (rules =? 2)%Z then [fst m; snd m; 0; 0]
  else
    let n := n_mem x2 pmax in
    [fst m * fst n; fst m * snd n; snd m * fst n; snd m * snd n].

(** [Plane::calc_controller]: the rational-polynomial law, or the comparison
    fuzzy law when [use_fuzzy_controller] is set. *)
Definition calc_controller (sn : Sensors) (x1 x2 : R) (p : Plane) : R * Plane :=
  let p :=
    if negb (lat (prev_POS (shared p)) =? lat (current_loc sn))%Z
       || negb (lng (prev_POS (shared p)) =? lng (current_loc sn))%Z
    then set_prev_POS p (current_loc sn) else p in
  if negb (use_fuzzy_controller (lccfg p)) then
    let C := - 0.0013832 * x1 ^ 3 - 0.020961 * x1 ^ 2 * x2
             + 0.068193 * x1 * x2 ^ 2 - 0.34265 * x2 ^ 3
             - 1.3518e-10 * x1 ^ 2 - 1.9737e-09 * x1 * x2
             + 7.2815e-09 * x2 ^ 2 - 0.096888 * x1 - 3.1216 * x2 in
    let q := 0.78953 * x1 ^ 2 - 1.8155 * x1 * x2 + 24.7114 * x2 ^ 2
             + 8.1027e-08 * x1 - 2.4228e-07 * x2 + 25.6252 in
    (C / q, p)
  else
    let c := lccfg p in
    let h := fuzzy_h_mem (rule_num c) (v_g (shared p)) (Vg_min c) (Vg_max c)
                         x2 (phi_max c) in
    let p := set_h_mem p h in
    let u_control :=
      fold_left
        (fun acc i =>
           acc - elem h i * (elem2 (F_fuzzy c) i 0 * x1 + elem2 (F_fuzzy c) i 1 * x2))
        (seq 0 (Z.to_nat (rule_num c))) 0 in
    (u_control, p).

Definition sinc (v : R) : R :=
  if Rleb (- 0.01) v && Rleb v 0.01 then 1 else sin v / v.

Definition sqn (v : R) : R :=
  if Rltb v 0 then - 1 else if Rgtb v 0 then 1 else 0.

Definition set_v_g (p : Plane) (v : R) : Plane :=
  let sh := shared p in
  with_shared p
    {| v_g := v; chi := chi sh; alpha := alpha sh; u := u sh;
       servo := servo sh; v_a := v_a sh; yet_init := yet_init sh;
       TLAB_CMD_index := TLAB_CMD_index sh; prev_POS := prev_POS sh;
       steering_control_rudder := steering_control_rudder sh;
       gcs := gcs sh; faults := faults sh |}.

Definition set_chi (p : Plane) (v : R) : Plane :=
  let sh := shared p in
  with_shared p
    {| v_g := v_g sh; chi := v; alpha := alpha sh; u := u sh;
       servo := servo sh; v_a := v_a sh; yet_init := yet_init sh;
       TLAB_CMD_index := TLAB_CMD_index sh; prev_POS := prev_POS sh;
       steering_control_rudder := steering_control_rudder sh;
       gcs := gcs sh; faults := faults sh |}.

Definition set_alpha (p : Plane) (v : R) : Plane :=
  let sh := shared p in
  with_shared p
    {| v_g := v_g sh; chi := chi sh; alpha := v; u := u sh;
       servo := servo sh; v_a := v_a sh; yet_init := yet_init sh;
       TLAB_CMD_index := TLAB_CMD_index sh; prev_POS := prev_POS sh;
       steering_control_rudder := steering_control_rudder sh;
       gcs := gcs sh; faults := faults sh |}.

Definition set_u (p : Plane) (v : R) : Plane :=
  let sh := shared p in
  with_shared p
    {| v_g := v_g sh; chi := chi sh; alpha := alpha sh; u := v;
       servo := servo sh; v_a := v_a sh; yet_init := yet_init sh;
       TLAB_CMD_index := TLAB_CMD_index sh; prev_POS := prev_POS sh;
       steering_control_rudder := steering_control_rudder sh;
       gcs := gcs sh; faults := faults sh |}.

Definition set_servo (p : Plane) (v : Z) : Plane :=
  let sh := shared p in
  with_shared p
    {| v_g := v_g sh; chi := chi sh; alpha := alpha sh; u := u sh;
       servo := v; v_a := v_a sh; yet_init := yet_init sh;
       TLAB_CMD_index := TLAB_CMD_index sh; prev_POS := prev_POS sh;
       steering_control_rudder := steering_control_rudder sh;
       gcs := gcs sh; faults := faults sh |}.

Definition set_v_a (p : Plane) (v : R) : Plane :=
  let sh := shared p in
  with_shared p
    {| v_g := v_g sh; chi := chi sh; alpha := alpha sh; u := u sh;
       servo := servo sh; v_a := v; yet_init := yet_init sh;
       TLAB_CMD_index := TLAB_CMD_index sh; prev_POS := prev_POS sh;
       steering_control_rudder := steering_control_rudder sh;
       gcs := gcs sh; faults := faults sh |}.

Definition set_yet_init (p : Plane) (v : bool) : Plane :=
  let sh := shared p in
  with_shared p
    {| v_g := v_g sh; chi := chi sh; alpha := alpha sh; u := u sh;
       servo := servo sh; v_a := v_a sh; yet_init := v;
       TLAB_CMD_index := TLAB_CMD_index sh; prev_POS := prev_POS sh;
       steering_control_rudder := steering_control_rudder sh;
       gcs := gcs sh; faults := faults sh |}.

Definition set_TLAB_CMD_index (p : Plane) (v : Z) : Plane :=
  let sh := shared p in
  with_shared p
    {| v_g := v_g sh; chi := chi sh; alpha := alpha sh; u := u sh;
       servo := servo sh; v_a := v_a sh; yet_init := yet_init sh;
       TLAB_CMD_index := v; prev_POS := prev_POS sh;
       steering_control_rudder := steering_control_rudder sh;
       gcs := gcs sh; faults := faults sh |}.

Definition set_steering_control_rudder (p : Plane) (v : Z) : Plane :=
  let sh := shared p in
  with_shared p
    {| v_g := v_g sh; chi := chi sh; alpha := alpha sh; u := u sh;
       servo := servo sh; v_a := v_a sh; yet_init := yet_init sh;
       TLAB_CMD_index := TLAB_CMD_index sh; prev_POS := prev_POS sh;
       steering_control_rudder := v;
       gcs := gcs sh; faults := faults sh |}.

(** [gcs_send_text_fmt(MAV_SEVERITY_INFO, text)]. *)
Definition gcs_send_text_fmt (p : Plane) (text : string) : Plane :=
  let sh := shared p in
  with_shared p
    {| v_g := v_g sh; chi := chi sh; alpha := alpha sh; u := u sh;
       servo := servo sh; v_a := v_a sh; yet_init := yet_init sh;
       TLAB_CMD_index := TLAB_CMD_index sh; prev_POS := prev_POS sh;
       steering_control_rudder := steering_control_rudder sh;
       gcs := text :: gcs sh; faults := faults sh |}.

Definition set_faults (p : Plane) (v : list fault) : Plane :=
  let sh := shared p in
  with_shared p
    {| v_g := v_g sh; chi := chi sh; alpha := alpha sh; u := u sh;
       servo := servo sh; v_a := v_a sh; yet_init := yet_init sh;
       TLAB_CMD_index := TLAB_CMD_index sh; prev_POS := prev_POS sh;
       steering_control_rudder := steering_control_rudder sh;
       gcs := gcs sh; faults := v |}.

(** A logged division on the controller object. *)
Definition pdiv (site : string) (a b : R) (p : Plane) : R * Plane :=
  let r := fdiv site a b (faults (shared p)) in
  (fst r, set_faults p (snd r)).

(** The clipping of the course-versus-heading angle [alpha]. *)
Definition clip_alpha (a amin amax : R) : R :=
  if Rgtb a amax then amax else if Rltb a amin then amin else a.

(** The clipping of the ground speed into [Vg_limited]. *)
Definition limit_Vg (vg vmin vmax : R) : R :=
  if Rgtb vg vmax then vmax else if Rltb vg vmin then vmin else vg.

(** The mechanical-linkage map from bar angle [u] (rad) to servo angle
    (centidegrees). *)
Definition servo_of_u (v : R) : Z :=
  cast_int32 (asin (constrain_float (58 / 29 * sin v) (- 1) 1) * 100 * 180 / PI).

Section WithPlatform.
Context {platform : Platform}.

(** The assignment pair that closes every branch of the law selection:
    [alpha] is clipped to [[alpha_min, alpha_max]] and [L_conv] is the
    ground-speed to airspeed ratio. *)
Definition set_alpha_L_conv (p : Plane) (alpha_raw : R) : Plane :=
  let p := set_alpha p (clip_alpha alpha_raw (alpha_min (lccfg p))
                                   (alpha_max (lccfg p))) in
  let l := law p in
  with_law p
    {| Vg_limited := Vg_limited l; u_star := u_star l;
       L_conv := Vg_limited l / (v_a (shared p) * cos (alpha (shared p)));
       sinc_kai := sinc_kai l; det_a := det_a l; det_b := det_b l;
       det_p := det_p l; L_1 := L_1 l; eta := eta l; h_mem := h_mem l |}.

Definition set_Vg_limited (p : Plane) (v : R) : Plane :=
  let l := law p in
  with_law p
    {| Vg_limited := v; u_star := u_star l; L_conv := L_conv l;
       sinc_kai := sinc_kai l; det_a := det_a l; det_b := det_b l;
       det_p := det_p l; L_1 := L_1 l; eta := eta l; h_mem := h_mem l |}.

Definition set_u_star (p : Plane) (v : R) : Plane :=
  let l := law p in
  with_law p
    {| Vg_limited := Vg_limited l; u_star := v; L_conv := L_conv l;
       sinc_kai := sinc_kai l; det_a := det_a l; det_b := det_b l;
       det_p := det_p l; L_1 := L_1 l; eta := eta l; h_mem := h_mem l |}.

Definition set_sinc_kai (p : Plane) (v : R) : Plane :=
  let l := law p in
  with_law p
    {| Vg_limited := Vg_limited l; u_star := u_star l; L_conv := L_conv l;
       sinc_kai := v; det_a := det_a l; det_b := det_b l;
       det_p := det_p l; L_1 := L_1 l; eta := eta l; h_mem := h_mem l |}.

(** [det_a], [det_b], [det_p] are read from the configuration together. *)
Definition set_det (g : Parameters) (p : Plane) : Plane :=
  let l := law p in
  with_law p
    {| Vg_limited := Vg_limited l; u_star := u_star l; L_conv := L_conv l;
       sinc_kai := sinc_kai l; det_a := TPARAM_control_a g;
       det_b := TPARAM_control_b g; det_p := TPARAM_control_p g;
       L_1 := L_1 l; eta := eta l; h_mem := h_mem l |}.

Definition set_L_1 (p : Plane) (v : R) : Plane :=
  let l := law p in
  with_law p
    {| Vg_limited := Vg_limited l; u_star := u_star l; L_conv := L_conv l;
       sinc_kai := sinc_kai l; det_a := det_a l; det_b := det_b l;
       det_p := det_p l; L_1 := v; eta := eta l; h_mem := h_mem l |}.

Definition set_eta (p : Plane) (v : R) : Plane :=
  let l := law p in
  with_law p
    {| Vg_limited := Vg_limited l; u_star := u_star l; L_conv := L_conv l;
       sinc_kai := sinc_kai l; det_a := det_a l; det_b := det_b l;
       det_p := det_p l; L_1 := L_1 l; eta := v; h_mem := h_mem l |}.

(** The lookahead angle [eta] of law 4, for lateral error [e] and course
    error [c]; when neither comparison holds [eta] keeps its value. *)
Definition lookahead_eta (p : Plane) (e c : R) : Plane :=
  let L := L_1 (law p) in
  if Rltb e L then
    set_eta p (constrain_float (- c - atan (e / sqrt (L ^ 2 - e ^ 2)))
                               (- PI / 2) (PI / 2))
  else if Rgeb e L then
    set_eta p (constrain_float (- c - PI / 2 * sqn e) (- PI / 2) (PI / 2))
  else p.

(** The law selection of [TLAB_Line_Trace_Controller] ([TPARAM_switch_mo]). *)
Definition line_law (g : Parameters) (sn : Sensors) (p : Plane) : Plane :=
  let sy := state_UAV_y (line p) in
  let sg := state_UAV_GCRS (line p) in
  let sphi := state_UAV_phi (line p) in
  if (TPARAM_switch_mo g =? 1)%Z then
    let r := calc_controller sn sy sg p in
    let p := set_u_star (snd r) (Vg_limited (law (snd r)) * fst r) in
    set_alpha_L_conv p (wrap_PI (sphi - sg))
  else if (TPARAM_switch_mo g =? 2)%Z then
    let p := set_sinc_kai p (sinc sg) in
    let p := set_det g p in
    let a := det_a (law p) in
    let b := det_b (law p) in
    let p := set_u_star p
               (- b * (sg + atan (a * sy))
                - (a * v_g (shared p) * sin sg) / (1 + a ^ 2 * sy ^ 2)) in
    set_alpha_L_conv p (wrap_PI (sphi - sg))
  else if (TPARAM_switch_mo g =? 3)%Z then
    let p := set_det g p in
    let a := det_a (law p) in
    let b := det_b (law p) in
    let p := set_u_star p (- (1 / b) * (v_g (shared p) * sy + a * sg)) in
    set_alpha_L_conv p (wrap_PI (sphi - sg))
  else if (TPARAM_switch_mo g =? 4)%Z then
    let p := set_L_1 p (TPARAM_L_1 g) in
    let p := lookahead_eta p sy sg in
    let p := set_u_star p (2 * v_a (shared p) * sin (eta (law p)) / L_1 (law p)) in
    set_alpha_L_conv p (wrap_PI (sphi - sg))
  else p.

(** The waypoint-frame coordinates computed at the top of
    [TLAB_Line_Trace_Controller]: position along ([state_UAV_x]) and across
    ([state_UAV_y]) the line from the previous to the next waypoint, heading
    and ground course relative to it. *)
Definition waypoint_frame (sn : Sensors) : LineState :=
  let Dist := get_distance (current_loc sn) (prev_WP_loc sn) in
  let r1 := cd2rad (get_bearing_cd (prev_WP_loc sn) (current_loc sn)) in
  let r2 := cd2rad (get_bearing_cd (prev_WP_loc sn) (next_WP_loc sn)) in
  let rad_WPline2UAV := r1 - r2 in
  {| Dist_currWP2UAV := Dist;
     rad_prevWP2UAV := r1;
     rad_prevWP2currWP := r2;
     state_UAV_x := Dist * cos rad_WPline2UAV;
     state_UAV_y := Dist * sin rad_WPline2UAV;
     state_UAV_phi :=
       wrap_PI (IZR (ahrs_yaw_sensor sn) * 0.01 * PI / 180 - r2);
     state_UAV_GCRS :=
       wrap_PI (IZR (gps_ground_course_cd sn) * 0.01 * PI / 180 - r2) |}.

(** The ground speed is sampled into [v_g] and clipped into
    [Vg_limited]. *)
Definition limit_speed (sn : Sensors) (p : Plane) : Plane :=
  let p := set_v_g p (gps_ground_speed sn) in
  set_Vg_limited p (limit_Vg (v_g (shared p)) (Vg_min (lccfg p))
                             (Vg_max (lccfg p))).

(** The closing assignments of [TLAB_Line_Trace_Controller]: bar angle [u]
    and servo angle. *)
Definition line_command (g : Parameters) (p : Plane) : Plane :=
  let p := set_u p
    (constrain_float (L_conv (law p) / const_k (lccfg p) * u_star (law p))
                     (U_min (lccfg p) * PI / 180) (U_max (lccfg p) * PI / 180)
     + TPARAM_servo_neutral g * PI / 180) in
  set_servo p (servo_of_u (u (shared p))).

(** [Plane::TLAB_Line_Trace_Controller]: the waypoint frame is refreshed;
    outside line mode the function returns 0 at once; otherwise the speed is
    limited, the selected law computes [u_star] and the command follows. *)
Definition TLAB_Line_Trace_Controller
    (g : Parameters) (sn : Sensors) (p : Plane) : Z * Plane :=
  let p := with_line p (waypoint_frame sn) in
  if negb (TLAB_Control_flag (sup p) =? 0)%Z then (0%Z, p)
  else
    let p := line_command g (line_law g sn (limit_speed sn p)) in
    (servo (shared p), p).

(** [Plane::init_TLAB_Controller_AUTO]. *)
Definition init_TLAB_Controller_AUTO (sn : Sensors) (p : Plane) : Plane :=
  let sp := sup p in
  let p := with_sup p
    {| TLAB_Control_flag := TLAB_Control_flag sp;
       TLAB_WP_nav_flag := TLAB_WP_nav_flag sp;
       change_to_circle_flag := change_to_circle_flag sp;
       init_TLAB_Controller_flag := init_TLAB_Controller_flag sp;
       init_TLAB_Controller_AUTO_flag := false;
       Target_Circle_Center := Target_Circle_Center sp |} in
  let p := set_prev_POS p (current_loc sn) in
  let c := circle p in
  let th := wrap_PI (IZR (get_bearing_cd (Target_Circle_Center (sup p))
                                        (current_loc sn)) * 0.01 * PI / 180) in
  let p := with_circle p
    {| arg_r := arg_r c; theta := th; prev_theta := th; Int_theta := 0;
       diff_theta := diff_theta c; chi_r := chi_r c; e_r := e_r c;
       e_chi := e_chi c; phi := phi c; r_limited := r_limited c;
       mid_POS := current_loc sn |} in
  set_chi p (wrap_PI (IZR (gps_ground_course_cd sn) * 0.01 * PI / 180)).

(** The first [switch] of [TLAB_Circle_Trace_Controller]: the polar angle
    [theta] about the circle centre, the course [chi] and the accumulated
    angle [Int_theta]. *)
Definition circle_angles (sn : Sensors) (p : Plane) : Plane :=
  if (calc_GCRS_flag (lccfg p) =? 0)%Z then
    let c := circle p in
    let p := with_circle p
      {| arg_r := arg_r c;
         theta := wrap_PI (IZR (get_bearing_cd (Target_Circle_Center (sup p))
                                               (current_loc sn))
                           * 0.01 * PI / 180);
         prev_theta := prev_theta c; Int_theta := Int_theta c;
         diff_theta := diff_theta c; chi_r := chi_r c; e_r := e_r c;
         e_chi := e_chi c; phi := phi c; r_limited := r_limited c;
         mid_POS := mid_POS c |} in
    set_chi p (wrap_PI (IZR (gps_ground_course_cd sn) * 0.01 * PI / 180))
  else
    let p :=
      if init_TLAB_Controller_AUTO_flag (sup p) then
        let p := init_TLAB_Controller_AUTO sn p in
        let c := circle p in
        with_circle p
          {| arg_r := arg_r c; theta := theta c; prev_theta := prev_theta c;
             Int_theta := 0; diff_theta := 0; chi_r := chi_r c; e_r := e_r c;
             e_chi := e_chi c; phi := phi c; r_limited := r_limited c;
             mid_POS := mid_POS c |}
      else
        let pp := prev_POS (shared p) in
        let cl := current_loc sn in
        let p := set_chi p (wrap_PI (IZR (get_bearing_cd pp cl)
                                     * 0.01 * PI / 180)) in
        let c := circle p in
        let mid :=
          {| lat := (lat pp + Z.quot (lat cl - lat pp) 2)%Z;
             lng := (lng pp + Z.quot (lng cl - lng pp) 2)%Z;
             alt := alt (mid_POS c) |} in
        let th := wrap_PI (IZR (get_bearing_cd (Target_Circle_Center (sup p)) mid)
                           * 0.01 * PI / 180) in
        let dth := wrap_PI (th - prev_theta c) in
        with_circle p
          {| arg_r := arg_r c; theta := th; prev_theta := prev_theta c;
             Int_theta := Int_theta c + dth; diff_theta := dth;
             chi_r := chi_r c; e_r := e_r c; e_chi := e_chi c; phi := phi c;
             r_limited := r_limited c; mid_POS := mid |} in
    let c := circle p in
    with_circle p
      {| arg_r := arg_r c; theta := theta c; prev_theta := theta c;
         Int_theta := Int_theta c; diff_theta := diff_theta c;
         chi_r := chi_r c; e_r := e_r c; e_chi := e_chi c; phi := phi c;
         r_limited := r_limited c; mid_POS := mid_POS c |}.

(** The law selection of [TLAB_Circle_Trace_Controller]. *)
Definition circle_law (g : Parameters) (sn : Sensors) (p : Plane) : Plane :=
  let er := e_r (circle p) in
  let ec := e_chi (circle p) in
  let ph := phi (circle p) in
  if (TPARAM_switch_mo g =? 1)%Z then
    let r := calc_controller sn er (chi_r (circle p)) p in
    let p := set_u_star (snd r) (Vg_limited (law (snd r)) * fst r) in
    set_alpha_L_conv p (wrap_PI (ph - chi (shared p)))
  else if (TPARAM_switch_mo g =? 2)%Z then
    let p := set_det g p in
    let a := det_a (law p) in
    let b := det_b (law p) in
    let p := set_u_star p
               (- b * (ec + atan (a * er))
                - (a * v_g (shared p) * sin ec) / (1 + a ^ 2 * er ^ 2)) in
    set_alpha_L_conv p (wrap_PI (ph - chi (shared p)))
  else if (TPARAM_switch_mo g =? 3)%Z then
    let p := set_det g p in
    let a := det_a (law p) in
    let b := det_b (law p) in
    let p := set_u_star p (- (1 / b) * (v_g (shared p) * er + a * ec)) in
    set_alpha_L_conv p (wrap_PI (ph - chi (shared p)))
  else if (TPARAM_switch_mo g =? 4)%Z then
    let p := set_L_1 p (TPARAM_L_1 g) in
    let p := lookahead_eta p er ec in
    let p := set_u_star p (2 * v_a (shared p) * sin (eta (law p)) / L_1 (law p)) in
    set_alpha_L_conv p (wrap_PI (ph - chi (shared p)))
  else p.

(** The distance [arg_r] from the circle centre. *)
Definition circle_distance (sn : Sensors) (p : Plane) : Plane :=
  let c := circle p in
  with_circle p
    {| arg_r := get_distance (Target_Circle_Center (sup p)) (current_loc sn);
       theta := theta c; prev_theta := prev_theta c; Int_theta := Int_theta c;
       diff_theta := diff_theta c; chi_r := chi_r c; e_r := e_r c;
       e_chi := e_chi c; phi := phi c; r_limited := r_limited c;
       mid_POS := mid_POS c |}.

(** The second [switch]: reference course [chi_r], radial error [e_r] and
    course error [e_chi], by turn direction. *)
Definition circle_errors (p : Plane) : Plane :=
  let left := (TLAB_Control_flag (sup p) =? 1)%Z in
  let c := circle p in
  let cr := if left then wrap_PI (theta c - PI * 0.5)
            else wrap_PI (theta c + PI * 0.5) in
  let er := if left then arg_r c - target_R (lccfg p)
            else target_R (lccfg p) - arg_r c in
  with_circle p
    {| arg_r := arg_r c; theta := theta c; prev_theta := prev_theta c;
       Int_theta := Int_theta c; diff_theta := diff_theta c;
       chi_r := cr; e_r := er; e_chi := wrap_PI (chi (shared p) - cr);
       phi := phi c; r_limited := r_limited c; mid_POS := mid_POS c |}.

(** The update of [prev_POS] when the position has moved. *)
Definition update_prev_POS (sn : Sensors) (p : Plane) : Plane :=
  if negb (lat (prev_POS (shared p)) =? lat (current_loc sn))%Z
     || negb (lng (prev_POS (shared p)) =? lng (current_loc sn))%Z
  then set_prev_POS p (current_loc sn) else p.

(** The heading [phi]. *)
Definition circle_heading (sn : Sensors) (p : Plane) : Plane :=
  let c := circle p in
  with_circle p
    {| arg_r := arg_r c; theta := theta c; prev_theta := prev_theta c;
       Int_theta := Int_theta c; diff_theta := diff_theta c;
       chi_r := chi_r c; e_r := e_r c; e_chi := e_chi c;
       phi := wrap_PI (IZR (ahrs_yaw_sensor sn) * 0.01 * PI / 180);
       r_limited := r_limited c; mid_POS := mid_POS c |}.

(** The closing assignments of [TLAB_Circle_Trace_Controller]: the radius
    floor [r_limited], the bar angle [u] with its centripetal feed-forward
    term, and the servo angle. *)
Definition circle_command (g : Parameters) (p : Plane) : Plane :=
  let left := (TLAB_Control_flag (sup p) =? 1)%Z in
  let c := circle p in
  let rl := if Rltb (arg_r c) (r_min (lccfg p)) then r_min (lccfg p)
            else arg_r c in
  let p := with_circle p
    {| arg_r := arg_r c; theta := theta c; prev_theta := prev_theta c;
       Int_theta := Int_theta c; diff_theta := diff_theta c;
       chi_r := chi_r c; e_r := e_r c; e_chi := e_chi c; phi := phi c;
       r_limited := rl; mid_POS := mid_POS c |} in
  let l := law p in
  let k := const_k (lccfg p) in
  let ff := Vg_limited l * L_conv l / (rl * k) * cos (e_chi (circle p)) in
  let p := set_u p (if left then L_conv l / k * u_star l - ff
                    else L_conv l / k * u_star l + ff) in
  let p := set_u p
    (constrain_float (u (shared p))
                     (U_min (lccfg p) * PI / 180) (U_max (lccfg p) * PI / 180)
     + TPARAM_servo_neutral g * PI / 180) in
  set_servo p (servo_of_u (u (shared p))).

(** [Plane::TLAB_Circle_Trace_Controller], as the succession of its
    stages. *)
Definition TLAB_Circle_Trace_Controller
    (g : Parameters) (sn : Sensors) (p : Plane) : Z * Plane :=
  let p :=
    circle_command g
      (circle_law g sn
         (circle_heading sn
            (update_prev_POS sn
               (limit_speed sn
                  (circle_errors
                     (circle_angles sn (circle_distance sn p))))))) in
  (servo (shared p), p).

(** [Plane::init_TLAB_Controller]. *)
Definition init_TLAB_Controller (g : Parameters) (p : Plane) : Plane :=
  let combine := (TPARAM_Combine g =? 1)%Z in
  let sp := sup p in
  let p := with_sup p
    {| TLAB_Control_flag := if combine then 0%Z else TPARAM_control_mode g;
       TLAB_WP_nav_flag := false;
       change_to_circle_flag := false;
       init_TLAB_Controller_flag := false;
       init_TLAB_Controller_AUTO_flag := init_TLAB_Controller_AUTO_flag sp;
       Target_Circle_Center :=
         {| lat := TPARAM_center_lat g; lng := TPARAM_center_lng g;
            alt := alt (Target_Circle_Center sp) |} |} in
  let p := set_v_a p (TPARAM_Va g) in
  let c := lccfg p in
  let fuzzy := negb (TPARAM_rule_num g =? 0)%Z in
  with_lccfg p
    {| calc_GCRS_flag := TPARAM_calc_GCRS g;
       const_k := TPARAM_k g;
       Vg_min := TPARAM_Vg_min g;
       Vg_max := TPARAM_Vg_max g;
       alpha_min := TPARAM_alpha_min g * PI / 180;
       alpha_max := TPARAM_alpha_max g * PI / 180;
       r_min := TPARAM_r_min g;
       target_R := TPARAM_R g;
       U_min := TPARAM_U_min g;
       U_max := TPARAM_U_max g;
       use_fuzzy_controller := fuzzy;
       rule_num := if fuzzy
                   then (if (TPARAM_rule_num g =? 2)%Z then 2%Z else 4%Z)
                   else rule_num c;
       phi_max := if fuzzy then TPARAM_phi_max g * PI / 180 else phi_max c;
       F_fuzzy := if fuzzy
                  then [[TPARAM_F11 g; TPARAM_F12 g]; [TPARAM_F21 g; TPARAM_F22 g];
                        [TPARAM_F31 g; TPARAM_F32 g]; [TPARAM_F41 g; TPARAM_F42 g]]
                  else F_fuzzy c;
       Combine_Mode_flag := combine;
       alternate_orbit_flag := (TPARAM_alternate g =? 1)%Z;
       change_y := TPARAM_change_y g;
       orbit_num := TPARAM_orbit_num g |}.

Definition set_TLAB_Control_flag (p : Plane) (v : Z) : Plane :=
  let sp := sup p in
  with_sup p
    {| TLAB_Control_flag := v;
       TLAB_WP_nav_flag := TLAB_WP_nav_flag sp;
       change_to_circle_flag := change_to_circle_flag sp;
       init_TLAB_Controller_flag := init_TLAB_Controller_flag sp;
       init_TLAB_Controller_AUTO_flag := init_TLAB_Controller_AUTO_flag sp;
       Target_Circle_Center := Target_Circle_Center sp |}.

Definition set_Target_Circle_Center (p : Plane) (v : Location) : Plane :=
  let sp := sup p in
  with_sup p
    {| TLAB_Control_flag := TLAB_Control_flag sp;
       TLAB_WP_nav_flag := TLAB_WP_nav_flag sp;
       change_to_circle_flag := change_to_circle_flag sp;
       init_TLAB_Controller_flag := init_TLAB_Controller_flag sp;
       init_TLAB_Controller_AUTO_flag := init_TLAB_Controller_AUTO_flag sp;
       Target_Circle_Center := v |}.

Definition set_Int_theta (p : Plane) (v : R) : Plane :=
  let c := circle p in
  with_circle p
    {| arg_r := arg_r c; theta := theta c; prev_theta := prev_theta c;
       Int_theta := v; diff_theta := diff_theta c; chi_r := chi_r c;
       e_r := e_r c; e_chi := e_chi c; phi := phi c;
       r_limited := r_limited c; mid_POS := mid_POS c |}.

(** The assignments of the LINE branch taken when the circle-switch trigger
    is set: the trigger is consumed, the circle centre is the waypoint just
    left, the circle law is asked to re-initialise and the turn direction is
    chosen. *)
Definition enter_circle (g : Parameters) (sn : Sensors) (p : Plane) : Plane :=
  let sp := sup p in
  with_sup p
    {| TLAB_Control_flag :=
         if alternate_orbit_flag (lccfg p)
         then to_int8 (Z.rem (TLAB_CMD_index (shared p)) 2 + 1)
         else if (TPARAM_control_mode g =? 1)%Z then 1%Z else 2%Z;
       TLAB_WP_nav_flag := TLAB_WP_nav_flag sp;
       change_to_circle_flag := false;
       init_TLAB_Controller_flag := init_TLAB_Controller_flag sp;
       init_TLAB_Controller_AUTO_flag := true;
       Target_Circle_Center := prev_WP_loc sn |}.

(** [Plane::TLAB_Combine_Controller]: the supervisor that alternates
    between line tracking ([TLAB_Control_flag = 0]) and circle tracking
    ([TLAB_Control_flag] 1 or 2). *)
Definition TLAB_Combine_Controller
    (g : Parameters) (sn : Sensors) (p : Plane) : Z * Plane :=
  if negb (TLAB_WP_nav_flag (sup p)) then
    TLAB_Line_Trace_Controller g sn (set_TLAB_Control_flag p 0)
  else if (TLAB_Control_flag (sup p) =? 0)%Z then
    if change_to_circle_flag (sup p) then
      let p := enter_circle g sn p in
      let p := gcs_send_text_fmt p "change to circle trace mode" in
      TLAB_Circle_Trace_Controller g sn p
    else TLAB_Line_Trace_Controller g sn p
  else
    let p := set_Target_Circle_Center p (prev_WP_loc sn) in
    let r := TLAB_Line_Trace_Controller g sn p in
    let p := snd r in
    if Rgtb (Rabs (Int_theta (circle p))) (2 * PI * orbit_num (lccfg p))
       && Rgtb (state_UAV_x (line p)) 0
       && Rltb (Rabs (state_UAV_y (line p))) (change_y (lccfg p))
    then
      let p := set_TLAB_Control_flag p 0 in
      let p := set_Int_theta p 0 in
      let p := gcs_send_text_fmt p "change to line trace mode" in
      TLAB_Line_Trace_Controller g sn p
    else TLAB_Circle_Trace_Controller g sn p.

(** ** Path generator *)

(** [location_diff(origin, loc)] followed by the exchange of the two
    components ([Px = P.y; Py = P.x; P.x = Px; P.y = Py]). *)
Definition swapped_diff (origin loc : Location) : Vector2f :=
  let d := location_diff origin loc in
  {| x := y d; y := x d |}.

(** The local [Location WP0] whose latitude and longitude come from the
    configuration.  Its altitude is never assigned; the model reads 0. *)
Definition WP0_of (g : Parameters) : Location :=
  {| lat := TPARAM_Path_Origin_lat g; lng := TPARAM_Path_Origin_lng g;
     alt := 0%Z |}.

Definition set_segment (ps : PathState) (d : R) (p0 p1 : Vector2f) : PathState :=
  {| Path_Mode := Path_Mode ps; s := s ps; zeta := zeta ps;
     P0 := p0; P1 := p1; dist_WPs := d;
     i_now_CMD := i_now_CMD ps; change_path_flag := change_path_flag ps;
     dot_zeta := dot_zeta ps; x_d := x_d ps; y_d := y_d ps;
     chi_d := chi_d ps; dot_chi_d := dot_chi_d ps; kappa := kappa ps;
     s_calc := s_calc ps; i_zeta := i_zeta ps |}.

Definition set_change_path_flag (ps : PathState) (b : bool) : PathState :=
  {| Path_Mode := Path_Mode ps; s := s ps; zeta := zeta ps;
     P0 := P0 ps; P1 := P1 ps; dist_WPs := dist_WPs ps;
     i_now_CMD := i_now_CMD ps; change_path_flag := b;
     dot_zeta := dot_zeta ps; x_d := x_d ps; y_d := y_d ps;
     chi_d := chi_d ps; dot_chi_d := dot_chi_d ps; kappa := kappa ps;
     s_calc := s_calc ps; i_zeta := i_zeta ps |}.

Definition set_Path_Mode (ps : PathState) (m : Z) : PathState :=
  {| Path_Mode := m; s := s ps; zeta := zeta ps;
     P0 := P0 ps; P1 := P1 ps; dist_WPs := dist_WPs ps;
     i_now_CMD := i_now_CMD ps; change_path_flag := change_path_flag ps;
     dot_zeta := dot_zeta ps; x_d := x_d ps; y_d := y_d ps;
     chi_d := chi_d ps; dot_chi_d := dot_chi_d ps; kappa := kappa ps;
     s_calc := s_calc ps; i_zeta := i_zeta ps |}.

Definition set_i_now_CMD (ps : PathState) (n : Z) : PathState :=
  {| Path_Mode := Path_Mode ps; s := s ps; zeta := zeta ps;
     P0 := P0 ps; P1 := P1 ps; dist_WPs := dist_WPs ps;
     i_now_CMD := n; change_path_flag := change_path_flag ps;
     dot_zeta := dot_zeta ps; x_d := x_d ps; y_d := y_d ps;
     chi_d := chi_d ps; dot_chi_d := dot_chi_d ps; kappa := kappa ps;
     s_calc := s_calc ps; i_zeta := i_zeta ps |}.

(** [s = 0; change_path_flag = false], with [zeta] left as given. *)
Definition reset_s (ps : PathState) (zeta' : R) : PathState :=
  {| Path_Mode := Path_Mode ps; s := 0; zeta := zeta';
     P0 := P0 ps; P1 := P1 ps; dist_WPs := dist_WPs ps;
     i_now_CMD := i_now_CMD ps; change_path_flag := false;
     dot_zeta := dot_zeta ps; x_d := x_d ps; y_d := y_d ps;
     chi_d := chi_d ps; dot_chi_d := dot_chi_d ps; kappa := kappa ps;
     s_calc := s_calc ps; i_zeta := i_zeta ps |}.

(** The outputs of one path primitive. *)
Definition set_outputs (ps : PathState)
    (zeta' dot_zeta' x_d' y_d' chi_d' dot_chi_d' kappa' : R) : PathState :=
  {| Path_Mode := Path_Mode ps; s := s ps; zeta := zeta';
     P0 := P0 ps; P1 := P1 ps; dist_WPs := dist_WPs ps;
     i_now_CMD := i_now_CMD ps; change_path_flag := change_path_flag ps;
     dot_zeta := dot_zeta'; x_d := x_d'; y_d := y_d';
     chi_d := chi_d'; dot_chi_d := dot_chi_d'; kappa := kappa';
     s_calc := s_calc ps; i_zeta := i_zeta ps |}.

Definition set_search (ps : PathState) (sc : R) (iz : Z) : PathState :=
  {| Path_Mode := Path_Mode ps; s := s ps; zeta := zeta ps;
     P0 := P0 ps; P1 := P1 ps; dist_WPs := dist_WPs ps;
     i_now_CMD := i_now_CMD ps; change_path_flag := change_path_flag ps;
     dot_zeta := dot_zeta ps; x_d := x_d ps; y_d := y_d ps;
     chi_d := chi_d ps; dot_chi_d := dot_chi_d ps; kappa := kappa ps;
     s_calc := sc; i_zeta := iz |}.

(** The straight segment between the previous and the next waypoint. *)
Definition segment_prev_next (sn : Sensors) (origin : Location)
    (ps : PathState) : PathState :=
  set_segment ps (get_distance (prev_WP_loc sn) (next_WP_loc sn))
              (swapped_diff origin (prev_WP_loc sn))
              (swapped_diff origin (next_WP_loc sn)).

(** The straight segment from the configured start [WP0] to the next
    waypoint. *)
Definition segment_WP0_next (g : Parameters) (sn : Sensors) (origin : Location)
    (ps : PathState) : PathState :=
  set_segment ps (get_distance (WP0_of g) (next_WP_loc sn))
              (swapped_diff origin (WP0_of g))
              (swapped_diff origin (next_WP_loc sn)).

(** The two tests made while a straight segment is being approached: with
    [zeta < 0.1] a change of waypoint index redefines the segment, with
    [zeta >= 0.1] it arms the pending switch. *)
Definition approach (changed : bool) (redefine : PathState -> PathState)
    (ps : PathState) : PathState :=
  if Rltb (zeta ps) 0.1 && changed then redefine ps
  else if Rgeb (zeta ps) 0.1 && changed then set_change_path_flag ps true
  else ps.

(** The test made on a closed curve: only arming. *)
Definition arm (changed : bool) (ps : PathState) : PathState :=
  if Rgeb (zeta ps) 0.1 && changed then set_change_path_flag ps true else ps.

(** The first [switch] of [TLAB_generate_2D_Path]: selection and switching of
    the path primitive according to [Flight_Plan].  The second component is
    the local [zeta_prev].  The source writes five [case]s; [case 1] and
    [case 4] have the same text up to the arc they switch to (Path_Mode 5,
    respectively 4), and [case 2] and [case 3] up to the closed curve
    (Path_Mode 6, respectively 3, whose [P1] is moved by [TPARAM_r]) and the
    value of [zeta] at which the curve is left ([4*pi], respectively [pi]);
    they are written once each here.  [case 0] resets [zeta] where the other
    cases reset [zeta_prev]. *)
Definition plan_step (g : Parameters) (sn : Sensors) (origin : Location)
    (plan : Z) (changed : bool) (ps : PathState) (zeta_prev : R)
    : PathState * R :=
  if (plan =? 0)%Z then
    let ps := set_Path_Mode ps 0 in
    let ps := approach changed (segment_prev_next sn origin) ps in
    if change_path_flag ps && Rgeb (zeta ps) 1 then
      let ps := reset_s ps 0 in
      let ps :=
        if (i_now_CMD ps =? 2)%Z
        then set_segment ps (get_distance (WP0_of g) (next_WP_loc sn))
                         (swapped_diff origin (WP0_of g)) (P1 ps)
        else set_segment ps (get_distance (prev_WP_loc sn) (next_WP_loc sn))
                         (swapped_diff origin (prev_WP_loc sn)) (P1 ps) in
      (set_segment ps (dist_WPs ps) (P0 ps)
                   (swapped_diff origin (next_WP_loc sn)), zeta_prev)
    else (ps, zeta_prev)
  else if (plan =? 1)%Z || (plan =? 4)%Z then
    if (Path_Mode ps =? 0)%Z then
      let ps := approach changed
                  (fun q => segment_WP0_next g sn origin (set_Path_Mode q 0)) ps in
      if change_path_flag ps && Rgeb (zeta ps) 1 then
        let ps := reset_s ps (zeta ps) in
        let ps := segment_prev_next sn origin ps in
        (set_Path_Mode ps (if (plan =? 1)%Z then 5 else 4), 0)
      else (ps, zeta_prev)
    else (ps, zeta_prev)
  else if (plan =? 2)%Z || (plan =? 3)%Z then
    let curve := if (plan =? 2)%Z then 6%Z else 3%Z in
    let r1 :=
      if (Path_Mode ps =? 0)%Z then
        let ps := approach changed (segment_prev_next sn origin) ps in
        if change_path_flag ps && Rgeb (zeta ps) 1 then
          let ps := reset_s ps (zeta ps) in
          let ps := segment_prev_next sn origin ps in
          let ps :=
            if (i_now_CMD ps =? 3)%Z then
              if (plan =? 2)%Z then set_Path_Mode ps 6
              else
                set_Path_Mode
                  (set_segment ps (dist_WPs ps) (P0 ps)
                     {| x := x (P1 ps) - TPARAM_r g;
                        y := y (P1 ps) - TPARAM_r g |}) 3
            else ps in
          (ps, 0)
        else (ps, zeta_prev)
      else (ps, zeta_prev) in
    let ps := fst r1 in
    if (Path_Mode ps =? curve)%Z then
      let ps := arm changed ps in
      if change_path_flag ps
         && Rgeb (zeta ps) (if (plan =? 2)%Z then 4 * PI else PI) then
        let ps := reset_s ps (zeta ps) in
        let ps := segment_prev_next sn origin ps in
        (set_Path_Mode ps 0, 0)
      else (ps, snd r1)
    else (ps, snd r1)
  else (ps, zeta_prev).

(** The arc-length search of the Lissajous primitives:
[[
    while (1) {
        dPdzeta = r*sqrt(25*sin(5*dzeta*i_zeta)^2 + 36*sin(6*dzeta*i_zeta)^2);
        s_calc += dPdzeta*dzeta;
        if (s_calc >= s) { zeta = i_zeta*dzeta; break; }
        i_zeta++;
    }
]]
    The source loop has no iteration bound, so the model takes the number of
    iterations it may run as [fuel] and answers [None] when that number is
    exhausted.  The result is [(zeta, s_calc, i_zeta)]; [s_calc] and
    [i_zeta] are members and persist between calls. *)
Fixpoint zeta_search (fuel : nat) (r dzeta s_target sc : R) (iz : Z)
    : option (R * R * Z) :=
  match fuel with
  | O => None
  | S fuel' =>
      let dPdzeta :=
        r * sqrt (25 * sin (5 * dzeta * IZR iz) ^ 2
                  + 36 * sin (6 * dzeta * IZR iz) ^ 2) in
      let sc' := sc + dPdzeta * dzeta in
      if Rgeb sc' s_target then Some (IZR iz * dzeta, sc', iz)
      else zeta_search fuel' r dzeta s_target sc' (iz + 1)
  end.

(** The second [switch] of [TLAB_generate_2D_Path]: evaluation of the active
    primitive at arc length [s].  [dt0] is the member [dt], [zeta_prev] the
    local of that name, [lg] the numeric event log. *)
Definition path_primitive (fuel : nat) (g : Parameters) (dt0 zeta_prev : R)
    (ps : PathState) (lg : list fault) : option (PathState * list fault) :=
  let r := TPARAM_r g in
  let p0 := P0 ps in
  let p1 := P1 ps in
  let d := dist_WPs ps in
  if (Path_Mode ps =? 0)%Z then
    let '(zt, lg) := fdiv "zeta" (s ps) d lg in
    let '(dz, lg) := fdiv "dot_zeta" (zt - zeta_prev) dt0 lg in
    Some (set_outputs ps zt dz
            ((1 - zt) * x p0 + zt * x p1)
            ((1 - zt) * y p0 + zt * y p1)
            (- atan2 (y p1 - y p0) (x p1 - x p0))
            0 0, lg)
  else if (Path_Mode ps =? 1)%Z then
    let '(q, lg) := fdiv "zeta" (s ps) d lg in
    let zt := q * 2 in
    let '(dz, lg) := fdiv "dot_zeta" (zt - zeta_prev) dt0 lg in
    let '(kp, lg) := fdiv "kappa" 2 d lg in
    Some (set_outputs ps zt dz
            (d / 2 * cos zt + (x p0 + x p1) / 2)
            (d / 2 * sin zt + (y p0 + y p1) / 2)
            (atan2 (cos zt) (sin zt))
            (- dz) kp, lg)
  else if (Path_Mode ps =? 2)%Z then
    let '(q, lg) := fdiv "zeta" (s ps) d lg in
    let zt := q * 2 in
    let '(dz, lg) := fdiv "dot_zeta" (zt - zeta_prev) dt0 lg in
    let '(kp, lg) := fdiv "kappa" 2 d lg in
    Some (set_outputs ps zt dz
            (d / 2 * cos (- zt) + (x p0 + x p1) / 2)
            (d / 2 * sin (- zt) + (y p0 + y p1) / 2)
            (atan2 (cos zt) (- sin zt))
            dz kp, lg)
  else if (Path_Mode ps =? 3)%Z then
    match zeta_search fuel r (TPARAM_dzeta g) (s ps) (s_calc ps) (i_zeta ps) with
    | None => None
    | Some (zt, sc, iz) =>
        let ps := set_search ps sc iz in
        let '(dz, lg) := fdiv "dot_zeta" (zt - zeta_prev) dt0 lg in
        let '(dc, lg) :=
          fdiv "dot_chi_d" (- 30 * dz * (sin (11 * zt) - 11 * sin zt))
               (25 * cos (10 * zt) + 36 * cos (12 * zt) - 61) lg in
        let '(kp, lg) :=
          fdiv "kappa" (15 * Rabs (11 * sin zt - sin (11 * zt)))
               (r * Rpower (25 * sin (5 * zt) ^ 2 + 36 * sin (6 * zt) ^ 2) 1.5)
               lg in
        Some (set_outputs ps zt dz
                (- r * cos (5 * zt) + x p1)
                (r * cos (6 * zt) + y p1)
                (atan2 (6 / 5 * sin (6 * zt)) (sin (5 * zt)))
                dc kp, lg)
    end
  else if (Path_Mode ps =? 4)%Z then
    let '(zt, lg) := fdiv "zeta" (s ps) r lg in
    let '(dz, lg) := fdiv "dot_zeta" (zt - zeta_prev) dt0 lg in
    let '(kp, lg) := fdiv "kappa" 1 r lg in
    Some (set_outputs ps zt dz
            (- r * cos zt + x p1)
            (- r * sin zt + y p1)
            (atan2 (cos zt) (sin zt))
            (- dz) kp, lg)
  else if (Path_Mode ps =? 5)%Z then
    let '(zt, lg) := fdiv "zeta" (s ps) r lg in
    let '(dz, lg) := fdiv "dot_zeta" (zt - zeta_prev) dt0 lg in
    let '(kp, lg) := fdiv "kappa" 1 r lg in
    Some (set_outputs ps zt dz
            (- r * cos zt + x p1)
            (r * sin zt + y p1)
            (atan2 (- cos zt) (sin zt))
            dz kp, lg)
  else if (Path_Mode ps =? 6)%Z then
    match zeta_search fuel r (TPARAM_dzeta g) (s ps) (s_calc ps) (i_zeta ps) with
    | None => None
    | Some (zt, sc, iz) =>
        let ps := set_search ps sc iz in
        let '(dz, lg) := fdiv "dot_zeta" (zt - zeta_prev) dt0 lg in
        let '(dc, lg) :=
          fdiv "dot_chi_d" (dz * sin zt * (2 * sin zt ^ 2 - 3))
               (4 * sin zt ^ 4 - 5 * sin zt ^ 2 + 2) lg in
        let '(kq, lg) :=
          fdiv "kappa" (Rabs (sin zt) * (2 * sin zt ^ 2 - 3))
               (2 * r * Rpower (4 * cos zt ^ 4 - 3 * cos zt ^ 2 + 1) 1.5) lg in
        Some (set_outputs ps zt dz
                (2 * r * sin zt + x p1)
                (r * sin (2 * zt) + y p1)
                (atan2 (- cos (2 * zt)) (cos zt))
                (- dc) (- kq), lg)
    end
  else
    Some (set_outputs ps 0 (dot_zeta ps) (x_d ps) (y_d ps) (chi_d ps)
                      (dot_chi_d ps) (kappa ps), lg).

(** [Plane::TLAB_generate_2D_Path]. *)
Definition TLAB_generate_2D_Path (fuel : nat) (g : Parameters) (sn : Sensors)
    (p : Plane) : option Plane :=
  let i_prev_CMD := i_now_CMD (path p) in
  let ps := set_i_now_CMD (path p) (TLAB_CMD_index (shared p)) in
  let zeta_prev := zeta ps in
  let changed := negb (i_now_CMD ps =? i_prev_CMD)%Z in
  let r := plan_step g sn (Path_Origin (p2cfg p)) (Flight_Plan (p2cfg p))
                     changed ps zeta_prev in
  match path_primitive fuel g (dt (trace p)) (snd r) (fst r)
                       (faults (shared p)) with
  | None => None
  | Some (ps, lg) => Some (set_faults (with_path p ps) lg)
  end.

(** ** Gain-scheduled lateral law *)

(** [Plane::TLAB_Constant_Output]. *)
Definition TLAB_Constant_Output (g : Parameters) (p : Plane) : Z * Plane :=
  let p := if negb (yet_init (shared p))
           then set_yet_init (set_servo p 0) true else p in
  let p := set_servo p (cast_int32 (TPARAM_servo_neutral g * 100)) in
  (servo (shared p), p).

(** [Plane::init_TLAB_2D_Trace_Controller]. *)
Definition init_TLAB_2D_Trace_Controller (g : Parameters) (sn : Sensors)
    (p : Plane) : Plane :=
  let p := set_v_a p (TPARAM_v_a g) in
  let origin :=
    {| lat := lat (prev_WP_loc sn); lng := lng (prev_WP_loc sn);
       alt := alt (Path_Origin (p2cfg p)) |} in
  let cmax := TPARAM_chiF_max_deg g * PI / 180 in
  let '(q, lg) := fdiv "z2_min" (TPARAM_v_g_max g * sin cmax) cmax
                       (faults (shared p)) in
  let p := set_faults p lg in
  let p := with_p2cfg p
    {| k_prop_const := TPARAM_k_prop_const g;
       Path_Origin := origin;
       Flight_Plan := TPARAM_Flight_Plan g;
       Fx := [TPARAM_Fx1 g; TPARAM_Fx2 g; TPARAM_Fx3 g];
       Fchi := [[TPARAM_Fchi1_1 g; TPARAM_Fchi1_2 g; TPARAM_Fchi1_3 g];
                [TPARAM_Fchi2_1 g; TPARAM_Fchi2_2 g; TPARAM_Fchi2_3 g];
                [TPARAM_Fchi3_1 g; TPARAM_Fchi3_2 g; TPARAM_Fchi3_3 g];
                [TPARAM_Fchi4_1 g; TPARAM_Fchi4_2 g; TPARAM_Fchi4_3 g]];
       v_g_min := TPARAM_v_g_min g;
       v_g_max := TPARAM_v_g_max g;
       kappa_max := TPARAM_kappa_max g;
       kappa_min := TPARAM_kappa_min g;
       u_x_max := TPARAM_u_x_max g;
       chiF_max := cmax;
       z1_max := (TPARAM_v_g_max g + TPARAM_u_x_max g) * TPARAM_kappa_max g;
       z1_min := (TPARAM_v_g_max g + TPARAM_u_x_max g) * TPARAM_kappa_min g;
       z2_max := TPARAM_v_g_max g;
       z2_min := q |} in
  let ps := path p in
  let p := with_path p
    {| Path_Mode := 0; s := 0; zeta := 0;
       P0 := location_diff origin (prev_WP_loc sn);
       P1 := location_diff origin (next_WP_loc sn);
       dist_WPs := get_distance (prev_WP_loc sn) (next_WP_loc sn);
       i_now_CMD := 0; change_path_flag := change_path_flag ps;
       dot_zeta := dot_zeta ps; x_d := x_d ps; y_d := y_d ps;
       chi_d := chi_d ps; dot_chi_d := dot_chi_d ps; kappa := kappa ps;
       s_calc := s_calc ps; i_zeta := i_zeta ps |} in
  let t := trace p in
  with_trace p
    {| u_x := 0; t_now := micros64 sn; dt := dt t; xI := xI t; yI := yI t;
       psi := psi t; xF := xF t; yF := yF t; chiF := chiF t;
       u_x_calc := u_x_calc t; K1 := K1 t; K2 := K2 t; M1 := M1 t; M2 := M2 t;
       h_chi := h_chi t; u_chi := u_chi t; ds := ds t; d_angle := d_angle t;
       bar_angle := bar_angle t |}.

(** The membership pairs [(K1, K2)] and [(M1, M2)] of the lateral law: the
    nonlinear terms [z1], [z2], the normalisation against the configured
    ranges and the upper/lower cut, in the order of the source.  The result
    is [(K1, K2, M1, M2)] with the numeric event log. *)
Definition lateral_membership (c : P2Config) (vg chiF0 ux kp : R)
    (lg : list fault) : (R * R * R * R) * list fault :=
  let z1 := (vg * cos chiF0 + ux) * kp in
  let '(z2, lg) := fdiv "z2" (vg * sin chiF0) chiF0 lg in
  let '(k1, k2, lg) :=
    if Reqb chiF0 0 then (1, 0, lg)
    else
      let '(a, lg) := fdiv "K1" (z2 - z2_min c) (z2_max c - z2_min c) lg in
      let '(b, lg) := fdiv "K2" (z2_max c - z2) (z2_max c - z2_min c) lg in
      (a, b, lg) in
  let '(m1, lg) := fdiv "M1" (z1 - z1_min c) (z1_max c - z1_min c) lg in
  let '(m2, lg) := fdiv "M2" (z1_max c - z1) (z1_max c - z1_min c) lg in
  let '(k1, k2) :=
    if Rgtb k1 1 then (1, 0) else if Rltb k1 0 then (0, 1) else (k1, k2) in
  let '(m1, m2) :=
    if Rgtb m1 1 then (1, 0) else if Rltb m1 0 then (0, 1) else (m1, m2) in
  ((k1, k2, m1, m2), lg).

(** The components of the result of [lateral_membership]. *)
Definition K1_of (r : (R * R * R * R) * list fault) : R := fst (fst (fst (fst r))).
Definition K2_of (r : (R * R * R * R) * list fault) : R := snd (fst (fst (fst r))).
Definition M1_of (r : (R * R * R * R) * list fault) : R := snd (fst (fst r)).
Definition M2_of (r : (R * R * R * R) * list fault) : R := snd (fst r).

(** The four blend weights [h_chi[0..3]]. *)
Definition blend_h_chi (k1 k2 m1 m2 : R) : list R :=
  [k1 * m1; k2 * m1; k1 * m2; k2 * m2].

(** [u_x_calc]: the loop [for i < 3: u_x_calc -= Fx[i]*X[i]]. *)
Definition calc_u_x (fx X : list R) : R :=
  fold_left (fun acc i => acc - elem fx i * elem X i) (seq 0 3) 0.

(** [u_chi_calc]: the double loop
    [for i < 4: for j < 3: u_chi_calc -= h_chi[i]*Fchi[i][j]*X[j]]. *)
Definition calc_u_chi (h : list R) (fchi : list (list R)) (X : list R) : R :=
  fold_left
    (fun acc i =>
       fold_left (fun acc j => acc - elem h i * elem2 fchi i j * elem X j)
                 (seq 0 3) acc)
    (seq 0 4) 0.

(** The opening of a control cycle: time step, inertial position, heading,
    course and ground speed are sampled into the members. *)
Definition sample_state (sn : Sensors) (p : Plane) : Plane :=
  let t := trace p in
  let t_prev := t_now t in
  let tn := micros64 sn in
  let xyI := location_diff (Path_Origin (p2cfg p)) (current_loc sn) in
  let p := with_trace p
    {| u_x := u_x t; t_now := tn; dt := IZR (sub_uint64 tn t_prev) * 1e-6;
       xI := y xyI; yI := x xyI; psi := wrap_2PI (ahrs_yaw sn - PI / 2);
       xF := xF t; yF := yF t; chiF := chiF t;
       u_x_calc := u_x_calc t; K1 := K1 t; K2 := K2 t; M1 := M1 t; M2 := M2 t;
       h_chi := h_chi t; u_chi := u_chi t; ds := ds t; d_angle := d_angle t;
       bar_angle := bar_angle t |} in
  let p := set_chi p (wrap_2PI (gps_ground_course sn * PI / 180 - PI / 2)) in
  set_v_g p (gps_ground_speed sn).

(** The control cycle of [TLAB_2D_Trace_Controller] once the members are
    initialised (everything after the [yet_init] test). *)
Definition TLAB_2D_Trace_law (fuel : nat) (g : Parameters) (sn : Sensors)
    (p : Plane) : option (Z * Plane) :=
  let p := sample_state sn p in
  match TLAB_generate_2D_Path fuel g sn p with
  | None => None
  | Some p =>
      let t := trace p in
      let ps := path p in
      let vg := v_g (shared p) in
      let e_xI := x_d ps - xI t in
      let e_yI := y_d ps - yI t in
      let xF' := - cos (chi_d ps) * e_xI + sin (chi_d ps) * e_yI in
      let yF' := - sin (chi_d ps) * e_xI - cos (chi_d ps) * e_yI in
      let chiF' := wrap_PI (chi_d ps - chi (shared p)) in
      let X := [xF'; yF'; chiF'] in
      let ux := calc_u_x (Fx (p2cfg p)) X in
      let '(k1, k2, m1, m2, lg) :=
        lateral_membership (p2cfg p) vg chiF' ux (kappa ps) (faults (shared p)) in
      let h := blend_h_chi k1 k2 m1 m2 in
      let uchi := calc_u_chi h (Fchi (p2cfg p)) X in
      let ds' := ux + vg * cos chiF' in
      let p := with_path p
        {| Path_Mode := Path_Mode ps; s := s ps + ds' * dt t; zeta := zeta ps;
           P0 := P0 ps; P1 := P1 ps; dist_WPs := dist_WPs ps;
           i_now_CMD := i_now_CMD ps; change_path_flag := change_path_flag ps;
           dot_zeta := dot_zeta ps; x_d := x_d ps; y_d := y_d ps;
           chi_d := chi_d ps; dot_chi_d := dot_chi_d ps; kappa := kappa ps;
           s_calc := s_calc ps; i_zeta := i_zeta ps |} in
      let '(q1, lg) := fdiv "d_angle" 1 (k_prop_const (p2cfg p)) lg in
      let '(q2, lg) := fdiv "d_angle" (q1 * vg) (v_a (shared p)) lg in
      let '(q3, lg) := fdiv "d_angle" q2 (cos (chi (shared p) - psi t)) lg in
      let dang := cast_int32 (q3 * (- uchi + dot_chi_d ps) * 100 * 180 / PI) in
      let bar := IZR dang + TPARAM_servo_neutral g * 100 in
      let p := set_faults p lg in
      let p := with_trace p
        {| u_x := ux; t_now := t_now t; dt := dt t; xI := xI t; yI := yI t;
           psi := psi t; xF := xF'; yF := yF'; chiF := chiF';
           u_x_calc := ux; K1 := k1; K2 := k2; M1 := m1; M2 := m2;
           h_chi := h; u_chi := uchi; ds := ds'; d_angle := dang;
           bar_angle := bar |} in
      let p := set_u p (bar / 100 * PI / 180) in
      let p := set_servo p (servo_of_u (u (shared p))) in
      Some (servo (shared p), p)
  end.

(** [Plane::TLAB_2D_Trace_Controller]. *)
Definition TLAB_2D_Trace_Controller (fuel : nat) (g : Parameters) (sn : Sensors)
    (p : Plane) : option (Z * Plane) :=
  if negb (yet_init (shared p)) then
    let p := init_TLAB_2D_Trace_Controller g sn p in
    let p := set_yet_init p true in
    Some (0%Z, p)
  else TLAB_2D_Trace_law fuel g sn p.

(** ** Altitude / throttle law *)

(** [switch_controller_alt]: the feedback gains [f[8][4]] and the range table
    [z[3][2]] (maximum, minimum of each scheduling variable) of the LMI law
    selected by [number_controller_alt]. *)
Definition switch_controller_alt (number_controller_alt : Z)
    : list (list R) * list (list R) :=
  if (number_controller_alt =? 1)%Z then
    ([[0.24887; 3.8117; -0.014127; 0.24208];
      [0.2156; 3.5863; -0.036707; 0.20848];
      [0.20803; 4.1414; -0.0020214; 0.21848];
      [0.17783; 3.8637; -0.026582; 0.17963];
      [0.16185; 4.549; 0.015949; 0.164];
      [0.15125; 3.97; -0.019482; 0.15579];
      [0.10078; 4.7296; 0.047139; 0.19323];
      [0.1166; 4.0331; -0.0075814; 0.13821]],
     [[-0.19956; -0.80692]; [13.9932; 10.2479]; [0.31838; 0.073926]])
  else if (number_controller_alt =? 2)%Z then
    ([[0.99609; 4.3079; 0.085038; 0.29888];
      [0.82427; 4.8389; 0.056465; 0.26573];
      [0.93049; 5.3483; 0.087198; 0.29675];
      [0.7685; 5.1532; 0.056999; 0.25737];
      [0.78918; 6.2386; 0.089284; 0.26875];
      [0.63431; 5.6553; 0.054239; 0.22551];
      [0.60786; 6.5665; 0.10033; 0.24711];
      [0.54911; 5.8333; 0.05316; 0.21386]],
     [[-0.19956; -0.80692]; [13.9932; 10.2479]; [0.31838; 0.073926]])
  else if (number_controller_alt =? 3)%Z then
    ([[1.1101; 2.7506; 0.062397; 0.22145];
      [1.1221; 3.1775; 0.057379; 0.22023];
      [1.1661; 3.7206; 0.065712; 0.23362];
      [1.1288; 3.8152; 0.058197; 0.22173];
      [0.92763; 4.9578; 0.057638; 0.19507];
      [0.88139; 4.6416; 0.049835; 0.1845];
      [0.78222; 4.9678; 0.056559; 0.1849];
      [0.79436; 4.6206; 0.047368; 0.17421]],
     [[-0.19956; -0.80692]; [13.2529; 11.1097]; [0.25977; 0.13707]])
  else
    ([[0.39106; 2.2661; -0.25992; 0.16117];
      [0.35661; 2.1644; -0.29158; 0.15248];
      [0.31853; 2.5284; -0.1838; 0.16855];
      [0.27446; 2.4481; -0.20659; 0.14603];
      [0.27142; 2.8615; -0.080487; 0.077737];
      [0.26178; 2.6207; -0.20091; 0.10142];
      [0.23188; 2.9284; -0.065439; 0.18728];
      [0.19221; 2.7164; -0.11955; 0.13071]],
     [[-0.19956; -0.80692]; [13.2529; 11.1097]; [0.25977; 0.13707]]).

(** One membership pair of the LMI law, for the scheduling value [zv] and
    row [row] of the range table. *)
Definition mem_pair (maxmin_z : list (list R)) (row : nat) (zv : R) : list R :=
  let hi := elem2 maxmin_z row 0 in
  let lo := elem2 maxmin_z row 1 in
  [constrain_float ((hi - zv) / (hi - lo)) 0 1;
   constrain_float ((zv - lo) / (hi - lo)) 0 1].

(** The eight weights [h[0..7]]: the triple loop
    [h[num_loop++] = mem_M[i]*mem_N[j]*mem_L[k]]. *)
Definition lmi_weights (mem_M mem_N mem_L : list R) : list R :=
  flat_map
    (fun i =>
       flat_map
         (fun j => map (fun k => elem mem_M i * elem mem_N j * elem mem_L k)
                       (seq 0 2))
         (seq 0 2))
    (seq 0 2).

(** The three scheduling variables of the LMI law.  [gdh] is [gps_dh],
    [gdp] is [gps_dpitch], [al] the member [alpha]. *)
Definition lmi_z (pitch gdh gdp al : R) : R * R * R :=
  let c_m_1 := 1.700 * / 10 in
  let c_m_2 := 1.197 in
  let c_C_L := 4.660 * / 10 in
  let c_C_D := 1.640 * / 10 in
  let c_rho := 1.293 in
  let c_l := 9.59 * / 10 in
  let c_l_g := 1.36 * / 10 in
  let c_S := 9.424 * / 10 in
  let c_I_y := 1.37 * / 10 in
  let c_L := c_rho * c_C_L * c_S in
  let c_D := c_rho * c_C_D * c_S in
  let theta_n := 15.8 / 180 * PI in
  let theta_r := pitch - theta_n in
  let v_xn := 6.55 in
  let z1 := (1 / 2 * c_L * gdh * cos (atan (gdh / v_xn))
             - 1 / 2 * c_D * gdh * sin (atan (gdh / v_xn))
             - 1 / 2 * c_D * v_xn) / (c_m_1 + c_m_2) in
  let z2 :=
    (- 1 / 2 * (c_l - c_l_g) * c_L * gdp
       * sin (theta_r + theta_n + al - atan (gdh / v_xn))
     + 1 / 2 * (c_l - c_l_g) * c_l * v_xn * cos theta_r * cos (theta_n + al)
     + 1 / 2 * (c_l - c_l_g) * c_D * gdh
       * cos (theta_r + theta_n + al - atan (gdh / v_xn))
     + 1 / 2 * (c_l - c_l_g) * c_D * v_xn * cos theta_r * sin (theta_n + al)
     - 1 / 2 * (c_l - c_l_g) * c_L * v_xn * sin theta_r * sin (theta_n + al)
     - 1 / 2 * (c_l - c_l_g) * c_D * v_xn * sin theta_r * cos (theta_n + al))
    / c_I_y in
  let z3 := sin (theta_r + theta_n) / (c_m_1 + c_m_2) in
  (z1, z2, z3).

(** The thrust of the LMI law: [T_neutral] minus the blended feedback
    [sum_i h[i] * (sum_j f[i][j]*x_r[j])]. *)
Definition lmi_thrust (f : list (list R)) (h x_r : list R) : R :=
  fold_left
    (fun acc i =>
       acc - elem h i
             * fold_left (fun a j => a + elem2 f i j * elem x_r j) (seq 0 4) 0)
    (seq 0 8) 4.46.

(** The equilibrium thrust computed from the wind-tunnel fit. *)
Definition equilibrium_thrust (g : Parameters) : R :=
  (1 / cos (TPARAM_theta_a g * PI / 180))
  * (0.1059 * TPARAM_V_a g * TPARAM_V_a g - 0.3342 * TPARAM_V_a g + 1.6227).

(** The members assigned on the first call ([firsttime_Th]). *)
Definition throttle_first_time (g : Parameters) (sn : Sensors)
    (t : ThrottleState) : ThrottleState :=
  {| z := z t; z_r := z_r t; firsttime_Th := false;
     z_old := alt (current_loc sn); pitch_old := ahrs_pitch sn;
     dz := 0; err_count := 0; prev_time_Th := micros64 sn;
     d1_Th := TPARAM_pdc_height_d1_Th g; d2_Th := TPARAM_pdc_height_d2_Th g;
     kp_Th := [TPARAM_height_kp0_Th g; TPARAM_height_kp1_Th g];
     kd_Th := [TPARAM_height_kd0_Th g; TPARAM_height_kd1_Th g];
     motor_neutral := TPARAM_motor_neutral_Th g;
     past_time_Th := past_time_Th t; dz_f := dz_f t; d_pitch := d_pitch t;
     speed_pitch := speed_pitch t; e_m := e_m t; de_m := de_m t;
     gps_dh := gps_dh t; gps_dpitch := gps_dpitch t;
     motor_Th_N := motor_Th_N t; F1 := F1 t; F2 := F2 t; F3 := F3 t; F4 := F4 t;
     h_0 := h_0 t; h_1 := h_1 t; h_2 := h_2 t; h_3 := h_3 t;
     h_4 := h_4 t; h_5 := h_5 t; h_6 := h_6 t; h_7 := h_7 t;
     motor_per := motor_per t; airpower := airpower t; kk := kk t;
     value1 := value1 t; value2 := value2 t |}.

(** The backward differences of altitude and pitch over the wall-clock
    delta [past_time_Th]; a zero delta is counted in [err_count] and the
    derivatives are left alone.  The two quotients by the delta are logged
    divisions. *)
Definition throttle_differentiate (sn : Sensors) (t : ThrottleState)
    (lg : list fault) : ThrottleState * list fault :=
  let z_cm := alt (current_loc sn) in
  let current_time_Th := micros64 sn in
  let past := sub_uint64 current_time_Th (prev_time_Th t) in
  let past_time_Th_f := IZR past * 1e-6 in
  if (past =? 0)%Z then
    ({| z := z t; z_r := z_r t; firsttime_Th := firsttime_Th t;
        z_old := z_cm; pitch_old := ahrs_pitch sn;
        dz := dz t; err_count := (err_count t + 1)%Z;
        prev_time_Th := current_time_Th;
        d1_Th := d1_Th t; d2_Th := d2_Th t; kp_Th := kp_Th t; kd_Th := kd_Th t;
        motor_neutral := motor_neutral t;
        past_time_Th := past; dz_f := dz_f t; d_pitch := d_pitch t;
        speed_pitch := speed_pitch t; e_m := e_m t; de_m := de_m t;
        gps_dh := gps_dh t; gps_dpitch := gps_dpitch t;
        motor_Th_N := motor_Th_N t;
        F1 := F1 t; F2 := F2 t; F3 := F3 t; F4 := F4 t;
        h_0 := h_0 t; h_1 := h_1 t; h_2 := h_2 t; h_3 := h_3 t;
        h_4 := h_4 t; h_5 := h_5 t; h_6 := h_6 t; h_7 := h_7 t;
        motor_per := motor_per t; airpower := airpower t; kk := kk t;
        value1 := value1 t; value2 := value2 t |}, lg)
  else
    let dz_int := (z_cm - z_old t)%Z in
    let dzf := IZR dz_int in
    let dp := ahrs_pitch sn - pitch_old t in
    let '(dz', lg) := fdiv "dz" (dzf * 0.01) past_time_Th_f lg in
    let '(sp, lg) := fdiv "speed_pitch" dp past_time_Th_f lg in
    ({| z := z t; z_r := z_r t; firsttime_Th := firsttime_Th t;
        z_old := z_cm; pitch_old := ahrs_pitch sn;
        dz := dz'; err_count := err_count t;
        prev_time_Th := current_time_Th;
        d1_Th := d1_Th t; d2_Th := d2_Th t; kp_Th := kp_Th t; kd_Th := kd_Th t;
        motor_neutral := motor_neutral t;
        past_time_Th := past; dz_f := dzf; d_pitch := dp;
        speed_pitch := sp; e_m := e_m t; de_m := de_m t;
        gps_dh := gps_dh t; gps_dpitch := gps_dpitch t;
        motor_Th_N := motor_Th_N t;
        F1 := F1 t; F2 := F2 t; F3 := F3 t; F4 := F4 t;
        h_0 := h_0 t; h_1 := h_1 t; h_2 := h_2 t; h_3 := h_3 t;
        h_4 := h_4 t; h_5 := h_5 t; h_6 := h_6 t; h_7 := h_7 t;
        motor_per := motor_per t; airpower := airpower t; kk := kk t;
        value1 := value1 t; value2 := value2 t |}, lg).

(** The thrust command [motor_Th_N] of the law selected by
    [TPARAM_cha_pow], with the members it assigns on the way.  [pitch] is
    [ahrs.pitch], [al] the member [alpha]. *)
Definition throttle_law (g : Parameters) (sn : Sensors) (al : R)
    (t : ThrottleState) : ThrottleState :=
  let zm := IZR (alt (current_loc sn)) * 0.01 in
  let zr := IZR (alt (next_WP_loc sn)) * 0.01 in
  let em := zm - zr in
  let dem := dz t in
  let h_Th :=
    [constrain_float ((dem - d2_Th t) / (d1_Th t - d2_Th t)) 0 1;
     constrain_float ((d1_Th t - dem) / (d1_Th t - d2_Th t)) 0 1] in
  let gdh := - gps_velocity_z sn in
  let gdp := wrap_PI (ahrs_gyro_y sn) in
  let pitch := ahrs_pitch sn in
  let pe := pitch - TPARAM_theta_a g * PI / 180 in
  let sos := (TPARAM_cha_pow g =? 2)%Z in
  let f1 := if sos then 0.0080059 * em - 0.0057775 * dem + 0.17926 * pe
                        + 0.049755 * speed_pitch t + 0.3259 else F1 t in
  let f2 := if sos then - 0.0057775 * em - 0.0011929 * dem + 0.063286 * pe
                        - 0.020788 * speed_pitch t + 0.09056 else F2 t in
  let f3 := if sos then 0.17926 * em + 0.063286 * dem + 5.1494 * pe
                        + 0.52875 * speed_pitch t + 16.1688 else F3 t in
  let f4 := if sos then 0.049755 * em - 0.020788 * dem + 0.52875 * pe
                        + 0.19909 * speed_pitch t + 2.9633 else F4 t in
  let lmi := (TPARAM_cha_pow g =? 6)%Z in
  let tab := switch_controller_alt (TPARAM_c_alt g) in
  let '(z1, z2, z3) := lmi_z pitch gdh gdp al in
  let h := lmi_weights (mem_pair (snd tab) 0 z1) (mem_pair (snd tab) 1 z2)
                       (mem_pair (snd tab) 2 z3) in
  let theta_r := pitch - 15.8 / 180 * PI in
  let thrust :=
    if (TPARAM_cha_pow g =? 1)%Z then
      fold_left
        (fun acc i => acc + - elem h_Th i
                            * (elem (kp_Th t) i * em + elem (kd_Th t) i * dem))
        (seq 0 2) (equilibrium_thrust g)
    else if sos then motor_neutral t + - (f1 * em + f2 * dem)
    else if (TPARAM_cha_pow g =? 3)%Z then
      motor_neutral t + - (elem (kp_Th t) 0 * em + elem (kd_Th t) 0 * dem)
    else if (TPARAM_cha_pow g =? 4)%Z then 0
    else if (TPARAM_cha_pow g =? 5)%Z then 0
    else if lmi then lmi_thrust (fst tab) h [em; gdh; theta_r; gdp]
    else motor_Th_N t in
  {| z := zm; z_r := zr; firsttime_Th := firsttime_Th t;
     z_old := z_old t; pitch_old := pitch_old t;
     dz := dz t; err_count := err_count t; prev_time_Th := prev_time_Th t;
     d1_Th := d1_Th t; d2_Th := d2_Th t; kp_Th := kp_Th t; kd_Th := kd_Th t;
     motor_neutral := motor_neutral t;
     past_time_Th := past_time_Th t; dz_f := dz_f t; d_pitch := d_pitch t;
     speed_pitch := speed_pitch t; e_m := em; de_m := dem;
     gps_dh := gdh; gps_dpitch := gdp;
     motor_Th_N := thrust;
     F1 := f1; F2 := f2; F3 := f3; F4 := f4;
     h_0 := if lmi then elem h 0 else h_0 t;
     h_1 := if lmi then elem h 1 else h_1 t;
     h_2 := if lmi then elem h 2 else h_2 t;
     h_3 := if lmi then elem h 3 else h_3 t;
     h_4 := if lmi then elem h 4 else h_4 t;
     h_5 := if lmi then elem h 5 else h_5 t;
     h_6 := if lmi then elem h 6 else h_6 t;
     h_7 := if lmi then elem h 7 else h_7 t;
     motor_per := motor_per t; airpower := airpower t; kk := kk t;
     value1 := value1 t; value2 := value2 t |}.

(** [Plane::thrust_to_percent]: the calibrated square-root inversion from
    thrust (N) to actuator percentage.  The result is the returned [float],
    which always holds an integer. *)
Definition thrust_to_percent (g : Parameters) (thrust : R)
    (t : ThrottleState) : R * ThrottleState :=
  let a := 0.002287471638222 in
  let c := 0.069756864241495 in
  let ap := equilibrium_thrust g in
  let k := ap / (a * TPARAM_neutral_t g * TPARAM_neutral_t g + c) in
  let value := cast_int32 (sqrt ((thrust - c * k) / (a * k))) in
  let v1 := value in
  let v2 := if (v1 <? 0)%Z then 0%Z
            else if (v1 >? 80)%Z then 80%Z else v1 in
  let t :=
    {| z := z t; z_r := z_r t; firsttime_Th := firsttime_Th t;
       z_old := z_old t; pitch_old := pitch_old t;
       dz := dz t; err_count := err_count t; prev_time_Th := prev_time_Th t;
       d1_Th := d1_Th t; d2_Th := d2_Th t; kp_Th := kp_Th t; kd_Th := kd_Th t;
       motor_neutral := motor_neutral t;
       past_time_Th := past_time_Th t; dz_f := dz_f t; d_pitch := d_pitch t;
       speed_pitch := speed_pitch t; e_m := e_m t; de_m := de_m t;
       gps_dh := gps_dh t; gps_dpitch := gps_dpitch t;
       motor_Th_N := motor_Th_N t;
       F1 := F1 t; F2 := F2 t; F3 := F3 t; F4 := F4 t;
       h_0 := h_0 t; h_1 := h_1 t; h_2 := h_2 t; h_3 := h_3 t;
       h_4 := h_4 t; h_5 := h_5 t; h_6 := h_6 t; h_7 := h_7 t;
       motor_per := motor_per t; airpower := ap; kk := k;
       value1 := v1; value2 := v2 |} in
  if Rltb thrust 0.3256 then (0, t)
  else (IZR (constrain_int32 value 0 (TPARAM_MAX_slo g)), t).

Definition set_motor_per (t : ThrottleState) (v : R) : ThrottleState :=
  {| z := z t; z_r := z_r t; firsttime_Th := firsttime_Th t;
     z_old := z_old t; pitch_old := pitch_old t;
     dz := dz t; err_count := err_count t; prev_time_Th := prev_time_Th t;
     d1_Th := d1_Th t; d2_Th := d2_Th t; kp_Th := kp_Th t; kd_Th := kd_Th t;
     motor_neutral := motor_neutral t;
     past_time_Th := past_time_Th t; dz_f := dz_f t; d_pitch := d_pitch t;
     speed_pitch := speed_pitch t; e_m := e_m t; de_m := de_m t;
     gps_dh := gps_dh t; gps_dpitch := gps_dpitch t;
     motor_Th_N := motor_Th_N t;
     F1 := F1 t; F2 := F2 t; F3 := F3 t; F4 := F4 t;
     h_0 := h_0 t; h_1 := h_1 t; h_2 := h_2 t; h_3 := h_3 t;
     h_4 := h_4 t; h_5 := h_5 t; h_6 := h_6 t; h_7 := h_7 t;
     motor_per := v; airpower := airpower t; kk := kk t;
     value1 := value1 t; value2 := value2 t |}.

(** [Plane::TLAB_Throttle_Controller]. *)
Definition TLAB_Throttle_Controller (g : Parameters) (sn : Sensors)
    (p : Plane) : Z * Plane :=
  let t := throttle p in
  let t := if firsttime_Th t then throttle_first_time g sn t else t in
  let '(t, lg) := throttle_differentiate sn t (faults (shared p)) in
  let t := throttle_law g sn (alpha (shared p)) t in
  let '(per, t) := thrust_to_percent g (motor_Th_N t) t in
  let t := set_motor_per t per in
  (cast_int32 (motor_per t), set_faults (with_throttle p t) lg).

(** ** Yaw control stage *)

(** [Plane::calc_nav_yaw_coordinated]: the selected controller's servo angle
    is clamped into [steering_control.rudder]. *)
Definition calc_nav_yaw_coordinated (fuel : nat) (g : Parameters)
    (sn : Sensors) (p : Plane) : option Plane :=
  let p := set_TLAB_CMD_index p (mission_current_nav_index sn) in
  if (TPARAM_Bar_Control_Mode g =? 1)%Z then
    let r := TLAB_Line_Trace_Controller g sn p in
    Some (set_steering_control_rudder (snd r)
            (constrain_int16 (fst r) (-4500) 4500))
  else if (TPARAM_Bar_Control_Mode g =? 2)%Z then
    let r := TLAB_Constant_Output g p in
    Some (set_steering_control_rudder (snd r)
            (constrain_int16 (fst r) (-4500) 4500))
  else
    match TLAB_2D_Trace_Controller fuel g sn p with
    | None => None
    | Some r =>
        Some (set_steering_control_rudder (snd r)
                (constrain_int16 (fst r) (-4500) 4500))
    end.

(** Successive control cycles of the supervisor, one sensor snapshot per
    cycle. *)
Fixpoint run_Combine (g : Parameters) (sns : list Sensors) (p : Plane) : Plane :=
  match sns with
  | [] => p
  | sn :: rest => run_Combine g rest (snd (TLAB_Combine_Controller g sn p))
  end.

(** Successive control cycles of the lateral controller; the result lists
    the servo angles returned, oldest first, or [None] if some cycle does not
    return within [fuel] search iterations. *)
Fixpoint run_2D (fuel : nat) (g : Parameters) (sns : list Sensors) (p : Plane)
    : option (list Z * Plane) :=
  match sns with
  | [] => Some ([], p)
  | sn :: rest =>
      match TLAB_2D_Trace_Controller fuel g sn p with
      | None => None
      | Some (out, p') =>
          match run_2D fuel g rest p' with
          | None => None
          | Some (outs, p'') => Some (out :: outs, p'')
          end
      end
  end.

End WithPlatform.

(** ** Views used to state what a stage leaves alone *)

(** What the line law must not touch. *)
Definition line_view (p : Plane)
    : Supervisor * CircleState * LCConfig * LineState * list string :=
  (sup p, circle p, lccfg p, line p, gcs (shared p)).

(** What the circle law must not touch: the mode, the navigation flag, the
    circle-switch trigger, the configuration, the waypoint frame and the
    notifications. *)
Definition circle_view (p : Plane)
    : Z * bool * bool * LCConfig * LineState * list string :=
  (TLAB_Control_flag (sup p), TLAB_WP_nav_flag (sup p),
   change_to_circle_flag (sup p), lccfg p, line p, gcs (shared p)).

(** The exit condition of circle mode, on the accumulated angle of the
    controller and the waypoint frame of the current cycle. *)
Definition circle_exit {platform : Platform} (sn : Sensors) (p : Plane) : Prop :=
  Rabs (Int_theta (circle p)) > 2 * PI * orbit_num (lccfg p) /\
  state_UAV_x (waypoint_frame sn) > 0 /\
  Rabs (state_UAV_y (waypoint_frame sn)) < change_y (lccfg p).

Definition to_line_text : string := "change to line trace mode".

(** ** Concrete values used to exercise the model *)

(** A platform on which every distance is 100 m and every bearing and
    offset is zero; the angle wraps are the identity. *)
Definition test_platform : Platform :=
  {| get_distance := fun _ _ => 100;
     get_bearing_cd := fun _ _ => 0%Z;
     location_diff := fun _ _ => {| x := 0; y := 0 |};
     wrap_PI := fun a => a;
     wrap_2PI := fun a => a |}.

Definition loc0 : Location := {| lat := 0; lng := 0; alt := 0 |}.

Definition sensors0 : Sensors :=
  {| current_loc := loc0; prev_WP_loc := loc0; next_WP_loc := loc0;
     ahrs_pitch := 0; ahrs_yaw := 0; ahrs_yaw_sensor := 0; ahrs_gyro_y := 0;
     gps_ground_course_cd := 0; gps_ground_course := 0; gps_ground_speed := 5;
     gps_velocity_z := 0; micros64 := 0; mission_current_nav_index := 0 |}.

(** A configuration with the arc-length integration step [d]. *)
Definition params_dzeta (d : R) : Parameters :=
  {| TPARAM_Bar_Control_Mode := 0; TPARAM_Combine := 1;
     TPARAM_F11 := 0; TPARAM_F12 := 0; TPARAM_F21 := 0; TPARAM_F22 := 0;
     TPARAM_F31 := 0; TPARAM_F32 := 0; TPARAM_F41 := 0; TPARAM_F42 := 0;
     TPARAM_Fchi1_1 := 0; TPARAM_Fchi1_2 := 0; TPARAM_Fchi1_3 := 0;
     TPARAM_Fchi2_1 := 0; TPARAM_Fchi2_2 := 0; TPARAM_Fchi2_3 := 0;
     TPARAM_Fchi3_1 := 0; TPARAM_Fchi3_2 := 0; TPARAM_Fchi3_3 := 0;
     TPARAM_Fchi4_1 := 0; TPARAM_Fchi4_2 := 0; TPARAM_Fchi4_3 := 0;
     TPARAM_Flight_Plan := 0;
     TPARAM_Fx1 := 0; TPARAM_Fx2 := 0; TPARAM_Fx3 := 0;
     TPARAM_L_1 := 10; TPARAM_MAX_slo := 80;
     TPARAM_Path_Origin_lat := 0; TPARAM_Path_Origin_lng := 0;
     TPARAM_R := 50; TPARAM_U_max := 30; TPARAM_U_min := -30;
     TPARAM_V_a := 5; TPARAM_Va := 6; TPARAM_Vg_max := 10; TPARAM_Vg_min := 3;
     TPARAM_alpha_max := 30; TPARAM_alpha_min := -30;
     TPARAM_alternate := 0; TPARAM_c_alt := 1; TPARAM_calc_GCRS := 1;
     TPARAM_center_lat := 0; TPARAM_center_lng := 0; TPARAM_cha_pow := 6;
     TPARAM_change_y := 10; TPARAM_chiF_max_deg := 178;
     TPARAM_control_a := 1; TPARAM_control_b := 1; TPARAM_control_mode := 1;
     TPARAM_control_p := 1; TPARAM_dzeta := d;
     TPARAM_height_kd0_Th := 1; TPARAM_height_kd1_Th := 1;
     TPARAM_height_kp0_Th := 1; TPARAM_height_kp1_Th := 1;
     TPARAM_k := 1; TPARAM_k_prop_const := 1;
     TPARAM_kappa_max := 1; TPARAM_kappa_min := -1;
     TPARAM_motor_neutral_Th := 2.49; TPARAM_neutral_t := 50;
     TPARAM_orbit_num := 1;
     TPARAM_pdc_height_d1_Th := 1; TPARAM_pdc_height_d2_Th := -1;
     TPARAM_phi_max := 90; TPARAM_r := 1; TPARAM_r_min := 1;
     TPARAM_rule_num := 4; TPARAM_servo_neutral := 0; TPARAM_switch_mo := 3;
     TPARAM_theta_a := 0; TPARAM_u_x_max := 1; TPARAM_v_a := 6;
     TPARAM_v_g_max := 10; TPARAM_v_g_min := 3 |}.

Definition params0 : Parameters := params_dzeta 0.01.

Definition shared0 : Shared :=
  {| v_g := 5; chi := 0; alpha := 0; u := 0; servo := 0; v_a := 6;
     yet_init := false; TLAB_CMD_index := 0; prev_POS := loc0;
     steering_control_rudder := 0; gcs := []; faults := [] |}.

Definition lccfg0 : LCConfig :=
  {| calc_GCRS_flag := 1; const_k := 1; Vg_min := 3; Vg_max := 10;
     alpha_min := -1; alpha_max := 1; r_min := 1; target_R := 50;
     U_min := -30; U_max := 30; use_fuzzy_controller := true; rule_num := 4;
     phi_max := 1; F_fuzzy := [[0; 0]; [0; 0]; [0; 0]; [0; 0]];
     Combine_Mode_flag := true; alternate_orbit_flag := false;
     change_y := 10; orbit_num := 1 |}.

Definition sup0 : Supervisor :=
  {| TLAB_Control_flag := 0; TLAB_WP_nav_flag := true;
     change_to_circle_flag := true; init_TLAB_Controller_flag := false;
     init_TLAB_Controller_AUTO_flag := false; Target_Circle_Center := loc0 |}.

Definition line0 : LineState :=
  {| Dist_currWP2UAV := 0; rad_prevWP2UAV := 0; rad_prevWP2currWP := 0;
     state_UAV_x := 0; state_UAV_y := 0; state_UAV_phi := 0;
     state_UAV_GCRS := 0 |}.

Definition law0 : LawState :=
  {| Vg_limited := 0; u_star := 0; L_conv := 0; sinc_kai := 0; det_a := 0;
     det_b := 0; det_p := 0; L_1 := 0; eta := 0; h_mem := [0; 0; 0; 0] |}.

Definition circle0 : CircleState :=
  {| arg_r := 0; theta := 0; prev_theta := 0; Int_theta := 0; diff_theta := 0;
     chi_r := 0; e_r := 0; e_chi := 0; phi := 0; r_limited := 0;
     mid_POS := loc0 |}.

Definition p2cfg0 : P2Config :=
  {| k_prop_const := 1; Path_Origin := loc0; Flight_Plan := 0;
     Fx := [0; 0; 0];
     Fchi := [[0; 0; 0]; [0; 0; 0]; [0; 0; 0]; [0; 0; 0]];
     v_g_min := 3; v_g_max := 10; kappa_max := 1; kappa_min := -1;
     u_x_max := 1; chiF_max := 3; z1_max := 11; z1_min := -11;
     z2_max := 10; z2_min := 1 |}.

Definition path0 : PathState :=
  {| Path_Mode := 0; s := 50; zeta := 0;
     P0 := {| x := 0; y := 0 |}; P1 := {| x := 100; y := 0 |};
     dist_WPs := 100; i_now_CMD := 0; change_path_flag := false;
     dot_zeta := 0; x_d := 0; y_d := 0; chi_d := 0; dot_chi_d := 0;
     kappa := 0; s_calc := 0; i_zeta := 0 |}.

Definition trace0 : TraceState :=
  {| u_x := 0; t_now := 0; dt := 1; xI := 0; yI := 0; psi := 0; xF := 0;
     yF := 0; chiF := 0; u_x_calc := 0; K1 := 0; K2 := 0; M1 := 0; M2 := 0;
     h_chi := [0; 0; 0; 0]; u_chi := 0; ds := 0; d_angle := 0;
     bar_angle := 0 |}.

Definition throttle0 : ThrottleState :=
  {| z := 0; z_r := 0; firsttime_Th := false; z_old := 0; pitch_old := 0;
     dz := 0; err_count := 0; prev_time_Th := 0; d1_Th := 1; d2_Th := -1;
     kp_Th := [1; 1]; kd_Th := [1; 1]; motor_neutral := 2.49;
     past_time_Th := 0; dz_f := 0; d_pitch := 0; speed_pitch := 0;
     e_m := 0; de_m := 0; gps_dh := 0; gps_dpitch := 0; motor_Th_N := 0;
     F1 := 0; F2 := 0; F3 := 0; F4 := 0;
     h_0 := 0; h_1 := 0; h_2 := 0; h_3 := 0;
     h_4 := 0; h_5 := 0; h_6 := 0; h_7 := 0;
     motor_per := 0; airpower := 0; kk := 0; value1 := 0; value2 := 0 |}.

Definition plane0 : Plane :=
  {| shared := shared0; lccfg := lccfg0; sup := sup0; line := line0;
     law := law0; circle := circle0; p2cfg := p2cfg0; path := path0;
     trace := trace0; throttle := throttle0 |}.

(** [plane0] once the lateral controller has been initialised. *)
Definition plane1 : Plane := set_yet_init plane0 true.

(** [path0] on Lissajous primitive [m] (3 or 6), one metre along the curve
    and with the search state at its start. *)
Definition path_lissajous (m : Z) : PathState :=
  {| Path_Mode := m; s := 1; zeta := 0;
     P0 := {| x := 0; y := 0 |}; P1 := {| x := 100; y := 0 |};
     dist_WPs := 100; i_now_CMD := 0; change_path_flag := false;
     dot_zeta := 0; x_d := 0; y_d := 0; chi_d := 0; dot_chi_d := 0;
     kappa := 0; s_calc := 0; i_zeta := 0 |}.

(** A snapshot in which the ground course is 90 degrees, so that on
    [test_platform] the course angle [chi] of the lateral controller is 0,
    the heading of the segment of [path0]. *)
Definition sensors90 : Sensors :=
  {| current_loc := loc0; prev_WP_loc := loc0; next_WP_loc := loc0;
     ahrs_pitch := 0; ahrs_yaw := 0; ahrs_yaw_sensor := 0; ahrs_gyro_y := 0;
     gps_ground_course_cd := 9000; gps_ground_course := 90;
     gps_ground_speed := 5;
     gps_velocity_z := 0; micros64 := 1000000; mission_current_nav_index := 0 |}.

(** [plane0] in circle mode (left turn) with ten radians of accumulated
    angle and no pending circle switch. *)
Definition plane_circling : Plane :=
  with_circle
    (with_sup plane0
       {| TLAB_Control_flag := 1; TLAB_WP_nav_flag := true;
          change_to_circle_flag := false; init_TLAB_Controller_flag := false;
          init_TLAB_Controller_AUTO_flag := false;
          Target_Circle_Center := loc0 |})
    {| arg_r := 0; theta := 0; prev_theta := 0; Int_theta := 10;
       diff_theta := 0; chi_r := 0; e_r := 0; e_chi := 0; phi := 0;
       r_limited := 0; mid_POS := loc0 |}.

(** A controller in circle mode while waypoint navigation is off. *)
Definition plane_nav_off : Plane :=
  with_sup plane_circling
    {| TLAB_Control_flag := 1; TLAB_WP_nav_flag := false;
       change_to_circle_flag := false; init_TLAB_Controller_flag := false;
       init_TLAB_Controller_AUTO_flag := false;
       Target_Circle_Center := loc0 |}.

(** ** Proof automation *)

(** Case analysis on every float comparison of the goal. *)
Ltac rdec :=
  unfold Rltb, Rleb, Rgtb, Rgeb, Reqb in *;
  repeat match goal with
         | |- context [Rlt_dec ?a ?b] => destruct (Rlt_dec a b)
         | |- context [Rle_dec ?a ?b] => destruct (Rle_dec a b)
         | |- context [Rgt_dec ?a ?b] => destruct (Rgt_dec a b)
         | |- context [Rge_dec ?a ?b] => destruct (Rge_dec a b)
         | |- context [Req_dec_T ?a ?b] => destruct (Req_dec_T a b)
         end.

(** Case analysis on every conditional of the goal. *)
Ltac split_ifs :=
  repeat match goal with
         | |- context [if ?b then _ else _] => destruct b
         end.

(** ** Names for parts of the laws that the properties refer to *)

(** The numerator [C] and the denominator [p] of the rational-polynomial
    law of [calc_controller]. *)
Definition rational_numerator (x1 x2 : R) : R :=
  - 0.0013832 * x1 ^ 3 - 0.020961 * x1 ^ 2 * x2
  + 0.068193 * x1 * x2 ^ 2 - 0.34265 * x2 ^ 3
  - 1.3518e-10 * x1 ^ 2 - 1.9737e-09 * x1 * x2
  + 7.2815e-09 * x2 ^ 2 - 0.096888 * x1 - 3.1216 * x2.

Definition rational_denominator (x1 x2 : R) : R :=
  0.78953 * x1 ^ 2 - 1.8155 * x1 * x2 + 24.7114 * x2 ^ 2
  + 8.1027e-08 * x1 - 2.4228e-07 * x2 + 25.6252.

(** The two local commands blended by the fuzzy PD altitude law
    ([TPARAM_cha_pow = 1]): rule [i] alone would command
    [equilibrium - (kp_Th[i]*e_m + kd_Th[i]*de_m)]. *)
Definition pd_local_thrust (g : Parameters) (t : ThrottleState) (i : nat)
    (em dem : R) : R :=
  equilibrium_thrust g - (elem (kp_Th t) i * em + elem (kd_Th t) i * dem).

(** [plane0] with the rational-polynomial law selected. *)
Definition plane_rational : Plane :=
  with_lccfg plane0
    {| calc_GCRS_flag := 1; const_k := 1; Vg_min := 3; Vg_max := 10;
       alpha_min := -1; alpha_max := 1; r_min := 1; target_R := 50;
       U_min := -30; U_max := 30; use_fuzzy_controller := false;
       rule_num := 4; phi_max := 1;
       F_fuzzy := [[0; 0]; [0; 0]; [0; 0]; [0; 0]];
       Combine_Mode_flag := true; alternate_orbit_flag := false;
       change_y := 10; orbit_num := 1 |}.

(** A controller in circle mode that takes the course from the GPS
    ([calc_GCRS_flag = 0]) and has not turned yet. *)
Definition plane_orbit0 : Plane :=
  with_lccfg
    (with_sup plane0
       {| TLAB_Control_flag := 1; TLAB_WP_nav_flag := true;
          change_to_circle_flag := false; init_TLAB_Controller_flag := false;
          init_TLAB_Controller_AUTO_flag := false;
          Target_Circle_Center := loc0 |})
    {| calc_GCRS_flag := 0; const_k := 1; Vg_min := 3; Vg_max := 10;
       alpha_min := -1; alpha_max := 1; r_min := 1; target_R := 50;
       U_min := -30; U_max := 30; use_fuzzy_controller := true;
       rule_num := 4; phi_max := 1;
       F_fuzzy := [[0; 0]; [0; 0]; [0; 0]; [0; 0]];
       Combine_Mode_flag := true; alternate_orbit_flag := false;
       change_y := 10; orbit_num := 1 |}.

(** * The attitude helpers of the autopilot

    The functions below are the parts of [Attitude.cpp] that do not belong
    to the TLAB laws.  What they read from objects declared elsewhere
    (RC channels, AHRS, parameters, the speed/height controller) is passed
    in as a value. *)

(** ** Integer conversions *)

(** Conversion of a [float] to [int16_t]: truncation toward zero, then the
    16-bit wrap for a value that does not fit. *)
Definition float_to_int16 (v : R) : Z := to_int16 (cast_int32 v).

(** Conversion to [uint8_t] ([uint8_t slewrate = <AP_Int8>]). *)
Definition to_uint8 (n : Z) : Z := (n mod 256)%Z.

(** Unsigned 32-bit subtraction, as in [millis() - last_ms]. *)
Definition sub_uint32 (a b : Z) : Z := ((a - b) mod 4294967296)%Z.

(** ** Flight modes and flight stages *)

(** The values of [control_mode] (enum [FlightMode]). *)
Inductive FlightMode : Type :=
| MANUAL | CIRCLE | STABILIZE | TRAINING | ACRO | FLY_BY_WIRE_A
| FLY_BY_WIRE_B | CRUISE | AUTOTUNE | AUTO | RTL | LOITER | AVOID_ADSB
| GUIDED | INITIALISING | QSTABILIZE | QHOVER | QLOITER | QLAND | QRTL.

(** The values of [flight_stage] ([AP_SpdHgtControl::FlightStage]). *)
Inductive FlightStage : Type :=
| FLIGHT_TAKEOFF | FLIGHT_VTOL | FLIGHT_NORMAL | FLIGHT_LAND_APPROACH
| FLIGHT_LAND_PREFLARE | FLIGHT_LAND_FINAL | FLIGHT_LAND_ABORT.

Definition FlightMode_eqb (a b : FlightMode) : bool :=
  match a, b with
  | MANUAL, MANUAL | CIRCLE, CIRCLE | STABILIZE, STABILIZE
  | TRAINING, TRAINING | ACRO, ACRO | FLY_BY_WIRE_A, FLY_BY_WIRE_A
  | FLY_BY_WIRE_B, FLY_BY_WIRE_B | CRUISE, CRUISE | AUTOTUNE, AUTOTUNE
  | AUTO, AUTO | RTL, RTL | LOITER, LOITER | AVOID_ADSB, AVOID_ADSB
  | GUIDED, GUIDED | INITIALISING, INITIALISING | QSTABILIZE, QSTABILIZE
  | QHOVER, QHOVER | QLOITER, QLOITER | QLAND, QLAND | QRTL, QRTL => true
  | _, _ => false
  end.

Definition FlightStage_eqb (a b : FlightStage) : bool :=
  match a, b with
  | FLIGHT_TAKEOFF, FLIGHT_TAKEOFF | FLIGHT_VTOL, FLIGHT_VTOL
  | FLIGHT_NORMAL, FLIGHT_NORMAL
  | FLIGHT_LAND_APPROACH, FLIGHT_LAND_APPROACH
  | FLIGHT_LAND_PREFLARE, FLIGHT_LAND_PREFLARE
  | FLIGHT_LAND_FINAL, FLIGHT_LAND_FINAL
  | FLIGHT_LAND_ABORT, FLIGHT_LAND_ABORT => true
  | _, _ => false
  end.

(** ** Speed scaling *)

(** What [get_speed_scaler] reads: the airspeed estimate (present when
    [ahrs.airspeed_estimate] answers true), [g.scaling_speed], the servo
    output of the throttle channel and the macro [THROTTLE_CRUISE]. *)
Record SpeedScalerInputs : Type := {
  airspeed_estimate : option R;
  scaling_speed : R;
  throttle_servo_out : Z;
  THROTTLE_CRUISE : Z
}.

(** [Plane::get_speed_scaler].  The result is the scaler, the member
    [auto_state.highest_airspeed] and the numeric event log; the two
    quotients are logged divisions. *)
Definition get_speed_scaler (i : SpeedScalerInputs) (highest_airspeed : R)
    (lg : list fault) : R * R * list fault :=
  match airspeed_estimate i with
  | Some aspeed =>
      let highest_airspeed :=
        if Rgtb aspeed highest_airspeed then aspeed else highest_airspeed in
      let '(speed_scaler, lg) :=
        if Rgtb aspeed 0.0001
        then fdiv "speed_scaler" (scaling_speed i) aspeed lg
        else (2, lg) in
      (constrain_float speed_scaler 0.5 2, highest_airspeed, lg)
  | None =>
      let '(speed_scaler, lg) :=
        if (throttle_servo_out i >? 0)%Z then
          let '(q, lg) := fdiv "speed_scaler" (IZR (THROTTLE_CRUISE i))
                               (IZR (throttle_servo_out i)) lg in
          (0.5 + q / 2, lg)
        else (1.67, lg) in
      (constrain_float speed_scaler 0.6 1.67, highest_airspeed, lg)
  end.

(** ** Stick mixing *)

(** What [stick_mixing_enabled] reads. *)
Record StickMixingInputs : Type := {
  auto_throttle_mode : bool;
  auto_navigation_mode : bool;
  stick_mixing_not_disabled : bool;   (* g.stick_mixing != STICK_MIXING_DISABLED *)
  geofence_stickmixing : bool;
  failsafe_state_none : bool;         (* failsafe.state == FAILSAFE_NONE *)
  rc_failsafe_active : bool;
  ch3_failsafe : bool;
  short_fs_action : Z
}.

(** [Plane::stick_mixing_enabled]. *)
Definition stick_mixing_enabled (i : StickMixingInputs) : bool :=
  if auto_throttle_mode i && auto_navigation_mode i then
    if stick_mixing_not_disabled i && geofence_stickmixing i
       && failsafe_state_none i && negb (rc_failsafe_active i)
    then true else false
  else if ch3_failsafe i && (short_fs_action i =? 2)%Z then false
  else true.

(** [Plane::stick_mix_channel(RC_Channel *, int16_t &servo_out)]: the new
    value of [servo_out].  [radio_in], [radio_trim] and [pwm_angle] are the
    channel's [get_radio_in()], [get_radio_trim()] and [pwm_to_angle()]. *)
Definition stick_mix_channel (radio_in radio_trim pwm_angle servo_out : Z)
    : Z :=
  let ch_inf := IZR radio_in - IZR radio_trim in
  let ch_inf := Rabs ch_inf in
  let ch_inf := if Rltb ch_inf 400 then ch_inf else 400 in
  let ch_inf := (400 - ch_inf) / 400 in
  let servo_out := float_to_int16 (IZR servo_out * ch_inf) in
  to_int16 (servo_out + pwm_angle).

(** The stick curve of FBW mixing: linear up to half deflection, then three
    times as steep. *)
Definition fbw_stick_curve (v : R) : R :=
  if Rgtb v 0.5 then 3 * v - 1
  else if Rltb v (- 0.5) then 3 * v + 1
  else v.

(** What [stabilize_stick_mixing_fbw] reads. *)
Record FbwInputs : Type := {
  fbw_mixing : StickMixingInputs;
  fbw_control_mode : FlightMode;
  auto_fbw_steer : Z;
  roll_norm_input : R;               (* channel_roll->norm_input() *)
  pitch_norm_input : R;              (* channel_pitch->norm_input() *)
  fbw_fly_inverted : bool;
  fbw_roll_limit_cd : Z;
  pitch_limit_max_cd : Z;            (* aparm.pitch_limit_max_cd *)
  pitch_limit_min_cd : Z
}.

(** The test that makes [stabilize_stick_mixing_fbw] return at once. *)
Definition fbw_mixing_off (i : FbwInputs) : bool :=
  negb (stick_mixing_enabled (fbw_mixing i))
  || FlightMode_eqb (fbw_control_mode i) ACRO
  || FlightMode_eqb (fbw_control_mode i) FLY_BY_WIRE_A
  || FlightMode_eqb (fbw_control_mode i) AUTOTUNE
  || FlightMode_eqb (fbw_control_mode i) FLY_BY_WIRE_B
  || FlightMode_eqb (fbw_control_mode i) CRUISE
  || FlightMode_eqb (fbw_control_mode i) QSTABILIZE
  || FlightMode_eqb (fbw_control_mode i) QHOVER
  || FlightMode_eqb (fbw_control_mode i) QLOITER
  || FlightMode_eqb (fbw_control_mode i) QLAND
  || FlightMode_eqb (fbw_control_mode i) QRTL
  || FlightMode_eqb (fbw_control_mode i) TRAINING
  || (FlightMode_eqb (fbw_control_mode i) AUTO && (auto_fbw_steer i =? 42)%Z).

(** [Plane::stabilize_stick_mixing_fbw]: the new [nav_roll_cd] and
    [nav_pitch_cd]. *)
Definition stabilize_stick_mixing_fbw (i : FbwInputs)
    (nav_roll_cd nav_pitch_cd : Z) : Z * Z :=
  if fbw_mixing_off i then (nav_roll_cd, nav_pitch_cd)
  else
    let roll_input := fbw_stick_curve (roll_norm_input i) in
    let nav_roll_cd :=
      cast_int32 (IZR nav_roll_cd + roll_input * IZR (fbw_roll_limit_cd i)) in
    let nav_roll_cd :=
      constrain_int32 nav_roll_cd (- fbw_roll_limit_cd i)
                      (fbw_roll_limit_cd i) in
    let pitch_input := fbw_stick_curve (pitch_norm_input i) in
    let pitch_input :=
      if fbw_fly_inverted i then - pitch_input else pitch_input in
    let nav_pitch_cd :=
      if Rgtb pitch_input 0
      then cast_int32 (IZR nav_pitch_cd
                       + pitch_input * IZR (pitch_limit_max_cd i))
      else cast_int32 (IZR nav_pitch_cd
                       + - (pitch_input * IZR (pitch_limit_min_cd i))) in
    let nav_pitch_cd :=
      constrain_int32 nav_pitch_cd (pitch_limit_min_cd i)
                      (pitch_limit_max_cd i) in
    (nav_roll_cd, nav_pitch_cd).

(** ** Navigation demands and load factor *)

(** AP_Math's [radians], [degrees], [sq] and [safe_sqrt]; the last is
    [sqrtf] with 0 for an argument that has no real root. *)
Definition radians (d : R) : R := d * PI / 180.
Definition degrees (r : R) : R := r * 180 / PI.
Definition sq (v : R) : R := v * v.
Definition safe_sqrt (v : R) : R := if Rltb v 0 then 0 else sqrt v.

(** [Plane::update_load_factor]: the new [aerodynamic_load_factor],
    [nav_roll_cd] and [roll_limit_cd].  [airspeed_min] is
    [aparm.airspeed_min]. *)
Definition update_load_factor (nav_roll_cd roll_limit_cd : Z)
    (stall_prevention inverted : bool) (smoothed_airspeed airspeed_min : R)
    : R * Z * Z :=
  let demanded_roll := Rabs (IZR nav_roll_cd * 0.01) in
  let demanded_roll := if Rgtb demanded_roll 85 then 85 else demanded_roll in
  let aerodynamic_load_factor :=
    1 / safe_sqrt (cos (radians demanded_roll)) in
  if negb stall_prevention then
    (aerodynamic_load_factor, nav_roll_cd, roll_limit_cd)
  else if inverted then
    (aerodynamic_load_factor, nav_roll_cd, roll_limit_cd)
  else
    let max_load_factor := smoothed_airspeed / airspeed_min in
    if Rleb max_load_factor 1 then
      (aerodynamic_load_factor,
       constrain_int32 nav_roll_cd (-2500) 2500,
       constrain_int32 roll_limit_cd (-2500) 2500)
    else if Rltb max_load_factor aerodynamic_load_factor then
      let roll_limit :=
        cast_int32 (degrees (acos (sq (1 / max_load_factor))) * 100) in
      let roll_limit := if (roll_limit <? 2500)%Z then 2500%Z else roll_limit in
      (aerodynamic_load_factor,
       constrain_int32 nav_roll_cd (- roll_limit) roll_limit,
       constrain_int32 roll_limit_cd (- roll_limit) roll_limit)
    else (aerodynamic_load_factor, nav_roll_cd, roll_limit_cd).

(** The override of a navigation demand by a guided-mode message received
    in the last three seconds ([last_ms] is the time of the message,
    [now_ms] is [millis()]). *)
Definition guided_override (mode : FlightMode) (now_ms last_ms : Z)
    (forced demand : Z) : Z :=
  if (FlightMode_eqb mode GUIDED || FlightMode_eqb mode AVOID_ADSB)
     && (last_ms >? 0)%Z
     && (sub_uint32 now_ms last_ms <? 3000)%Z
  then forced else demand.

(** [Plane::calc_nav_pitch]: the new [nav_pitch_cd]. *)
Definition calc_nav_pitch (mode : FlightMode) (now_ms last_ms : Z)
    (forced pitch_demand : Z) (pitch_min_cd pitch_max_cd : Z) : Z :=
  let commanded_pitch :=
    guided_override mode now_ms last_ms forced pitch_demand in
  constrain_int32 commanded_pitch pitch_min_cd pitch_max_cd.

(** [Plane::calc_nav_roll]: the clamp of the commanded roll followed by
    [update_load_factor]. *)
Definition calc_nav_roll (mode : FlightMode) (now_ms last_ms : Z)
    (forced roll_demand : Z) (roll_limit_cd : Z)
    (stall_prevention inverted : bool) (smoothed_airspeed airspeed_min : R)
    : R * Z * Z :=
  let commanded_roll :=
    guided_override mode now_ms last_ms forced roll_demand in
  let nav_roll_cd :=
    constrain_int32 commanded_roll (- roll_limit_cd) roll_limit_cd in
  update_load_factor nav_roll_cd roll_limit_cd stall_prevention inverted
                     smoothed_airspeed airspeed_min.

(** [Plane::adjust_nav_pitch_throttle]: the new [nav_pitch_cd], with the
    event log of the quotient by the cruise throttle.  [throttle] is
    [throttle_percentage()], [throttle_cruise] is [aparm.throttle_cruise]
    and [stab_pitch_down] is [g.stab_pitch_down]. *)
Definition adjust_nav_pitch_throttle (throttle throttle_cruise : Z)
    (stage : FlightStage) (stab_pitch_down : R) (nav_pitch_cd : Z)
    (lg : list fault) : Z * list fault :=
  if (throttle >=? 0)%Z && (throttle <? throttle_cruise)%Z
     && negb (FlightStage_eqb stage FLIGHT_VTOL)
  then
    let '(p, lg) := fdiv "p" (IZR (throttle_cruise - throttle))
                         (IZR throttle_cruise) lg in
    (cast_int32 (IZR nav_pitch_cd - stab_pitch_down * 100 * p), lg)
  else (nav_pitch_cd, lg).

(** ** Slew limits *)

(** What [throttle_slew_limit] reads. *)
Record SlewInputs : Type := {
  throttle_slewrate : Z;             (* aparm.throttle_slewrate *)
  slew_control_mode : FlightMode;
  takeoff_complete : bool;           (* auto_state.takeoff_complete *)
  takeoff_throttle_slewrate : Z;
  land_throttle_slewrate : Z;
  slew_flight_stage : FlightStage;
  G_Dt : R;
  throttle_radio_max : Z;
  throttle_radio_min : Z
}.

(** The slew rate selected by [throttle_slew_limit]. *)
Definition throttle_slew_rate (i : SlewInputs) : Z :=
  let slewrate := to_uint8 (throttle_slewrate i) in
  if FlightMode_eqb (slew_control_mode i) AUTO then
    if negb (takeoff_complete i)
       && negb (takeoff_throttle_slewrate i =? 0)%Z
    then to_uint8 (takeoff_throttle_slewrate i)
    else if negb (land_throttle_slewrate i =? 0)%Z
            && (FlightStage_eqb (slew_flight_stage i) FLIGHT_LAND_APPROACH
                || FlightStage_eqb (slew_flight_stage i) FLIGHT_LAND_FINAL
                || FlightStage_eqb (slew_flight_stage i) FLIGHT_LAND_PREFLARE)
    then to_uint8 (land_throttle_slewrate i)
    else slewrate
  else slewrate.

(** The largest change allowed in one cycle, at least 1. *)
Definition slew_step (rate : Z) (dt_s span : R) : R :=
  let temp := IZR rate * dt_s * 0.01 * Rabs span in
  if Rltb temp 1 then 1 else temp.

(** [Plane::throttle_slew_limit]: the new [radio_out] of the throttle
    channel. *)
Definition throttle_slew_limit (i : SlewInputs) (last_throttle radio_out : Z)
    : Z :=
  let slewrate := throttle_slew_rate i in
  if negb (slewrate =? 0)%Z then
    let temp :=
      slew_step slewrate (G_Dt i)
                (IZR (throttle_radio_max i - throttle_radio_min i)) in
    constrain_int16 radio_out
                    (float_to_int16 (IZR last_throttle - temp))
                    (float_to_int16 (IZR last_throttle + temp))
  else radio_out.

(** The largest change of the flap percentage allowed in one cycle, at
    least 1. *)
Definition flap_step (rate : Z) (dt_s : R) : R :=
  let temp := IZR rate * dt_s in
  if Rltb temp 1 then 1 else temp.

(** [Plane::flap_slew_limit]: the new [(last_value, new_value)];
    [flap_slewrate] is [g.flap_slewrate]. *)
Definition flap_slew_limit (flap_slewrate : Z) (dt_s : R)
    (last_value new_value : Z) : Z * Z :=
  let slewrate := to_uint8 flap_slewrate in
  let new_value :=
    if negb (slewrate =? 0)%Z then
      let temp := flap_step slewrate dt_s in
      to_int8 (constrain_int16 new_value
                               (float_to_int16 (IZR last_value - temp))
                               (float_to_int16 (IZR last_value + temp)))
    else new_value in
  (new_value, new_value).

(** Successive calls of [flap_slew_limit] with the same demanded value:
    the [last_value] after [n] calls. *)
Fixpoint flap_slew_run (n : nat) (flap_slewrate : Z) (dt_s : R)
    (last_value demand : Z) : Z :=
  match n with
  | O => last_value
  | S n' =>
      flap_slew_run n' flap_slewrate dt_s
        (fst (flap_slew_limit flap_slewrate dt_s last_value demand)) demand
  end.

(** ** Output mixer *)

(** The values of [mixing_type] that the [switch] of
    [channel_output_mixer] names; [MIXING_OTHER] stands for a value without
    a [case]. *)
Inductive ChannelMixing : Type :=
| MIXING_DISABLED | MIXING_UPUP | MIXING_UPDN | MIXING_DNUP | MIXING_DNDN
| MIXING_OTHER.

(** [Plane::channel_output_mixer(uint8_t, int16_t &, int16_t &)]: the new
    [(chan1_out, chan2_out)].  [mixing_offset] and [mixing_gain] are
    [g.mixing_offset] and [g.mixing_gain]. *)
Definition channel_output_mixer (mixing_offset : Z) (mixing_gain : R)
    (mixing_type : ChannelMixing) (chan1_out chan2_out : Z) : Z * Z :=
  let c1 := to_int16 (chan1_out - 1500) in
  let c2 := to_int16 (chan2_out - 1500) in
  let c1 := if (mixing_offset <? 0)%Z
            then to_int16 (Z.quot (c1 * (- mixing_offset + 100)) 100)
            else c1 in
  let c2 := if (mixing_offset <? 0)%Z then c2
            else if (mixing_offset >? 0)%Z
                 then to_int16 (Z.quot (c2 * (mixing_offset + 100)) 100)
                 else c2 in
  let v1 := float_to_int16 (IZR (c1 - c2) * mixing_gain) in
  let v2 := float_to_int16 (IZR (c1 + c2) * mixing_gain) in
  match mixing_type with
  | MIXING_DISABLED => (chan1_out, chan2_out)
  | _ =>
      let v1 := match mixing_type with
                | MIXING_DNUP | MIXING_DNDN => to_int16 (- v1)
                | _ => v1
                end in
      let v2 := match mixing_type with
                | MIXING_UPDN | MIXING_DNDN => to_int16 (- v2)
                | _ => v2
                end in
      let v1 := constrain_int16 v1 (-600) 600 in
      let v2 := constrain_int16 v2 (-600) 600 in
      (to_int16 (1500 + v1), to_int16 (1500 + v2))
  end.

(** ** Idle-mode wiggle *)

(** The wiggle of [Plane::set_servos_idle] on the 8-bit counter
    [auto_state.idle_wiggle_stage]: the new counter and, unless the servos
    are just sent to trim, the value written to the roll, pitch and rudder
    channels. *)
Definition set_servos_idle (idle_wiggle_stage : Z) : Z * option Z :=
  if (idle_wiggle_stage =? 0)%Z then (idle_wiggle_stage, None)
  else
    let stage := to_uint8 (idle_wiggle_stage + 2) in
    if (stage <? 50)%Z then (stage, Some (stage * (4500 / 50))%Z)
    else if (stage <? 100)%Z then (stage, Some ((100 - stage) * (4500 / 50))%Z)
    else if (stage <? 150)%Z then (stage, Some ((100 - stage) * (4500 / 50))%Z)
    else if (stage <? 200)%Z then (stage, Some ((stage - 200) * (4500 / 50))%Z)
    else (0%Z, Some 0%Z).

(** Successive calls of [set_servos_idle]: the counter after [n] calls. *)
Fixpoint idle_wiggle_run (n : nat) (stage : Z) : Z :=
  match n with
  | O => stage
  | S n' => idle_wiggle_run n' (fst (set_servos_idle stage))
  end.

(** ** Concrete inputs for the attitude helpers *)

Definition speed_inputs0 : SpeedScalerInputs :=
  {| airspeed_estimate := Some 10; scaling_speed := 15;
     throttle_servo_out := 50; THROTTLE_CRUISE := 45 |}.

Definition mixing_inputs0 : StickMixingInputs :=
  {| auto_throttle_mode := false; auto_navigation_mode := false;
     stick_mixing_not_disabled := true; geofence_stickmixing := true;
     failsafe_state_none := true; rc_failsafe_active := false;
     ch3_failsafe := false; short_fs_action := 0 |}.

Definition fbw_inputs0 : FbwInputs :=
  {| fbw_mixing := mixing_inputs0; fbw_control_mode := STABILIZE;
     auto_fbw_steer := 0; roll_norm_input := 1; pitch_norm_input := 0;
     fbw_fly_inverted := false; fbw_roll_limit_cd := 4500;
     pitch_limit_max_cd := 2000; pitch_limit_min_cd := -2500 |}.

Definition slew_inputs0 : SlewInputs :=
  {| throttle_slewrate := 100; slew_control_mode := MANUAL;
     takeoff_complete := true; takeoff_throttle_slewrate := 0;
     land_throttle_slewrate := 0; slew_flight_stage := FLIGHT_NORMAL;
     G_Dt := 0.02; throttle_radio_max := 1900; throttle_radio_min := 1100 |}.

(** The configuration [params0] with the fuzzy PD altitude law selected. *)
Definition params_pd : Parameters :=
  {| TPARAM_Bar_Control_Mode := 0; TPARAM_Combine := 1;
     TPARAM_F11 := 0; TPARAM_F12 := 0; TPARAM_F21 := 0; TPARAM_F22 := 0;
     TPARAM_F31 := 0; TPARAM_F32 := 0; TPARAM_F41 := 0; TPARAM_F42 := 0;
     TPARAM_Fchi1_1 := 0; TPARAM_Fchi1_2 := 0; TPARAM_Fchi1_3 := 0;
     TPARAM_Fchi2_1 := 0; TPARAM_Fchi2_2 := 0; TPARAM_Fchi2_3 := 0;
     TPARAM_Fchi3_1 := 0; TPARAM_Fchi3_2 := 0; TPARAM_Fchi3_3 := 0;
     TPARAM_Fchi4_1 := 0; TPARAM_Fchi4_2 := 0; TPARAM_Fchi4_3 := 0;
     TPARAM_Flight_Plan := 0;
     TPARAM_Fx1 := 0; TPARAM_Fx2 := 0; TPARAM_Fx3 := 0;
     TPARAM_L_1 := 10; TPARAM_MAX_slo := 80;
     TPARAM_Path_Origin_lat := 0; TPARAM_Path_Origin_lng := 0;
     TPARAM_R := 50; TPARAM_U_max := 30; TPARAM_U_min := -30;
     TPARAM_V_a := 5; TPARAM_Va := 6; TPARAM_Vg_max := 10; TPARAM_Vg_min := 3;
     TPARAM_alpha_max := 30; TPARAM_alpha_min := -30;
     TPARAM_alternate := 0; TPARAM_c_alt := 1; TPARAM_calc_GCRS := 1;
     TPARAM_center_lat := 0; TPARAM_center_lng := 0; TPARAM_cha_pow := 1;
     TPARAM_change_y := 10; TPARAM_chiF_max_deg := 178;
     TPARAM_control_a := 1; TPARAM_control_b := 1; TPARAM_control_mode := 1;
     TPARAM_control_p := 1; TPARAM_dzeta := 0.01;
     TPARAM_height_kd0_Th := 1; TPARAM_height_kd1_Th := 1;
     TPARAM_height_kp0_Th := 1; TPARAM_height_kp1_Th := 1;
     TPARAM_k := 1; TPARAM_k_prop_const := 1;
     TPARAM_kappa_max := 1; TPARAM_kappa_min := -1;
     TPARAM_motor_neutral_Th := 2.49; TPARAM_neutral_t := 50;
     TPARAM_orbit_num := 1;
     TPARAM_pdc_height_d1_Th := 1; TPARAM_pdc_height_d2_Th := -1;
     TPARAM_phi_max := 90; TPARAM_r := 1; TPARAM_r_min := 1;
     TPARAM_rule_num := 4; TPARAM_servo_neutral := 0; TPARAM_switch_mo := 3;
     TPARAM_theta_a := 0; TPARAM_u_x_max := 1; TPARAM_v_a := 6;
     TPARAM_v_g_max := 10; TPARAM_v_g_min := 3 |}.

(** * Properties *)

(** ** Comparisons and clamps *)

Lemma Rltb_true (a b : R) : Rltb a b = true <-> a < b.
Proof. rdec; split; intros; try lra; try discriminate; reflexivity. Qed.

Lemma Rgtb_true (a b : R) : Rgtb a b = true <-> a > b.
Proof. rdec; split; intros; try lra; try discriminate; reflexivity. Qed.


Lemma Rleb_true (a b : R) : Rleb a b = true <-> a <= b.
Proof. rdec; split; intros; try lra; try discriminate; reflexivity. Qed.

Lemma Reqb_true (a b : R) : Reqb a b = true <-> a = b.
Proof. rdec; split; intros; try lra; try discriminate; reflexivity. Qed.

Lemma Rltb_false (a b : R) : Rltb a b = false <-> ~ a < b.
Proof. rdec; split; intros; try lra; try discriminate; try reflexivity; tauto. Qed.

Lemma Rgtb_false (a b : R) : Rgtb a b = false <-> ~ a > b.
Proof. rdec; split; intros; try lra; try discriminate; try reflexivity; tauto. Qed.

Lemma Reqb_refl (a : R) : Reqb a a = true.
Proof. apply Reqb_true; reflexivity. Qed.

Lemma constrain_float_range (v lo hi : R) :
  lo <= hi -> lo <= constrain_float v lo hi <= hi.
Proof. unfold constrain_float; intros; rdec; lra. Qed.

(** A clamped value and the clamped complement still add up to one. *)
Lemma constrain_float_complement (a b : R) :
  a + b = 1 -> constrain_float a 0 1 + constrain_float b 0 1 = 1.
Proof. unfold constrain_float; intros; rdec; lra. Qed.

Lemma constrain_int32_range (v lo hi : Z) :
  (lo <= hi)%Z -> (lo <= constrain_int32 v lo hi <= hi)%Z.
Proof.
  unfold constrain_int32; intros.
  destruct (Z.ltb_spec v lo); [lia|].
  destruct (Z.gtb_spec v hi); lia.
Qed.

Lemma constrain_int16_range (v lo hi : Z) :
  (lo <= hi)%Z -> (lo <= constrain_int16 v lo hi <= hi)%Z.
Proof.
  unfold constrain_int16; intros; cbv zeta.
  destruct (Z.ltb_spec (to_int16 v) lo); [lia|].
  destruct (Z.gtb_spec (to_int16 v) hi); lia.
Qed.

Lemma fdiv_value (site : string) (a b : R) (lg : list fault) :
  fst (fdiv site a b lg) = a / b.
Proof. reflexivity. Qed.

Lemma fdiv_log_nonzero (site : string) (a b : R) (lg : list fault) :
  b <> 0 -> snd (fdiv site a b lg) = lg.
Proof. unfold fdiv; intros; cbn; rdec; [contradiction | reflexivity]. Qed.

Lemma fdiv_log_zero (site : string) (a : R) (lg : list fault) :
  snd (fdiv site a 0 lg) = DivByZero site :: lg.
Proof. unfold fdiv; cbn; rewrite Reqb_refl; reflexivity. Qed.

(** The log only grows. *)
Lemma fdiv_log_incl (site : string) (a b : R) (lg : list fault) (f : fault) :
  In f lg -> In f (snd (fdiv site a b lg)).
Proof. unfold fdiv; cbn; destruct (Reqb b 0); cbn; auto. Qed.

(** ** Blend weights of the comparison fuzzy law *)

Lemma m_mem_sum (vg vmin vmax : R) :
  fst (m_mem vg vmin vmax) + snd (m_mem vg vmin vmax) = 1.
Proof. unfold m_mem; rdec; cbn; lra. Qed.



(** At and beyond the configured speed bounds the pair is (1,0) or (0,1). *)
Lemma m_mem_boundary (vg vmin vmax : R) :
  vmin < vmax ->
  (vg >= vmax -> m_mem vg vmin vmax = (1, 0)) /\
  (vg <= vmin -> m_mem vg vmin vmax = (0, 1)).
Proof.
  intros Hlt; unfold m_mem; split; intros Hv; rdec; try lra; try reflexivity.
  - assert (vg = vmax) by lra; subst vg.
    f_equal; field; lra.
  - assert (vg = vmin) by lra; subst vg.
    f_equal; field; lra.
Qed.

(** ** Membership pairs and blend weights of the lateral law *)

(** With a zero heading error the pair (K1, K2) is (1, 0). *)
Lemma lateral_K_zero_heading (c : P2Config) (vg ux kp : R) (lg : list fault) :
  let r := lateral_membership c vg 0 ux kp lg in
  K1_of r = 1 /\ K2_of r = 0.
Proof.
  unfold K1_of, K2_of, lateral_membership, fdiv.
  rewrite Reqb_refl; cbn.
  rdec; cbn; split; lra.
Qed.

(** Otherwise it is [z2 = v_g*sin(chiF)/chiF] normalised against
    [[z2_min, z2_max]] and cut to [[0, 1]]. *)
Lemma lateral_K_nonzero_heading (c : P2Config) (vg chiF0 ux kp : R)
    (lg : list fault) :
  chiF0 <> 0 ->
  let r := lateral_membership c vg chiF0 ux kp lg in
  let z2 := vg * sin chiF0 / chiF0 in
  let k := (z2 - z2_min c) / (z2_max c - z2_min c) in
  (k > 1 -> K1_of r = 1 /\ K2_of r = 0) /\
  (k < 0 -> K1_of r = 0 /\ K2_of r = 1) /\
  (0 <= k <= 1 ->
   K1_of r = k /\ K2_of r = (z2_max c - z2) / (z2_max c - z2_min c)).
Proof.
  intros Hne r z2 k; subst r.
  unfold K1_of, K2_of, lateral_membership, fdiv.
  assert (Hq : Reqb chiF0 0 = false).
  { unfold Reqb; destruct (Req_dec_T chiF0 0); [contradiction | reflexivity]. }
  rewrite Hq; cbn. fold z2. fold k.
  rdec; cbn; repeat split; intros; try lra; auto.
Qed.

(** The cut pairs are complementary as soon as the configured ranges are
    not degenerate. *)
Lemma lateral_K_sum (c : P2Config) (vg chiF0 ux kp : R) (lg : list fault) :
  z2_max c <> z2_min c ->
  let r := lateral_membership c vg chiF0 ux kp lg in
  K1_of r + K2_of r = 1.
Proof.
  intros Hz; unfold K1_of, K2_of, lateral_membership, fdiv.
  destruct (Reqb chiF0 0); cbn.
  - rdec; cbn; lra.
  - set (z2 := vg * sin chiF0 / chiF0).
    rdec; cbn; try lra; field; lra.
Qed.

Lemma lateral_M_sum (c : P2Config) (vg chiF0 ux kp : R) (lg : list fault) :
  z1_max c <> z1_min c ->
  let r := lateral_membership c vg chiF0 ux kp lg in
  M1_of r + M2_of r = 1.
Proof.
  intros Hz; unfold M1_of, M2_of, lateral_membership, fdiv.
  destruct (Reqb chiF0 0); cbn; rdec; cbn; try lra; field; lra.
Qed.

Lemma lateral_K_range (c : P2Config) (vg chiF0 ux kp : R) (lg : list fault) :
  z2_max c <> z2_min c ->
  let r := lateral_membership c vg chiF0 ux kp lg in
  0 <= K1_of r <= 1 /\ 0 <= K2_of r <= 1.
Proof.
  intros Hz r.
  pose proof (lateral_K_sum c vg chiF0 ux kp lg Hz) as Hs; cbv zeta in Hs.
  fold r in Hs.
  assert (0 <= K1_of r <= 1); [|lra].
  clear Hs; subst r; unfold K1_of, lateral_membership, fdiv.
  destruct (Reqb chiF0 0); cbn; rdec; cbn; lra.
Qed.

Lemma lateral_M_range (c : P2Config) (vg chiF0 ux kp : R) (lg : list fault) :
  z1_max c <> z1_min c ->
  let r := lateral_membership c vg chiF0 ux kp lg in
  0 <= M1_of r <= 1 /\ 0 <= M2_of r <= 1.
Proof.
  intros Hz r.
  pose proof (lateral_M_sum c vg chiF0 ux kp lg Hz) as Hs; cbv zeta in Hs.
  fold r in Hs.
  assert (0 <= M1_of r <= 1); [|lra].
  clear Hs; subst r; unfold M1_of, lateral_membership, fdiv.
  destruct (Reqb chiF0 0); cbn; rdec; cbn; lra.
Qed.


(** The quotient [v_g*sin(chiF)/chiF] is evaluated before the test
    [chiF == 0]: with a zero heading error the division by zero is in the
    log although the pair (K1, K2) does not use its result. *)
Lemma lateral_z2_evaluated (c : P2Config) (vg ux kp : R) (lg : list fault) :
  In (DivByZero "z2") (snd (lateral_membership c vg 0 ux kp lg)).
Proof.
  unfold lateral_membership, fdiv.
  rewrite !Reqb_refl; cbn.
  repeat match goal with
         | |- context [Reqb ?a ?b] => destruct (Reqb a b)
         | |- context [Rgtb ?a ?b] => destruct (Rgtb a b)
         | |- context [Rltb ?a ?b] => destruct (Rltb a b)
         end; cbn; auto.
Qed.


(** At and beyond the configured bounds of [z2] the pair is (1,0) or
    (0,1). *)
Lemma lateral_K_boundary (c : P2Config) (vg chiF0 ux kp : R)
    (lg : list fault) :
  chiF0 <> 0 -> z2_min c < z2_max c ->
  let r := lateral_membership c vg chiF0 ux kp lg in
  let z2 := vg * sin chiF0 / chiF0 in
  (z2 >= z2_max c -> K1_of r = 1 /\ K2_of r = 0) /\
  (z2 <= z2_min c -> K1_of r = 0 /\ K2_of r = 1).
Proof.
  intros Hne Hlt r z2.
  destruct (lateral_K_nonzero_heading c vg chiF0 ux kp lg Hne)
    as (Hhi & Hlo & Hmid).
  fold r z2 in Hhi, Hlo, Hmid.
  remember (z2_max c - z2_min c) as d eqn:Hdd.
  assert (Hd : 0 < d) by lra.
  assert (Hi : 0 < / d) by (apply Rinv_0_lt_compat; exact Hd).
  split; intros Hz.
  - assert (Hk : (z2 - z2_min c) / d >= 1).
    { apply Rle_ge, Rmult_le_reg_r with d; [exact Hd|].
      unfold Rdiv; rewrite Rmult_assoc, Rinv_l; lra. }
    destruct (Rgt_dec ((z2 - z2_min c) / d) 1) as [Hgt|Hng].
    + apply Hhi; exact Hgt.
    + assert (Heq : (z2 - z2_min c) / d = 1) by lra.
      destruct (Hmid ltac:(lra)) as [E1 E2].
      rewrite E1, E2, Heq; split; [reflexivity|].
      assert (Hz2 : z2 = z2_max c).
      { assert (Hm : z2 - z2_min c = (z2 - z2_min c) / d * d) by (field; lra).
        rewrite Heq in Hm; lra. }
      rewrite Hz2; unfold Rdiv; ring.
  - assert (Hk : (z2 - z2_min c) / d <= 0).
    { unfold Rdiv; nra. }
    destruct (Rlt_dec ((z2 - z2_min c) / d) 0) as [Hlt0|Hnl].
    + apply Hlo; exact Hlt0.
    + assert (Heq : (z2 - z2_min c) / d = 0) by lra.
      destruct (Hmid ltac:(lra)) as [E1 E2].
      rewrite E1, E2, Heq; split; [reflexivity|].
      assert (Hz2 : z2 = z2_min c).
      { assert (Hm : z2 - z2_min c = (z2 - z2_min c) / d * d) by (field; lra).
        rewrite Heq in Hm; lra. }
      rewrite Hz2, <- Hdd; field; lra.
Qed.

(** ** Blend weights of the LMI altitude law *)




(** At and beyond the bounds of a row the pair is (0,1) or (1,0). *)
Lemma mem_pair_boundary (maxmin_z : list (list R)) (row : nat) (zv : R) :
  elem2 maxmin_z row 1 < elem2 maxmin_z row 0 ->
  (zv >= elem2 maxmin_z row 0 -> mem_pair maxmin_z row zv = [0; 1]) /\
  (zv <= elem2 maxmin_z row 1 -> mem_pair maxmin_z row zv = [1; 0]).
Proof.
  intros Hlt; unfold mem_pair.
  set (hi := elem2 maxmin_z row 0) in *.
  set (lo := elem2 maxmin_z row 1) in *.
  assert (Hd : 0 < hi - lo) by lra.
  assert (Hi : 0 < / (hi - lo)) by (apply Rinv_0_lt_compat; exact Hd).
  split; intros Hz.
  - assert (H1 : (hi - zv) / (hi - lo) <= 0).
    { unfold Rdiv; nra. }
    assert (H2 : (zv - lo) / (hi - lo) >= 1).
    { apply Rle_ge. apply Rmult_le_reg_r with (hi - lo); [lra|].
      unfold Rdiv; rewrite Rmult_assoc, Rinv_l; lra. }
    unfold constrain_float; rdec; try lra; repeat f_equal; lra.
  - assert (H1 : (zv - lo) / (hi - lo) <= 0).
    { unfold Rdiv; nra. }
    assert (H2 : (hi - zv) / (hi - lo) >= 1).
    { apply Rle_ge. apply Rmult_le_reg_r with (hi - lo); [lra|].
      unfold Rdiv; rewrite Rmult_assoc, Rinv_l; lra. }
    unfold constrain_float; rdec; try lra; repeat f_equal; lra.
Qed.



Section ThrottleWeights.
Context {platform : Platform}.


End ThrottleWeights.

(** ** The lateral controller as a whole *)

Section LateralController.
Context {platform : Platform}.

#[local] Arguments lateral_membership : simpl never.
#[local] Arguments calc_u_x : simpl never.
#[local] Arguments calc_u_chi : simpl never.
#[local] Arguments blend_h_chi : simpl never.
#[local] Arguments servo_of_u : simpl never.
#[local] Arguments cast_int32 : simpl never.

(** The path generator leaves the configuration and the shared members
    other than the event log alone. *)
Lemma TLAB_generate_2D_Path_frame (fuel : nat) (g : Parameters) (sn : Sensors)
    (p p1 : Plane) :
  TLAB_generate_2D_Path fuel g sn p = Some p1 ->
  p2cfg p1 = p2cfg p /\ trace p1 = trace p /\
  v_g (shared p1) = v_g (shared p) /\ chi (shared p1) = chi (shared p) /\
  v_a (shared p1) = v_a (shared p) /\
  yet_init (shared p1) = yet_init (shared p).
Proof.
  unfold TLAB_generate_2D_Path.
  destruct (path_primitive _ _ _ _ _ _) as [[ps lg]|]; [|discriminate].
  intros H; injection H as <-; cbn; auto 10.
Qed.

(** What a completed control cycle leaves in the membership members: they
    are the result of [lateral_membership] on the cycle's own scheduling
    inputs, and every event it logged is in the final log. *)
Lemma TLAB_2D_Trace_law_membership (fuel : nat) (g : Parameters)
    (sn : Sensors) (p p' : Plane) (out : Z) :
  TLAB_2D_Trace_law fuel g sn p = Some (out, p') ->
  exists lg,
    let r := lateral_membership (p2cfg p) (v_g (shared p')) (chiF (trace p'))
                                (u_x (trace p')) (kappa (path p')) lg in
    K1 (trace p') = K1_of r /\
    K2 (trace p') = K2_of r /\
    M1 (trace p') = M1_of r /\
    M2 (trace p') = M2_of r /\
    h_chi (trace p')
    = blend_h_chi (K1 (trace p')) (K2 (trace p')) (M1 (trace p'))
                  (M2 (trace p')) /\
    (forall f, In f (snd r) -> In f (faults (shared p'))) /\
    yet_init (shared p') = yet_init (shared p).
Proof.
  unfold TLAB_2D_Trace_law.
  destruct (TLAB_generate_2D_Path _ _ _ _) as [p1|] eqn:Hgen; [|discriminate].
  apply TLAB_generate_2D_Path_frame in Hgen.
  destruct Hgen as (Hcfg & Htr & Hvg & Hchi & Hva & Hyi).
  unfold sample_state in Hcfg, Htr, Hvg, Hchi, Hva, Hyi.
  cbn in Hcfg, Htr, Hvg, Hchi, Hva, Hyi.
  destruct (lateral_membership _ _ _ _ _ _) as [[[[k1 k2] m1] m2] lg1] eqn:Hmem.
  unfold fdiv; cbn.
  intros H; injection H as _ <-; cbn.
  exists (faults (shared p1)).
  rewrite <- Hcfg, Hmem; cbn.
  repeat split; auto.
  intros f Hf.
  repeat match goal with
         | |- context [Reqb ?a ?b] => destruct (Reqb a b)
         end; cbn; auto.
Qed.


End LateralController.

Section WeightsOnTheControllers.
Context {platform : Platform}.

#[local] Arguments fuzzy_h_mem : simpl never.
#[local] Arguments throttle_law : simpl never.
#[local] Arguments cast_int32 : simpl never.

Lemma calc_controller_h_mem (sn : Sensors) (x1 x2 : R) (p : Plane) :
  use_fuzzy_controller (lccfg p) = true ->
  exists vg,
    h_mem (law (snd (calc_controller sn x1 x2 p)))
    = fuzzy_h_mem (rule_num (lccfg p)) vg (Vg_min (lccfg p)) (Vg_max (lccfg p))
                  x2 (phi_max (lccfg p)).
Proof.
  intros Hf; unfold calc_controller.
  destruct (negb _ || negb _); cbn; rewrite Hf; cbn; eexists; reflexivity.
Qed.





End WeightsOnTheControllers.

(** ** Path generator *)

(** The primitives other than the two Lissajous curves are closed-form: they
    return whatever the iteration budget. *)
Lemma path_primitive_returns (fuel : nat) (g : Parameters) (dt0 zeta_prev : R)
    (ps : PathState) (lg : list fault) :
  Path_Mode ps <> 3%Z -> Path_Mode ps <> 6%Z ->
  exists r, path_primitive fuel g dt0 zeta_prev ps lg = Some r.
Proof.
  intros H3 H6; unfold path_primitive, fdiv.
  destruct (Z.eqb_spec (Path_Mode ps) 0); [eexists; reflexivity|].
  destruct (Z.eqb_spec (Path_Mode ps) 1); [eexists; reflexivity|].
  destruct (Z.eqb_spec (Path_Mode ps) 2); [eexists; reflexivity|].
  destruct (Z.eqb_spec (Path_Mode ps) 3); [contradiction|].
  destruct (Z.eqb_spec (Path_Mode ps) 4); [eexists; reflexivity|].
  destruct (Z.eqb_spec (Path_Mode ps) 5); [eexists; reflexivity|].
  destruct (Z.eqb_spec (Path_Mode ps) 6); [contradiction|].
  eexists; reflexivity.
Qed.

(** The straight-segment primitive in closed form. *)
Lemma path_primitive_straight (fuel : nat) (g : Parameters)
    (dt0 zeta_prev : R) (ps : PathState) (lg : list fault) :
  Path_Mode ps = 0%Z ->
  let zt := s ps / dist_WPs ps in
  exists lg',
    path_primitive fuel g dt0 zeta_prev ps lg
    = Some (set_outputs ps zt ((zt - zeta_prev) / dt0)
              ((1 - zt) * x (P0 ps) + zt * x (P1 ps))
              ((1 - zt) * y (P0 ps) + zt * y (P1 ps))
              (- atan2 (y (P1 ps) - y (P0 ps)) (x (P1 ps) - x (P0 ps)))
              0 0, lg').
Proof.
  intros Hm zt; unfold path_primitive; rewrite Hm; cbn [Z.eqb].
  unfold fdiv; cbn. eexists; reflexivity.
Qed.

Lemma atan2_east (d : R) : 0 < d -> atan2 0 d = 0.
Proof.
  intros Hd; unfold atan2. destruct (Rlt_dec 0 d); [|lra].
  replace (0 / d) with 0 by (field; lra).
  apply atan_0.
Qed.

(** C3. On the straight-segment primitive (Path_Mode 0) with endpoints
    P0 = (0,0) and P1 = (100,0), hence [dist_WPs = 100]: [zeta] is [s/100],
    the curvature is 0, [chi_d] is the bearing from P0 to P1 (the angle
    [atan2 (P1.y - P0.y) (P1.x - P0.x)] of the segment, here 0), and at
    [s = 50] the desired position is (50, 0). *)
Theorem C3_straight_segment (fuel : nat) (g : Parameters) (dt0 zeta_prev : R)
    (ps : PathState) (lg : list fault) :
  Path_Mode ps = 0%Z ->
  P0 ps = {| x := 0; y := 0 |} ->
  P1 ps = {| x := 100; y := 0 |} ->
  dist_WPs ps = 100 ->
  exists ps' lg',
    path_primitive fuel g dt0 zeta_prev ps lg = Some (ps', lg') /\
    zeta ps' = s ps / 100 /\
    kappa ps' = 0 /\
    chi_d ps' = atan2 (y (P1 ps) - y (P0 ps)) (x (P1 ps) - x (P0 ps)) /\
    chi_d ps' = 0 /\
    (s ps = 50 -> x_d ps' = 50 /\ y_d ps' = 0).
Proof.
  intros Hm H0 H1 Hd.
  destruct (path_primitive_straight fuel g dt0 zeta_prev ps lg Hm) as [lg' Hp].
  rewrite Hp, H0, H1, Hd; cbn [x y].
  do 2 eexists; split; [reflexivity|]; cbn.
  replace (0 - 0) with 0 by ring.
  rewrite (atan2_east (100 - 0)) by lra.
  repeat split.
  - ring.
  - ring.
  - rewrite H; field.
  - rewrite H; field.
Qed.

(** *** The arc-length search *)




(** With a zero integration step the accumulated length never moves, so a
    target above it is never reached. *)
Lemma zeta_search_zero_step (fuel : nat) (r st sc : R) (iz : Z) :
  sc < st -> zeta_search fuel r 0 st sc iz = None.
Proof.
  intros Hlt; revert iz; induction fuel as [|fuel IH]; intros iz;
    cbn [zeta_search].
  - reflexivity.
  - rewrite Rmult_0_r, Rplus_0_r.
    assert (Hge : Rgeb sc st = false).
    { unfold Rgeb; destruct (Rge_dec sc st); [lra | reflexivity]. }
    rewrite Hge; apply IH.
Qed.

(** The same with a zero radius. *)
Lemma zeta_search_zero_radius (fuel : nat) (dzeta st sc : R) (iz : Z) :
  sc < st -> zeta_search fuel 0 dzeta st sc iz = None.
Proof.
  intros Hlt; revert iz; induction fuel as [|fuel IH]; intros iz;
    cbn [zeta_search].
  - reflexivity.
  - rewrite !Rmult_0_l, Rplus_0_r.
    assert (Hge : Rgeb sc st = false).
    { unfold Rgeb; destruct (Rge_dec sc st); [lra | reflexivity]. }
    rewrite Hge; apply IH.
Qed.

(** C2 (evaluation of the source at the failing input).  With the
    integration step [TPARAM_dzeta = 0], radius 1, target arc length
    [s = 1] and the search state at its start ([s_calc = 0], [i_zeta = 0]),
    the loop of Path_Mode 3 and of Path_Mode 6 does not return, whatever
    number of iterations it is given. *)
Theorem C2_search_does_not_return :
  forall fuel : nat,
    zeta_search fuel 1 0 1 0 0 = None /\
    path_primitive fuel (params_dzeta 0) 1 0 (path_lissajous 3) [] = None /\
    path_primitive fuel (params_dzeta 0) 1 0 (path_lissajous 6) [] = None.
Proof.
  intros fuel.
  assert (H : zeta_search fuel 1 0 1 0 0 = None)
    by (apply zeta_search_zero_step; lra).
  repeat split; [exact H | |];
    unfold path_primitive; cbn [Path_Mode path_lissajous Z.eqb Pos.eqb];
    cbn [TPARAM_r TPARAM_dzeta params_dzeta s s_calc i_zeta path_lissajous];
    rewrite H; reflexivity.
Qed.

Section PathGenerator.
Context {platform : Platform}.

(** Outside flight plans 2 and 3 the plan selection never activates a
    Lissajous primitive. *)
Lemma plan_step_closed_form (g : Parameters) (sn : Sensors) (origin : Location)
    (plan : Z) (changed : bool) (ps : PathState) (zeta_prev : R) :
  plan <> 2%Z -> plan <> 3%Z ->
  Path_Mode ps <> 3%Z -> Path_Mode ps <> 6%Z ->
  let ps' := fst (plan_step g sn origin plan changed ps zeta_prev) in
  Path_Mode ps' <> 3%Z /\ Path_Mode ps' <> 6%Z.
Proof.
  intros Hp2 Hp3 H3 H6; unfold plan_step.
  destruct (Z.eqb_spec plan 0) as [->|Hp0].
  - unfold approach, segment_prev_next.
    repeat match goal with
           | |- context [if ?b then _ else _] => destruct b
           end; cbn; split; discriminate.
  - destruct (Z.eqb_spec plan 1) as [->|Hp1]; cbn [orb].
    + unfold approach, segment_prev_next, segment_WP0_next.
      repeat match goal with
             | |- context [if ?b then _ else _] => destruct b
             end; cbn; auto; split; discriminate.
    + destruct (Z.eqb_spec plan 4) as [->|Hp4]; cbn [orb].
      * unfold approach, segment_prev_next, segment_WP0_next.
        repeat match goal with
               | |- context [if ?b then _ else _] => destruct b
               end; cbn; auto; split; discriminate.
      * destruct (Z.eqb_spec plan 2); [contradiction|].
        destruct (Z.eqb_spec plan 3); [contradiction|].
        cbn; auto.
Qed.

Lemma TLAB_generate_2D_Path_returns (fuel : nat) (g : Parameters)
    (sn : Sensors) (p : Plane) :
  Flight_Plan (p2cfg p) <> 2%Z -> Flight_Plan (p2cfg p) <> 3%Z ->
  Path_Mode (path p) <> 3%Z -> Path_Mode (path p) <> 6%Z ->
  exists p1, TLAB_generate_2D_Path fuel g sn p = Some p1.
Proof.
  intros Hp2 Hp3 H3 H6; unfold TLAB_generate_2D_Path.
  match goal with
  | |- context [plan_step ?a ?b ?c ?d ?e ?f ?h] =>
      destruct (plan_step_closed_form a b c d e f h Hp2 Hp3) as [Hm3 Hm6];
      [exact H3 | exact H6 |];
      destruct (path_primitive_returns fuel g (dt (trace p))
                  (snd (plan_step a b c d e f h))
                  (fst (plan_step a b c d e f h))
                  (faults (shared p)) Hm3 Hm6) as [[ps' lg'] Hr]
  end.
  rewrite Hr; eexists; reflexivity.
Qed.

End PathGenerator.

Section LateralCycle.
Context {platform : Platform}.

#[local] Arguments lateral_membership : simpl never.
#[local] Arguments calc_u_x : simpl never.
#[local] Arguments calc_u_chi : simpl never.
#[local] Arguments blend_h_chi : simpl never.
#[local] Arguments servo_of_u : simpl never.
#[local] Arguments cast_int32 : simpl never.

(** A control cycle returns as soon as its path generator does. *)
Lemma TLAB_2D_Trace_law_returns (fuel : nat) (g : Parameters) (sn : Sensors)
    (p : Plane) :
  Flight_Plan (p2cfg p) <> 2%Z -> Flight_Plan (p2cfg p) <> 3%Z ->
  Path_Mode (path p) <> 3%Z -> Path_Mode (path p) <> 6%Z ->
  exists r, TLAB_2D_Trace_law fuel g sn p = Some r.
Proof.
  intros Hp2 Hp3 H3 H6; unfold TLAB_2D_Trace_law.
  match goal with
  | |- context [TLAB_generate_2D_Path fuel g sn ?q] =>
      destruct (TLAB_generate_2D_Path_returns fuel g sn q) as [p1 Hgen];
      [exact Hp2 | exact Hp3 | exact H3 | exact H6 |]
  end.
  rewrite Hgen.
  destruct (lateral_membership _ _ _ _ _ _) as [[[[k1 k2] m1] m2] lg1].
  unfold fdiv; cbn; eexists; reflexivity.
Qed.

(** The initialisation logs at most the quotient by [chiF_max]. *)
Lemma init_TLAB_2D_Trace_Controller_faults (g : Parameters) (sn : Sensors)
    (p : Plane) (site : string) :
  In (DivByZero site) (faults (shared (init_TLAB_2D_Trace_Controller g sn p))) ->
  In (DivByZero site) (faults (shared p)) \/ site = "z2_min"%string.
Proof.
  unfold init_TLAB_2D_Trace_Controller, fdiv; cbn.
  destruct (Reqb _ 0); cbn; [|auto].
  intros [H|H]; [right; congruence | left; exact H].
Qed.

Lemma TLAB_2D_Trace_Controller_first_call (fuel : nat) (g : Parameters)
    (sn : Sensors) (p : Plane) :
  yet_init (shared p) = false ->
  exists p',
    TLAB_2D_Trace_Controller fuel g sn p = Some (0%Z, p') /\
    p' = set_yet_init (init_TLAB_2D_Trace_Controller g sn p) true /\
    yet_init (shared p') = true /\
    dt (trace p') = dt (trace p) /\
    u_chi (trace p') = u_chi (trace p) /\
    h_chi (trace p') = h_chi (trace p) /\
    s (path p') = 0 /\
    (forall site,
        In (DivByZero site) (faults (shared p')) ->
        In (DivByZero site) (faults (shared p)) \/ site = "z2_min"%string).
Proof.
  intros Hinit; unfold TLAB_2D_Trace_Controller; rewrite Hinit; cbn [negb].
  eexists; split; [reflexivity|]; split; [reflexivity|].
  split; [reflexivity|].
  repeat split;
    try (unfold init_TLAB_2D_Trace_Controller, fdiv; cbn; reflexivity).
  intros site Hin.
  apply (init_TLAB_2D_Trace_Controller_faults g sn p site).
  exact Hin.
Qed.

Lemma TLAB_2D_Trace_Controller_later_call (fuel : nat) (g : Parameters)
    (sn : Sensors) (p : Plane) :
  yet_init (shared p) = true ->
  TLAB_2D_Trace_Controller fuel g sn p = TLAB_2D_Trace_law fuel g sn p /\
  (forall out p',
      TLAB_2D_Trace_Controller fuel g sn p = Some (out, p') ->
      yet_init (shared p') = true).
Proof.
  intros Hinit; unfold TLAB_2D_Trace_Controller; rewrite Hinit; cbn [negb].
  split; [reflexivity|].
  intros out p' Hlaw.
  apply TLAB_2D_Trace_law_membership in Hlaw.
  destruct Hlaw as (lg & _ & _ & _ & _ & _ & _ & Hyi).
  rewrite Hyi; exact Hinit.
Qed.

(** Once set, the latch stays set over any number of cycles. *)
Lemma run_2D_keeps_latch (fuel : nat) (g : Parameters) (sns : list Sensors) :
  forall (p : Plane) (outs : list Z) (p' : Plane),
    yet_init (shared p) = true ->
    run_2D fuel g sns p = Some (outs, p') ->
    yet_init (shared p') = true.
Proof.
  induction sns as [|a l IH]; intros q outs' q' Hq; cbn [run_2D].
  - intros H; injection H as _ <-; exact Hq.
  - destruct (TLAB_2D_Trace_Controller fuel g a q) as [[o q1]|] eqn:Hc;
      [|discriminate].
    destruct (run_2D fuel g l q1) as [[os q2]|] eqn:Hr; [|discriminate].
    intros H; injection H as _ <-.
    apply (IH q1 os q2); [|exact Hr].
    apply (proj2 (TLAB_2D_Trace_Controller_later_call fuel g a q Hq) o q1 Hc).
Qed.

(** Over successive cycles: the first output is 0 and the controller is
    initialised from then on. *)
Lemma run_2D_first_output (fuel : nat) (g : Parameters) (sn : Sensors)
    (sns : list Sensors) (p : Plane) (outs : list Z) (p' : Plane) :
  yet_init (shared p) = false ->
  run_2D fuel g (sn :: sns) p = Some (outs, p') ->
  hd_error outs = Some 0%Z /\ yet_init (shared p') = true.
Proof.
  intros Hinit; cbn [run_2D].
  destruct (TLAB_2D_Trace_Controller_first_call fuel g sn p Hinit)
    as (p1 & -> & _ & Hy1 & _).
  destruct (run_2D fuel g sns p1) as [[os q2]|] eqn:Hr; [|discriminate].
  intros H; injection H as <- <-; split; [reflexivity|].
  apply (run_2D_keeps_latch fuel g sns p1 os q2 Hy1 Hr).
Qed.


End LateralCycle.

Section LateralHeading.
Context {platform : Platform}.

#[local] Arguments lateral_membership : simpl never.
#[local] Arguments calc_u_x : simpl never.
#[local] Arguments calc_u_chi : simpl never.
#[local] Arguments blend_h_chi : simpl never.
#[local] Arguments servo_of_u : simpl never.
#[local] Arguments cast_int32 : simpl never.
#[local] Arguments path_primitive : simpl never.
#[local] Arguments atan2 : simpl never.

(** Without a change of waypoint index and without a pending switch, flight
    plan 0 leaves the segment as it is. *)
Lemma plan_step_idle (g : Parameters) (sn : Sensors) (origin : Location)
    (ps : PathState) (zeta_prev : R) :
  change_path_flag ps = false ->
  plan_step g sn origin 0 false ps zeta_prev = (set_Path_Mode ps 0, zeta_prev).
Proof.
  intros Hflag; unfold plan_step, approach; cbn [Z.eqb].
  rewrite !Bool.andb_false_r.
  cbn [change_path_flag set_Path_Mode]; rewrite Hflag; reflexivity.
Qed.

(** The path generator on a straight segment of flight plan 0 that is
    neither redefined nor switched in this cycle. *)
Lemma TLAB_generate_2D_Path_straight (fuel : nat) (g : Parameters)
    (sn : Sensors) (p : Plane) :
  Flight_Plan (p2cfg p) = 0%Z ->
  TLAB_CMD_index (shared p) = i_now_CMD (path p) ->
  change_path_flag (path p) = false ->
  exists p1,
    TLAB_generate_2D_Path fuel g sn p = Some p1 /\
    zeta (path p1) = s (path p) / dist_WPs (path p) /\
    chi_d (path p1)
    = - atan2 (y (P1 (path p)) - y (P0 (path p)))
              (x (P1 (path p)) - x (P0 (path p))) /\
    kappa (path p1) = 0 /\
    x_d (path p1)
    = (1 - s (path p) / dist_WPs (path p)) * x (P0 (path p))
      + s (path p) / dist_WPs (path p) * x (P1 (path p)) /\
    y_d (path p1)
    = (1 - s (path p) / dist_WPs (path p)) * y (P0 (path p))
      + s (path p) / dist_WPs (path p) * y (P1 (path p)).
Proof.
  intros Hplan Hidx Hflag; unfold TLAB_generate_2D_Path.
  rewrite Hplan, Hidx.
  cbn [i_now_CMD set_i_now_CMD]; rewrite Z.eqb_refl; cbn [negb].
  rewrite plan_step_idle by exact Hflag.
  cbn [fst snd].
  match goal with
  | |- context [path_primitive fuel g ?a ?b ?c ?d] =>
      destruct (path_primitive_straight fuel g a b c d eq_refl) as [lg' Hp]
  end.
  rewrite Hp; eexists; split; [reflexivity|].
  cbn; auto 10.
Qed.

(** The heading error left by a completed cycle. *)
Lemma TLAB_2D_Trace_law_chiF (fuel : nat) (g : Parameters) (sn : Sensors)
    (p p' : Plane) (out : Z) :
  TLAB_2D_Trace_law fuel g sn p = Some (out, p') ->
  exists p1,
    TLAB_generate_2D_Path fuel g sn (sample_state sn p) = Some p1 /\
    chiF (trace p')
    = wrap_PI (chi_d (path p1)
               - wrap_2PI (gps_ground_course sn * PI / 180 - PI / 2)).
Proof.
  unfold TLAB_2D_Trace_law.
  destruct (TLAB_generate_2D_Path _ _ _ _) as [p1|] eqn:Hgen; [|discriminate].
  pose proof (TLAB_generate_2D_Path_frame _ _ _ _ _ Hgen)
    as (_ & _ & _ & Hchi & _).
  unfold sample_state in Hchi; cbn in Hchi.
  destruct (lateral_membership _ _ _ _ _ _) as [[[[k1 k2] m1] m2] lg1].
  unfold fdiv; cbn.
  intros H; injection H as _ <-; cbn.
  exists p1; split; [reflexivity|].
  rewrite Hchi; reflexivity.
Qed.

(** Whenever a cycle ends with a heading error of exactly zero, the pair
    (K1, K2) is (1, 0) and the division [v_g*sin(chiF)/chiF] by zero has
    been evaluated on the way. *)
Lemma TLAB_2D_Trace_law_zero_heading (fuel : nat) (g : Parameters)
    (sn : Sensors) (p p' : Plane) (out : Z) :
  TLAB_2D_Trace_law fuel g sn p = Some (out, p') ->
  chiF (trace p') = 0 ->
  K1 (trace p') = 1 /\ K2 (trace p') = 0 /\
  In (DivByZero "z2") (faults (shared p')).
Proof.
  intros Hlaw Hz.
  apply TLAB_2D_Trace_law_membership in Hlaw.
  destruct Hlaw as (lg & HK1 & HK2 & _ & _ & _ & Hlog & _).
  rewrite Hz in *.
  destruct (lateral_K_zero_heading (p2cfg p) (v_g (shared p'))
              (u_x (trace p')) (kappa (path p')) lg) as [E1 E2].
  repeat split; try congruence.
  apply Hlog.
  apply lateral_z2_evaluated.
Qed.

(** C9. Whatever the vehicle state, the waypoints and the selected control
    mode, the value written to [steering_control.rudder] by
    [calc_nav_yaw_coordinated] lies in [-4500, 4500] centidegrees. *)
Theorem C9_rudder_within_range (fuel : nat) (g : Parameters) (sn : Sensors)
    (p : Plane) :
  match calc_nav_yaw_coordinated fuel g sn p with
  | Some p' => (-4500 <= steering_control_rudder (shared p') <= 4500)%Z
  | None => True
  end.
Proof.
  unfold calc_nav_yaw_coordinated.
  destruct (TPARAM_Bar_Control_Mode g =? 1)%Z;
    [|destruct (TPARAM_Bar_Control_Mode g =? 2)%Z;
      [|destruct (TLAB_2D_Trace_Controller _ _ _ _); [|exact I]]];
    cbn [steering_control_rudder shared set_steering_control_rudder with_shared];
    apply constrain_int16_range; lia.
Qed.

(** The stage writes a value whenever the selected controller returns: always
    for the line law and the constant output, and for the lateral controller
    under the conditions of [TLAB_2D_Trace_law_returns]. *)
Lemma calc_nav_yaw_coordinated_returns (fuel : nat) (g : Parameters)
    (sn : Sensors) (p : Plane) :
  TPARAM_Bar_Control_Mode g = 1%Z \/ TPARAM_Bar_Control_Mode g = 2%Z \/
  yet_init (shared p) = false \/
  (Flight_Plan (p2cfg p) <> 2%Z /\ Flight_Plan (p2cfg p) <> 3%Z /\
   Path_Mode (path p) <> 3%Z /\ Path_Mode (path p) <> 6%Z) ->
  exists p', calc_nav_yaw_coordinated fuel g sn p = Some p'.
Proof.
  intros H; unfold calc_nav_yaw_coordinated.
  destruct (Z.eqb_spec (TPARAM_Bar_Control_Mode g) 1) as [E1|N1];
    [eexists; reflexivity|].
  destruct (Z.eqb_spec (TPARAM_Bar_Control_Mode g) 2) as [E2|N2];
    [eexists; reflexivity|].
  destruct H as [H|[H|H]]; [contradiction | contradiction |].
  unfold TLAB_2D_Trace_Controller.
  cbn [yet_init shared set_TLAB_CMD_index with_shared].
  destruct (yet_init (shared p)) eqn:Hy; cbn [negb].
  - destruct H as [H|(Hp2 & Hp3 & H3 & H6)]; [discriminate|].
    destruct (TLAB_2D_Trace_law_returns fuel g sn
                (set_TLAB_CMD_index p (mission_current_nav_index sn))
                Hp2 Hp3 H3 H6) as [r Hr].
    rewrite Hr; eexists; reflexivity.
  - eexists; reflexivity.
Qed.

End LateralHeading.

(** C4 (evaluation of the source at the failing input).  With a heading
    error [chiF] of exactly zero the membership pair is (K1, K2) = (1, 0),
    but the quotient [v_g*sin(chiF)/chiF] has been evaluated all the same:
    the source computes [z2] before it tests [chiF == 0], so the division by
    zero takes place.  The second part exhibits a control cycle that reaches
    this case: ground course 90 degrees on the east-pointing segment of
    [path0]. *)
Theorem C4_z2_quotient_evaluated_at_zero_heading_error :
  (forall (c : P2Config) (vg ux kp : R),
      let r := lateral_membership c vg 0 ux kp [] in
      K1_of r = 1 /\ K2_of r = 0 /\ In (DivByZero "z2") (snd r)) /\
  (exists out p',
      @TLAB_2D_Trace_Controller test_platform 0 params0 sensors90 plane1
      = Some (out, p') /\
      chiF (trace p') = 0 /\
      K1 (trace p') = 1 /\ K2 (trace p') = 0 /\
      ~ In (DivByZero "z2") (faults (shared plane1)) /\
      In (DivByZero "z2") (faults (shared p'))).
Proof.
  split.
  - intros c vg ux kp r; subst r.
    destruct (lateral_K_zero_heading c vg ux kp []) as [E1 E2].
    repeat split; [exact E1 | exact E2 |].
    apply lateral_z2_evaluated.
  - destruct (@TLAB_2D_Trace_Controller_later_call test_platform 0 params0
                sensors90 plane1 eq_refl) as [Hctl _].
    destruct (@TLAB_2D_Trace_law_returns test_platform 0 params0 sensors90
                plane1) as [[out p'] Hlaw];
      try (cbn; discriminate).
    exists out, p'.
    rewrite Hctl; split; [exact Hlaw|].
    assert (Hz : chiF (trace p') = 0).
    { destruct (@TLAB_2D_Trace_law_chiF test_platform _ _ _ _ _ _ Hlaw)
        as (p1 & Hgen & ->).
      destruct (@TLAB_generate_2D_Path_straight test_platform 0 params0
                  sensors90 (@sample_state test_platform sensors90 plane1))
        as (p1' & Hgen' & _ & Hchi & _); try reflexivity.
      rewrite Hgen in Hgen'; injection Hgen' as <-.
      rewrite Hchi; cbn.
      replace (0 - 0) with 0 by ring.
      rewrite (atan2_east (100 - 0)) by lra.
      lra. }
    split; [exact Hz|].
    destruct (@TLAB_2D_Trace_law_zero_heading test_platform _ _ _ _ _ _
                Hlaw Hz) as (E1 & E2 & E3).
    repeat split; auto.
Qed.

(** ** The statements at concrete inputs *)


Lemma C3_straight_segment_witness :
  exists ps' lg',
    path_primitive 0 params0 1 0 path0 [] = Some (ps', lg') /\
    zeta ps' = s path0 / 100 /\
    kappa ps' = 0 /\
    chi_d ps' = atan2 (y (P1 path0) - y (P0 path0)) (x (P1 path0) - x (P0 path0)) /\
    chi_d ps' = 0 /\
    (s path0 = 50 -> x_d ps' = 50 /\ y_d ps' = 0).
Proof.
  apply (C3_straight_segment 0 params0 1 0 path0 []); reflexivity.
Defined.


(** ** Thrust-to-actuator inversion *)

Lemma cast_int32_nonneg (v : R) : 0 <= v -> cast_int32 v = Int_part v.
Proof. intros Hv; unfold cast_int32; destruct (Rle_dec 0 v); [reflexivity | contradiction]. Qed.

Lemma Int_part_bounds (v : R) : IZR (Int_part v) <= v < IZR (Int_part v) + 1.
Proof. destruct (base_Int_part v); lra. Qed.

Lemma Int_part_IZR (n : Z) : Int_part (IZR n) = n.
Proof. symmetry; apply Int_part_spec; lra. Qed.

Lemma Int_part_nonneg (v : R) : 0 <= v -> (0 <= Int_part v)%Z.
Proof.
  intros Hv. pose proof (Int_part_bounds v) as [_ Hb].
  assert (H : (-1 < Int_part v)%Z) by (apply lt_IZR; lra).
  lia.
Qed.

Lemma Int_part_le (v : R) (m : Z) : v <= IZR m -> (Int_part v <= m)%Z.
Proof.
  intros Hv. pose proof (Int_part_bounds v) as [Hb _].
  apply le_IZR; lra.
Qed.



Lemma thrust_to_percent_below_cutoff (g : Parameters) (thrust : R)
    (t : ThrottleState) :
  thrust < 0.3256 -> fst (thrust_to_percent g thrust t) = 0.
Proof.
  intros Hlt; unfold thrust_to_percent.
  apply Rltb_true in Hlt; rewrite Hlt; reflexivity.
Qed.





(** ** Time-step handling of the altitude law *)

Lemma throttle_differentiate_zero_delta (sn : Sensors) (t : ThrottleState)
    (lg : list fault) :
  sub_uint64 (micros64 sn) (prev_time_Th t) = 0%Z ->
  let r := throttle_differentiate sn t lg in
  err_count (fst r) = (err_count t + 1)%Z /\
  dz (fst r) = dz t /\
  speed_pitch (fst r) = speed_pitch t /\
  snd r = lg.
Proof.
  intros Hz; unfold throttle_differentiate; rewrite Hz; cbn; auto.
Qed.

Lemma throttle_differentiate_nonzero_delta (sn : Sensors) (t : ThrottleState)
    (lg : list fault) :
  sub_uint64 (micros64 sn) (prev_time_Th t) <> 0%Z ->
  let delta := IZR (sub_uint64 (micros64 sn) (prev_time_Th t)) * 1e-6 in
  let r := throttle_differentiate sn t lg in
  err_count (fst r) = err_count t /\
  dz (fst r) = IZR (alt (current_loc sn) - z_old t) * 0.01 / delta /\
  speed_pitch (fst r) = (ahrs_pitch sn - pitch_old t) / delta /\
  snd r = lg.
Proof.
  intros Hnz delta r; subst r; unfold throttle_differentiate.
  destruct (Z.eqb_spec (sub_uint64 (micros64 sn) (prev_time_Th t)) 0);
    [contradiction|].
  assert (Hd : delta <> 0).
  { subst delta. apply not_0_IZR in Hnz. lra. }
  fold delta; unfold fdiv; cbn.
  assert (Hq : Reqb delta 0 = false).
  { unfold Reqb; destruct (Req_dec_T delta 0); [contradiction | reflexivity]. }
  rewrite Hq; auto.
Qed.

(** The two quotients by the time delta are never taken with a zero
    divisor. *)
Lemma throttle_differentiate_no_fault (sn : Sensors) (t : ThrottleState)
    (lg : list fault) :
  snd (throttle_differentiate sn t lg) = lg.
Proof.
  destruct (Z.eq_dec (sub_uint64 (micros64 sn) (prev_time_Th t)) 0) as [Hz|Hnz].
  - apply (throttle_differentiate_zero_delta sn t lg Hz).
  - apply (throttle_differentiate_nonzero_delta sn t lg Hnz).
Qed.

Section ThrottleCycle.
Context {platform : Platform}.

#[local] Arguments throttle_differentiate : simpl never.
#[local] Arguments throttle_first_time : simpl never.
#[local] Arguments cast_int32 : simpl never.

Lemma throttle_law_keeps_derivatives (g : Parameters) (sn : Sensors) (al : R)
    (t : ThrottleState) :
  let t' := throttle_law g sn al t in
  err_count t' = err_count t /\ dz t' = dz t /\ speed_pitch t' = speed_pitch t.
Proof.
  unfold throttle_law; destruct (lmi_z _ _ _ _) as [[z1 z2] z3]; cbn; auto.
Qed.

Lemma thrust_to_percent_keeps_derivatives (g : Parameters) (thrust v : R)
    (t : ThrottleState) :
  let t' := set_motor_per (snd (thrust_to_percent g thrust t)) v in
  err_count t' = err_count t /\ dz t' = dz t /\ speed_pitch t' = speed_pitch t.
Proof.
  unfold thrust_to_percent; destruct (Rltb thrust 0.3256); cbn; auto.
Qed.

(** What a call of the controller leaves in the derivative members and in
    the event log is what [throttle_differentiate] computed. *)
Lemma TLAB_Throttle_Controller_derivatives (g : Parameters) (sn : Sensors)
    (p : Plane) :
  let t0 := if firsttime_Th (throttle p)
            then throttle_first_time g sn (throttle p) else throttle p in
  let r := throttle_differentiate sn t0 (faults (shared p)) in
  let p' := snd (TLAB_Throttle_Controller g sn p) in
  err_count (throttle p') = err_count (fst r) /\
  dz (throttle p') = dz (fst r) /\
  speed_pitch (throttle p') = speed_pitch (fst r) /\
  faults (shared p') = snd r.
Proof.
  cbv zeta; unfold TLAB_Throttle_Controller.
  destruct (throttle_differentiate _ _ _) as [t1 lg1].
  destruct (thrust_to_percent _ _ _) as [per t2] eqn:Hper.
  cbn [fst snd throttle with_throttle set_faults shared with_shared faults].
  replace t2 with (snd (thrust_to_percent g
                          (motor_Th_N (throttle_law g sn (alpha (shared p)) t1))
                          (throttle_law g sn (alpha (shared p)) t1)))
    by (rewrite Hper; reflexivity).
  destruct (thrust_to_percent_keeps_derivatives g
              (motor_Th_N (throttle_law g sn (alpha (shared p)) t1)) per
              (throttle_law g sn (alpha (shared p)) t1)) as (-> & -> & ->).
  destruct (throttle_law_keeps_derivatives g sn (alpha (shared p)) t1)
    as (-> & -> & ->).
  auto.
Qed.

Lemma TLAB_Throttle_Controller_zero_delta (g : Parameters) (sn : Sensors)
    (p : Plane) :
  firsttime_Th (throttle p) = false ->
  sub_uint64 (micros64 sn) (prev_time_Th (throttle p)) = 0%Z ->
  let p' := snd (TLAB_Throttle_Controller g sn p) in
  err_count (throttle p') = (err_count (throttle p) + 1)%Z /\
  dz (throttle p') = dz (throttle p) /\
  speed_pitch (throttle p') = speed_pitch (throttle p) /\
  faults (shared p') = faults (shared p).
Proof.
  intros Hft Hz.
  pose proof (TLAB_Throttle_Controller_derivatives g sn p) as H.
  cbv zeta in H |- *; rewrite Hft in H.
  destruct H as (-> & -> & -> & ->).
  apply (throttle_differentiate_zero_delta sn (throttle p) (faults (shared p)) Hz).
Qed.

(** On the very first call the delta is zero by construction: the counter
    is reset and then incremented, and the altitude rate starts at zero. *)
Lemma TLAB_Throttle_Controller_first_call (g : Parameters) (sn : Sensors)
    (p : Plane) :
  firsttime_Th (throttle p) = true ->
  let p' := snd (TLAB_Throttle_Controller g sn p) in
  err_count (throttle p') = 1%Z /\
  dz (throttle p') = 0 /\
  speed_pitch (throttle p') = speed_pitch (throttle p) /\
  faults (shared p') = faults (shared p).
Proof.
  intros Hft.
  pose proof (TLAB_Throttle_Controller_derivatives g sn p) as H.
  cbv zeta in H |- *; rewrite Hft in H.
  destruct H as (-> & -> & -> & ->).
  assert (Hz : sub_uint64 (micros64 sn)
                 (prev_time_Th (throttle_first_time g sn (throttle p))) = 0%Z).
  { unfold throttle_first_time, sub_uint64; cbn [prev_time_Th].
    rewrite Z.sub_diag; reflexivity. }
  destruct (throttle_differentiate_zero_delta sn
              (throttle_first_time g sn (throttle p)) (faults (shared p)) Hz)
    as (-> & -> & -> & ->).
  unfold throttle_first_time; cbn; auto.
Qed.

(** No call of the controller divides by a zero time delta. *)
Lemma TLAB_Throttle_Controller_no_fault (g : Parameters) (sn : Sensors)
    (p : Plane) :
  faults (shared (snd (TLAB_Throttle_Controller g sn p))) = faults (shared p).
Proof.
  pose proof (TLAB_Throttle_Controller_derivatives g sn p) as H.
  cbv zeta in H; destruct H as (_ & _ & _ & ->).
  apply throttle_differentiate_no_fault.
Qed.

(** C8. On a control cycle (after the first) whose wall-clock delta since
    the previous cycle is zero, [err_count] is incremented, the altitude
    rate [dz] and the pitch rate [speed_pitch] keep the values of the
    previous cycle, and no division by the time delta takes place (the event
    log is unchanged). *)
Theorem C8_zero_time_delta_holds_derivatives (g : Parameters) (sn : Sensors)
    (p : Plane) :
  firsttime_Th (throttle p) = false ->
  sub_uint64 (micros64 sn) (prev_time_Th (throttle p)) = 0%Z ->
  let p' := snd (TLAB_Throttle_Controller g sn p) in
  err_count (throttle p') = (err_count (throttle p) + 1)%Z /\
  dz (throttle p') = dz (throttle p) /\
  speed_pitch (throttle p') = speed_pitch (throttle p) /\
  faults (shared p') = faults (shared p).
Proof. apply TLAB_Throttle_Controller_zero_delta. Qed.

End ThrottleCycle.

Lemma C8_zero_time_delta_witness :
  let p' := snd (@TLAB_Throttle_Controller test_platform params0 sensors0
                   plane0) in
  err_count (throttle p') = 1%Z /\
  dz (throttle p') = 0 /\
  speed_pitch (throttle p') = 0 /\
  faults (shared p') = [].
Proof.
  apply (@C8_zero_time_delta_holds_derivatives test_platform params0 sensors0
           plane0); reflexivity.
Defined.

(** ** Line/circle supervisor *)

Section SupervisorFrames.
Context {platform : Platform}.

Lemma line_view_circle_view (p q : Plane) :
  line_view p = line_view q -> circle_view p = circle_view q.
Proof.
  unfold line_view, circle_view; intros H; injection H as H1 H2 H3 H4 H5.
  rewrite H1, H3, H4, H5; reflexivity.
Qed.

Lemma line_view_eq (a : Plane) (s0 : Supervisor) (c0 : CircleState)
    (l0 : LCConfig) (f0 : LineState) (g0 : list string) :
  line_view a = (s0, c0, l0, f0, g0) ->
  sup a = s0 /\ circle a = c0 /\ lccfg a = l0 /\ line a = f0 /\
  gcs (shared a) = g0.
Proof. unfold line_view; intros H; injection H; auto. Qed.

Lemma circle_view_eq (a b : Plane) :
  circle_view a = circle_view b ->
  TLAB_Control_flag (sup a) = TLAB_Control_flag (sup b) /\
  TLAB_WP_nav_flag (sup a) = TLAB_WP_nav_flag (sup b) /\
  change_to_circle_flag (sup a) = change_to_circle_flag (sup b) /\
  lccfg a = lccfg b /\ line a = line b /\
  gcs (shared a) = gcs (shared b).
Proof. unfold circle_view; intros H; injection H; auto 10. Qed.

Lemma calc_controller_view (sn : Sensors) (x1 x2 : R) (p : Plane) :
  line_view (snd (calc_controller sn x1 x2 p)) = line_view p.
Proof. unfold calc_controller; split_ifs; reflexivity. Qed.

Lemma limit_speed_view (sn : Sensors) (p : Plane) :
  line_view (limit_speed sn p) = line_view p.
Proof. reflexivity. Qed.

Lemma line_law_view (g : Parameters) (sn : Sensors) (p : Plane) :
  line_view (line_law g sn p) = line_view p.
Proof.
  unfold line_law, lookahead_eta, calc_controller; split_ifs; reflexivity.
Qed.

Lemma line_command_view (g : Parameters) (p : Plane) :
  line_view (line_command g p) = line_view p.
Proof. reflexivity. Qed.

(** The line law leaves the supervisor flags, the circle state, the
    configuration and the notification log alone, and refreshes the
    waypoint frame. *)
Lemma TLAB_Line_Trace_Controller_frame (g : Parameters) (sn : Sensors)
    (p : Plane) :
  line_view (snd (TLAB_Line_Trace_Controller g sn p))
  = (sup p, circle p, lccfg p, waypoint_frame sn, gcs (shared p)).
Proof.
  unfold TLAB_Line_Trace_Controller; cbv zeta.
  destruct (negb _); cbn [snd]; [reflexivity|].
  rewrite line_command_view, line_law_view, limit_speed_view; reflexivity.
Qed.

Lemma circle_distance_view (sn : Sensors) (p : Plane) :
  circle_view (circle_distance sn p) = circle_view p.
Proof. reflexivity. Qed.

Lemma circle_angles_view (sn : Sensors) (p : Plane) :
  circle_view (circle_angles sn p) = circle_view p.
Proof.
  unfold circle_angles, init_TLAB_Controller_AUTO; split_ifs; reflexivity.
Qed.

Lemma circle_errors_view (p : Plane) :
  circle_view (circle_errors p) = circle_view p.
Proof. reflexivity. Qed.

Lemma update_prev_POS_view (sn : Sensors) (p : Plane) :
  circle_view (update_prev_POS sn p) = circle_view p.
Proof. unfold update_prev_POS; split_ifs; reflexivity. Qed.

Lemma circle_heading_view (sn : Sensors) (p : Plane) :
  circle_view (circle_heading sn p) = circle_view p.
Proof. reflexivity. Qed.

Lemma circle_law_view (g : Parameters) (sn : Sensors) (p : Plane) :
  circle_view (circle_law g sn p) = circle_view p.
Proof.
  unfold circle_law, lookahead_eta, calc_controller; split_ifs; reflexivity.
Qed.

Lemma circle_command_view (g : Parameters) (p : Plane) :
  circle_view (circle_command g p) = circle_view p.
Proof. reflexivity. Qed.

(** The circle law leaves the mode, the two trigger flags, the
    configuration, the waypoint frame and the notification log alone. *)
Lemma TLAB_Circle_Trace_Controller_frame (g : Parameters) (sn : Sensors)
    (p : Plane) :
  circle_view (snd (TLAB_Circle_Trace_Controller g sn p)) = circle_view p.
Proof.
  unfold TLAB_Circle_Trace_Controller; cbv zeta; cbn [snd].
  rewrite circle_command_view, circle_law_view, circle_heading_view,
    update_prev_POS_view.
  change (circle_view (limit_speed sn ?q)) with (circle_view q).
  rewrite circle_errors_view, circle_angles_view, circle_distance_view.
  reflexivity.
Qed.

End SupervisorFrames.

Section SupervisorTransitions.
Context {platform : Platform}.

#[local] Arguments TLAB_Line_Trace_Controller : simpl never.
#[local] Arguments TLAB_Circle_Trace_Controller : simpl never.
#[local] Arguments waypoint_frame : simpl never.

Lemma circle_exit_decide (sn : Sensors) (p : Plane) :
  Rgtb (Rabs (Int_theta (circle p))) (2 * PI * orbit_num (lccfg p))
  && Rgtb (state_UAV_x (waypoint_frame sn)) 0
  && Rltb (Rabs (state_UAV_y (waypoint_frame sn))) (change_y (lccfg p)) = true
  <-> circle_exit sn p.
Proof.
  unfold circle_exit.
  rewrite !Bool.andb_true_iff, !Rgtb_true, Rltb_true; tauto.
Qed.


(** One cycle of the supervisor in circle mode, case by case. *)
Lemma TLAB_Combine_Controller_circle_mode (g : Parameters) (sn : Sensors)
    (p : Plane) :
  TLAB_WP_nav_flag (sup p) = true ->
  TLAB_Control_flag (sup p) <> 0%Z ->
  let p' := snd (TLAB_Combine_Controller g sn p) in
  line p' = waypoint_frame sn /\
  lccfg p' = lccfg p /\
  TLAB_WP_nav_flag (sup p') = true /\
  change_to_circle_flag (sup p') = change_to_circle_flag (sup p) /\
  (circle_exit sn p ->
   TLAB_Control_flag (sup p') = 0%Z /\
   Int_theta (circle p') = 0 /\
   gcs (shared p') = to_line_text :: gcs (shared p)) /\
  (~ circle_exit sn p ->
   TLAB_Control_flag (sup p') = TLAB_Control_flag (sup p) /\
   gcs (shared p') = gcs (shared p)).
Proof.
  intros Hnav Hflag; unfold TLAB_Combine_Controller.
  rewrite Hnav; cbn [negb].
  destruct (Z.eqb_spec (TLAB_Control_flag (sup p)) 0) as [E|_];
    [contradiction|].
  cbv zeta.
  destruct (line_view_eq _ _ _ _ _ _
              (TLAB_Line_Trace_Controller_frame g sn
                 (set_Target_Circle_Center p (prev_WP_loc sn))))
    as (Hs & Hc & Hl & Hf & Hg).
  remember (snd (TLAB_Line_Trace_Controller g sn
                   (set_Target_Circle_Center p (prev_WP_loc sn)))) as q.
  cbn in Hs, Hc, Hl, Hg.
  rewrite Hc, Hl, Hf.
  destruct (Rgtb _ _ && Rgtb _ _ && Rltb _ _) eqn:Hcond.
  - apply circle_exit_decide in Hcond.
    destruct (line_view_eq _ _ _ _ _ _
                (TLAB_Line_Trace_Controller_frame g sn
                   (gcs_send_text_fmt
                      (set_Int_theta (set_TLAB_Control_flag q 0) 0)
                      "change to line trace mode")))
      as (Hs' & Hc' & Hl' & Hf' & Hg').
    cbn in Hs', Hc', Hl', Hg'.
    rewrite Hf', Hl', Hs', Hc', Hg', Hl, Hs, Hg; cbn.
    repeat split; auto; intros; contradiction.
  - assert (Hno : ~ circle_exit sn p).
    { intros H; apply circle_exit_decide in H; congruence. }
    destruct (circle_view_eq _ _ (TLAB_Circle_Trace_Controller_frame g sn q))
      as (H1 & H2 & H3 & H4 & H5 & H6).
    rewrite H5, Hf, H4, Hl, H2, H3, H1, H6, Hs, Hg; cbn.
    repeat split; auto; intros; contradiction.
Qed.







End SupervisorTransitions.



(** ** Further properties of the path generator *)

(** *** When the arc-length search returns *)









(** *** Circular arcs *)


(** ** Further properties of the controllers *)

(** *** Range of the servo angle *)

Lemma cast_int32_range (v : R) (m : Z) :
  - IZR m <= v <= IZR m -> (- m <= cast_int32 v <= m)%Z.
Proof.
  intros [Hlo Hhi]; unfold cast_int32.
  destruct (Rle_dec 0 v) as [Hv|Hv].
  - pose proof (Int_part_nonneg v Hv).
    pose proof (Int_part_le v m Hhi).
    assert (0 <= m)%Z by (apply le_IZR; lra).
    lia.
  - assert (Hv' : 0 <= - v) by lra.
    pose proof (Int_part_nonneg (- v) Hv').
    assert (Hm : - v <= IZR m) by lra.
    pose proof (Int_part_le (- v) m Hm).
    lia.
Qed.

(** The linkage map answers within a quarter turn either way. *)
Lemma servo_of_u_range (v : R) : (-9000 <= servo_of_u v <= 9000)%Z.
Proof.
  unfold servo_of_u.
  apply (cast_int32_range _ 9000).
  pose proof (asin_bound (constrain_float (58 / 29 * sin v) (- 1) 1))
    as [Hlo Hhi].
  pose proof PI_RGT_0 as Hpi.
  split.
  - apply Rmult_le_reg_r with (r := PI); [exact Hpi|].
    unfold Rdiv; rewrite Rmult_assoc, Rinv_l by lra.
    lra.
  - apply Rmult_le_reg_r with (r := PI); [exact Hpi|].
    unfold Rdiv; rewrite Rmult_assoc, Rinv_l by lra.
    lra.
Qed.

Section ControllerOutputs.
Context {platform : Platform}.

#[local] Arguments lateral_membership : simpl never.
#[local] Arguments calc_u_x : simpl never.
#[local] Arguments calc_u_chi : simpl never.
#[local] Arguments blend_h_chi : simpl never.
#[local] Arguments servo_of_u : simpl never.
#[local] Arguments cast_int32 : simpl never.
#[local] Arguments line_law : simpl never.
#[local] Arguments limit_speed : simpl never.
#[local] Arguments waypoint_frame : simpl never.

(** The servo angle returned by the line-tracking controller and by the
    lateral path-tracking controller lies in [-9000, 9000] centidegrees, so
    it fits the 16-bit operand of the clamp in [calc_nav_yaw_coordinated]
    without wrapping. *)
Theorem controller_servo_range :
  (forall (g : Parameters) (sn : Sensors) (p : Plane),
      let out := fst (TLAB_Line_Trace_Controller g sn p) in
      (-9000 <= out <= 9000)%Z /\ to_int16 out = out) /\
  (forall (fuel : nat) (g : Parameters) (sn : Sensors) (p : Plane),
      match TLAB_2D_Trace_Controller fuel g sn p with
      | Some r => (-9000 <= fst r <= 9000)%Z /\ to_int16 (fst r) = fst r
      | None => True
      end).
Proof.
  assert (Hfit : forall n : Z,
             (-9000 <= n <= 9000)%Z ->
             (-9000 <= n <= 9000)%Z /\ to_int16 n = n).
  { intros n Hn; split; [exact Hn|].
    unfold to_int16; rewrite Z.mod_small; lia. }
  split.
  - intros g sn p out; subst out; apply Hfit.
    unfold TLAB_Line_Trace_Controller.
    destruct (negb _); cbn [fst]; [lia|].
    unfold line_command; cbn.
    apply servo_of_u_range.
  - intros fuel g sn p.
    unfold TLAB_2D_Trace_Controller.
    destruct (negb _); [cbn [fst]; apply Hfit; lia|].
    destruct (TLAB_2D_Trace_law fuel g sn p) as [[out p']|] eqn:Hlaw;
      [|exact I].
    cbn [fst]; apply Hfit.
    revert Hlaw; unfold TLAB_2D_Trace_law.
    destruct (TLAB_generate_2D_Path _ _ _ _) as [p1|]; [|discriminate].
    destruct (lateral_membership _ _ _ _ _ _) as [[[[k1 k2] m1] m2] lg1].
    unfold fdiv; cbn.
    intros H; injection H as <- _.
    apply servo_of_u_range.
Qed.

End ControllerOutputs.

(** *** The supervisor while waypoint navigation is off *)

Section SupervisorGuard.
Context {platform : Platform}.

#[local] Arguments TLAB_Line_Trace_Controller : simpl never.
#[local] Arguments waypoint_frame : simpl never.

(** While [TLAB_WP_nav_flag] is clear the supervisor forces line mode and
    hands the cycle to the line-tracking controller, whatever the mode was:
    a controller found in circle mode leaves it without the exit condition
    being looked at, without a reset of [Int_theta] and without a
    notification. *)
Theorem supervisor_navigation_off (g : Parameters) (sn : Sensors)
    (p : Plane) :
  TLAB_WP_nav_flag (sup p) = false ->
  let r := TLAB_Combine_Controller g sn p in
  r = TLAB_Line_Trace_Controller g sn (set_TLAB_Control_flag p 0) /\
  TLAB_Control_flag (sup (snd r)) = 0%Z /\
  change_to_circle_flag (sup (snd r)) = change_to_circle_flag (sup p) /\
  Int_theta (circle (snd r)) = Int_theta (circle p) /\
  gcs (shared (snd r)) = gcs (shared p).
Proof.
  intros Hnav; unfold TLAB_Combine_Controller; rewrite Hnav; cbn [negb].
  cbv zeta; split; [reflexivity|].
  destruct (line_view_eq _ _ _ _ _ _
              (TLAB_Line_Trace_Controller_frame g sn
                 (set_TLAB_Control_flag p 0)))
    as (Hs & Hc & _ & _ & Hg).
  rewrite Hs, Hc, Hg; cbn; auto.
Qed.

End SupervisorGuard.

(** *** The throttle command *)

Lemma cast_int32_IZR (n : Z) : cast_int32 (IZR n) = n.
Proof.
  unfold cast_int32; destruct (Rle_dec 0 (IZR n)) as [H|H].
  - apply Int_part_IZR.
  - rewrite <- opp_IZR, Int_part_IZR; lia.
Qed.

Section ThrottleCommand.
Context {platform : Platform}.

(** The returned throttle percentage is an integer of
    [[0, TPARAM_MAX_slo]], and it is the value left in [motor_per]. *)
Theorem throttle_command_range (g : Parameters) (sn : Sensors) (p : Plane) :
  (0 <= TPARAM_MAX_slo g)%Z ->
  let r := TLAB_Throttle_Controller g sn p in
  (0 <= fst r <= TPARAM_MAX_slo g)%Z /\
  motor_per (throttle (snd r)) = IZR (fst r).
Proof.
  intros Hmax; unfold TLAB_Throttle_Controller.
  destruct (throttle_differentiate _ _ _) as [t lg].
  unfold thrust_to_percent; cbv zeta.
  destruct (Rltb _ 0.3256); cbn.
  - rewrite (cast_int32_IZR 0); split; [lia | reflexivity].
  - rewrite cast_int32_IZR; split; [|reflexivity].
    apply constrain_int32_range; exact Hmax.
Qed.

(** The throttle controller never divides by a zero time delta: no cycle,
    first or later, adds a division-by-zero event to the log. *)
Theorem throttle_no_division_by_zero (g : Parameters) (sn : Sensors)
    (p : Plane) :
  faults (shared (snd (TLAB_Throttle_Controller g sn p)))
  = faults (shared p).
Proof. apply TLAB_Throttle_Controller_no_fault. Qed.

End ThrottleCommand.

(** *** Membership pairs at the bounds *)

(** At and beyond the configured bounds of its scheduling variable each
    membership pair is exactly (1,0) or (0,1): the ground-speed pair of the
    comparison fuzzy law, the pairs of the LMI altitude law and the
    heading pair (K1, K2) of the lateral law. *)
Theorem membership_pairs_at_bounds :
  (forall vg vmin vmax : R,
      vmin < vmax ->
      (vg >= vmax -> m_mem vg vmin vmax = (1, 0)) /\
      (vg <= vmin -> m_mem vg vmin vmax = (0, 1))) /\
  (forall (maxmin_z : list (list R)) (row : nat) (zv : R),
      elem2 maxmin_z row 1 < elem2 maxmin_z row 0 ->
      (zv >= elem2 maxmin_z row 0 -> mem_pair maxmin_z row zv = [0; 1]) /\
      (zv <= elem2 maxmin_z row 1 -> mem_pair maxmin_z row zv = [1; 0])) /\
  (forall (c : P2Config) (vg chiF0 ux kp : R) (lg : list fault),
      chiF0 <> 0 ->
      z2_min c < z2_max c ->
      let r := lateral_membership c vg chiF0 ux kp lg in
      let z2 := vg * sin chiF0 / chiF0 in
      (z2 >= z2_max c -> K1_of r = 1 /\ K2_of r = 0) /\
      (z2 <= z2_min c -> K1_of r = 0 /\ K2_of r = 1)).
Proof.
  split; [|split].
  - apply m_mem_boundary.
  - apply mem_pair_boundary.
  - apply lateral_K_boundary.
Qed.


(** *** The statements at concrete inputs *)



Lemma supervisor_navigation_off_witness :
  let r := @TLAB_Combine_Controller test_platform params0 sensors0
             plane_nav_off in
  TLAB_Control_flag (sup (snd r)) = 0%Z /\
  Int_theta (circle (snd r)) = 10 /\
  gcs (shared (snd r)) = [].
Proof.
  destruct (@supervisor_navigation_off test_platform params0 sensors0
              plane_nav_off eq_refl) as (_ & H1 & _ & H2 & H3).
  cbv zeta; split; [exact H1 | split; [exact H2 | exact H3]].
Defined.

Lemma throttle_command_range_witness :
  let r := @TLAB_Throttle_Controller test_platform params0 sensors0 plane0 in
  (0 <= fst r <= TPARAM_MAX_slo params0)%Z /\
  motor_per (throttle (snd r)) = IZR (fst r).
Proof.
  apply (@throttle_command_range test_platform params0 sensors0 plane0).
  cbn; lia.
Defined.


(** ** Further properties of the line and circle laws *)

(** The denominator of the rational-polynomial law is bounded away from
    zero. *)
Lemma rational_denominator_positive (x1 x2 : R) :
  25 < rational_denominator x1 x2.
Proof.
  unfold rational_denominator.
  pose proof (pow2_ge_0 (x1 + 1)).
  pose proof (pow2_ge_0 (x2 - 1)).
  pose proof (pow2_ge_0 (x1 - 1.15 * x2)).
  pose proof (pow2_ge_0 x1).
  pose proof (pow2_ge_0 x2).
  nra.
Qed.

(** With the rational-polynomial law selected, [calc_controller] returns
    the quotient of its two polynomials, and the divisor is above 25 for
    every pair of inputs: the quotient is never a division by zero. *)
Theorem rational_controller_never_divides_by_zero (sn : Sensors)
    (x1 x2 : R) (p : Plane) :
  use_fuzzy_controller (lccfg p) = false ->
  fst (calc_controller sn x1 x2 p)
  = rational_numerator x1 x2 / rational_denominator x1 x2 /\
  25 < rational_denominator x1 x2.
Proof.
  intros Hf; split; [|apply rational_denominator_positive].
  unfold calc_controller.
  assert (E : forall q : Plane,
             lccfg (if negb (lat (prev_POS (shared p)) =? lat (current_loc sn))%Z
                       || negb (lng (prev_POS (shared p)) =? lng (current_loc sn))%Z
                    then set_prev_POS p (current_loc sn) else p) = lccfg p).
  { intros _; destruct (_ || _); reflexivity. }
  cbv zeta; rewrite (E p), Hf; reflexivity.
Qed.

Section LineCircleLaws.
Context {platform : Platform}.

#[local] Arguments waypoint_frame : simpl never.
#[local] Arguments servo_of_u : simpl never.
#[local] Arguments line_law : simpl never.
#[local] Arguments circle_law : simpl never.
#[local] Arguments circle_angles : simpl never.
#[local] Arguments limit_speed : simpl never.
#[local] Arguments update_prev_POS : simpl never.
#[local] Arguments constrain_float : simpl never.

Lemma line_command_u (g : Parameters) (q : Plane) :
  u (shared (line_command g q))
  = constrain_float (L_conv (law q) / const_k (lccfg q) * u_star (law q))
                    (U_min (lccfg q) * PI / 180) (U_max (lccfg q) * PI / 180)
    + TPARAM_servo_neutral g * PI / 180.
Proof. reflexivity. Qed.

Lemma circle_command_u (g : Parameters) (q : Plane) :
  exists v,
    u (shared (circle_command g q))
    = constrain_float v (U_min (lccfg q) * PI / 180)
                      (U_max (lccfg q) * PI / 180)
      + TPARAM_servo_neutral g * PI / 180.
Proof. eexists; reflexivity. Qed.

(** The configuration reaches the closing stage of the two laws
    unchanged. *)
Lemma line_stages_lccfg (g : Parameters) (sn : Sensors) (p : Plane) :
  lccfg (line_law g sn (limit_speed sn (with_line p (waypoint_frame sn))))
  = lccfg p.
Proof.
  pose proof (line_law_view g sn
                (limit_speed sn (with_line p (waypoint_frame sn)))) as H.
  rewrite limit_speed_view in H.
  apply line_view_eq in H; destruct H as (_ & _ & H & _); exact H.
Qed.

Lemma circle_stages_lccfg (g : Parameters) (sn : Sensors) (p : Plane) :
  lccfg (circle_law g sn
           (circle_heading sn
              (update_prev_POS sn
                 (limit_speed sn
                    (circle_errors
                       (circle_angles sn (circle_distance sn p)))))))
  = lccfg p.
Proof.
  match goal with
  | |- lccfg ?q = _ =>
      assert (H : circle_view q = circle_view p)
  end.
  { rewrite circle_law_view, circle_heading_view, update_prev_POS_view.
    change (circle_view (limit_speed sn ?q)) with (circle_view q).
    rewrite circle_errors_view, circle_angles_view, circle_distance_view.
    reflexivity. }
  apply circle_view_eq in H; destruct H as (_ & _ & _ & H & _); exact H.
Qed.

(** The bar angle [u] commanded by the line law (in line mode) and by the
    circle law is the configured neutral angle plus a deflection that stays
    within [[U_min, U_max]] degrees. *)
Theorem bar_angle_saturated (g : Parameters) (sn : Sensors) (p : Plane) :
  U_min (lccfg p) <= U_max (lccfg p) ->
  (TLAB_Control_flag (sup p) = 0%Z ->
   U_min (lccfg p) * PI / 180
   <= u (shared (snd (TLAB_Line_Trace_Controller g sn p)))
      - TPARAM_servo_neutral g * PI / 180
   <= U_max (lccfg p) * PI / 180) /\
  U_min (lccfg p) * PI / 180
  <= u (shared (snd (TLAB_Circle_Trace_Controller g sn p)))
     - TPARAM_servo_neutral g * PI / 180
  <= U_max (lccfg p) * PI / 180.
Proof.
  intros HU.
  assert (Hr : U_min (lccfg p) * PI / 180 <= U_max (lccfg p) * PI / 180).
  { pose proof PI_RGT_0; apply Rmult_le_compat_r; [lra|].
    apply Rmult_le_compat_r; lra. }
  split.
  - intros Hflag; unfold TLAB_Line_Trace_Controller; cbv zeta.
    change (sup (with_line p (waypoint_frame sn))) with (sup p).
    rewrite Hflag; cbn [Z.eqb negb snd].
    rewrite line_command_u, line_stages_lccfg.
    match goal with
    | |- _ <= constrain_float ?v ?a ?b + ?n - ?n <= _ =>
        pose proof (constrain_float_range v a b Hr)
    end.
    lra.
  - unfold TLAB_Circle_Trace_Controller; cbv zeta; cbn [snd].
    match goal with
    | |- _ <= u (shared (circle_command g ?q)) - _ <= _ =>
        destruct (circle_command_u g q) as [v ->]
    end.
    rewrite circle_stages_lccfg.
    pose proof (constrain_float_range v _ _ Hr).
    lra.
Qed.

(** With [calc_GCRS_flag = 0] the first stage of the circle law does not
    touch the accumulated angle. *)
Lemma circle_angles_Int_theta (sn : Sensors) (p : Plane) :
  calc_GCRS_flag (lccfg p) = 0%Z ->
  Int_theta (circle (circle_angles sn p)) = Int_theta (circle p).
Proof.
  intros H; unfold circle_angles; rewrite H; reflexivity.
Qed.

Lemma circle_law_Int_theta (g : Parameters) (sn : Sensors) (p : Plane) :
  Int_theta (circle (circle_law g sn p)) = Int_theta (circle p).
Proof.
  unfold circle_law, lookahead_eta, calc_controller; split_ifs; reflexivity.
Qed.

Lemma update_prev_POS_Int_theta (sn : Sensors) (p : Plane) :
  Int_theta (circle (update_prev_POS sn p)) = Int_theta (circle p).
Proof. unfold update_prev_POS; split_ifs; reflexivity. Qed.

Lemma circle_command_Int_theta (g : Parameters) (p : Plane) :
  Int_theta (circle (circle_command g p)) = Int_theta (circle p).
Proof. reflexivity. Qed.

Lemma circle_heading_Int_theta (sn : Sensors) (p : Plane) :
  Int_theta (circle (circle_heading sn p)) = Int_theta (circle p).
Proof. reflexivity. Qed.

Lemma limit_speed_Int_theta (sn : Sensors) (p : Plane) :
  Int_theta (circle (limit_speed sn p)) = Int_theta (circle p).
Proof. reflexivity. Qed.

Lemma circle_errors_Int_theta (p : Plane) :
  Int_theta (circle (circle_errors p)) = Int_theta (circle p).
Proof. reflexivity. Qed.

Lemma circle_distance_Int_theta (sn : Sensors) (p : Plane) :
  Int_theta (circle (circle_distance sn p)) = Int_theta (circle p) /\
  lccfg (circle_distance sn p) = lccfg p.
Proof. split; reflexivity. Qed.

Lemma TLAB_Circle_Trace_Controller_Int_theta (g : Parameters) (sn : Sensors)
    (p : Plane) :
  calc_GCRS_flag (lccfg p) = 0%Z ->
  Int_theta (circle (snd (TLAB_Circle_Trace_Controller g sn p)))
  = Int_theta (circle p).
Proof.
  intros H; unfold TLAB_Circle_Trace_Controller; cbv zeta; cbn [snd].
  destruct (circle_distance_Int_theta sn p) as [Hd Hl].
  rewrite circle_command_Int_theta, circle_law_Int_theta,
    circle_heading_Int_theta, update_prev_POS_Int_theta,
    limit_speed_Int_theta, circle_errors_Int_theta.
  rewrite circle_angles_Int_theta by (rewrite Hl; exact H).
  exact Hd.
Qed.

(** One cycle of the supervisor in circle mode with [calc_GCRS_flag = 0]
    and an accumulated angle that does not exceed the exit threshold. *)
Lemma TLAB_Combine_Controller_orbit_stalled (g : Parameters) (sn : Sensors)
    (p : Plane) :
  TLAB_WP_nav_flag (sup p) = true ->
  TLAB_Control_flag (sup p) <> 0%Z ->
  calc_GCRS_flag (lccfg p) = 0%Z ->
  Rabs (Int_theta (circle p)) <= 2 * PI * orbit_num (lccfg p) ->
  let p' := snd (TLAB_Combine_Controller g sn p) in
  TLAB_WP_nav_flag (sup p') = true /\
  TLAB_Control_flag (sup p') = TLAB_Control_flag (sup p) /\
  lccfg p' = lccfg p /\
  Int_theta (circle p') = Int_theta (circle p) /\
  gcs (shared p') = gcs (shared p).
Proof.
  intros Hnav Hflag Hg Hsmall.
  assert (Hno : ~ circle_exit sn p) by (unfold circle_exit; lra).
  destruct (TLAB_Combine_Controller_circle_mode g sn p Hnav Hflag)
    as (_ & Hl & Hn & _ & _ & Hkeep).
  destruct (Hkeep Hno) as [Hf Hgcs].
  cbv zeta in *.
  repeat split; try assumption.
  unfold TLAB_Combine_Controller.
  rewrite Hnav; cbn [negb].
  destruct (Z.eqb_spec (TLAB_Control_flag (sup p)) 0) as [E|_];
    [contradiction|].
  cbv zeta.
  destruct (line_view_eq _ _ _ _ _ _
              (TLAB_Line_Trace_Controller_frame g sn
                 (set_Target_Circle_Center p (prev_WP_loc sn))))
    as (_ & Hc & Hlq & Hfq & _).
  remember (snd (TLAB_Line_Trace_Controller g sn
                   (set_Target_Circle_Center p (prev_WP_loc sn)))) as q.
  cbn in Hc, Hlq.
  destruct (Rgtb _ _ && Rgtb _ _ && Rltb _ _) eqn:Hcond.
  - exfalso; apply Hno.
    rewrite Hc, Hlq, Hfq in Hcond.
    apply circle_exit_decide; exact Hcond.
  - rewrite TLAB_Circle_Trace_Controller_Int_theta by (rewrite Hlq; exact Hg).
    rewrite Hc; reflexivity.
Qed.

(** With [calc_GCRS_flag = 0] the circle law never adds to [Int_theta];
    so a supervisor in circle mode whose accumulated angle does not exceed
    [2*pi*orbit_num] stays in circle mode over any number of cycles, with
    the angle unchanged and no notification sent. *)
Theorem circle_mode_kept_without_angle_count (g : Parameters)
    (sns : list Sensors) (p : Plane) :
  TLAB_WP_nav_flag (sup p) = true ->
  TLAB_Control_flag (sup p) <> 0%Z ->
  calc_GCRS_flag (lccfg p) = 0%Z ->
  Rabs (Int_theta (circle p)) <= 2 * PI * orbit_num (lccfg p) ->
  let p' := run_Combine g sns p in
  TLAB_Control_flag (sup p') = TLAB_Control_flag (sup p) /\
  Int_theta (circle p') = Int_theta (circle p) /\
  gcs (shared p') = gcs (shared p).
Proof.
  revert p; induction sns as [|sn sns IH]; intros p Hnav Hflag Hg Hsmall.
  - cbn; auto.
  - cbn [run_Combine]; cbv zeta.
    destruct (TLAB_Combine_Controller_orbit_stalled g sn p Hnav Hflag Hg
                Hsmall) as (Hn & Hf & Hl & Hi & Hgcs).
    cbv zeta in Hn, Hf, Hl, Hi, Hgcs.
    specialize (IH (snd (TLAB_Combine_Controller g sn p))).
    cbv zeta in IH.
    rewrite Hf, Hl, Hi, Hgcs in IH.
    apply IH; assumption.
Qed.

End LineCircleLaws.

(** ** The lateral controller after its own initialisation *)


Section LateralInitialised.
Context {platform : Platform}.

#[local] Arguments lateral_membership : simpl never.
#[local] Arguments calc_u_x : simpl never.
#[local] Arguments calc_u_chi : simpl never.
#[local] Arguments blend_h_chi : simpl never.
#[local] Arguments servo_of_u : simpl never.
#[local] Arguments cast_int32 : simpl never.






End LateralInitialised.

(** ** Further properties of the altitude / throttle law *)

Section ThrottleSelection.
Context {platform : Platform}.

#[local] Arguments throttle_differentiate : simpl never.
#[local] Arguments throttle_first_time : simpl never.
#[local] Arguments cast_int32 : simpl never.
#[local] Arguments constrain_float : simpl never.

(** What the call leaves in the thrust members, in terms of the law
    applied to the differentiated state. *)
Lemma TLAB_Throttle_Controller_thrust (g : Parameters) (sn : Sensors)
    (p : Plane) :
  let t0 := if firsttime_Th (throttle p)
            then throttle_first_time g sn (throttle p) else throttle p in
  let t1 := fst (throttle_differentiate sn t0 (faults (shared p))) in
  let t2 := throttle_law g sn (alpha (shared p)) t1 in
  let r := TLAB_Throttle_Controller g sn p in
  motor_Th_N (throttle (snd r)) = motor_Th_N t2 /\
  e_m (throttle (snd r)) = e_m t2 /\
  de_m (throttle (snd r)) = de_m t2 /\
  motor_per (throttle (snd r)) = fst (thrust_to_percent g (motor_Th_N t2) t2) /\
  fst r = cast_int32 (fst (thrust_to_percent g (motor_Th_N t2) t2)).
Proof.
  cbv zeta; unfold TLAB_Throttle_Controller.
  destruct (throttle_differentiate _ _ _) as [t1 lg1]; cbn [fst].
  unfold thrust_to_percent; cbv zeta.
  destruct (Rltb _ 0.3256); cbn; auto.
Qed.

Lemma throttle_law_thrust (g : Parameters) (sn : Sensors) (al : R)
    (t : ThrottleState) :
  let t' := throttle_law g sn al t in
  (TPARAM_cha_pow g = 4%Z \/ TPARAM_cha_pow g = 5%Z -> motor_Th_N t' = 0) /\
  ((TPARAM_cha_pow g < 1 \/ 6 < TPARAM_cha_pow g)%Z ->
   motor_Th_N t' = motor_Th_N t).
Proof.
  unfold throttle_law; destruct (lmi_z _ _ _ _) as [[z1 z2] z3].
  cbn [motor_Th_N]; split.
  - intros [H|H]; rewrite H; reflexivity.
  - intros H.
    destruct (Z.eqb_spec (TPARAM_cha_pow g) 1); [lia|].
    destruct (Z.eqb_spec (TPARAM_cha_pow g) 2); [lia|].
    destruct (Z.eqb_spec (TPARAM_cha_pow g) 3); [lia|].
    destruct (Z.eqb_spec (TPARAM_cha_pow g) 4); [lia|].
    destruct (Z.eqb_spec (TPARAM_cha_pow g) 5); [lia|].
    destruct (Z.eqb_spec (TPARAM_cha_pow g) 6); [lia|].
    reflexivity.
Qed.

Lemma throttle_differentiate_keeps_thrust (sn : Sensors) (t : ThrottleState)
    (lg : list fault) :
  let t' := fst (throttle_differentiate sn t lg) in
  motor_Th_N t' = motor_Th_N t /\ kp_Th t' = kp_Th t /\ kd_Th t' = kd_Th t /\
  d1_Th t' = d1_Th t /\ d2_Th t' = d2_Th t.
Proof.
  unfold throttle_differentiate, fdiv; cbv zeta.
  destruct (_ =? 0)%Z; cbn; auto.
Qed.

(** The two selections whose law is not written yet
    ([TPARAM_cha_pow] 4 and 5) set the thrust command to zero, so the
    controller returns a throttle of 0 percent.  A selection outside 1..6
    assigns nothing: the thrust command keeps the value it had. *)
Theorem throttle_selection_without_law (g : Parameters) (sn : Sensors)
    (p : Plane) :
  (TPARAM_cha_pow g = 4%Z \/ TPARAM_cha_pow g = 5%Z ->
   let r := TLAB_Throttle_Controller g sn p in
   fst r = 0%Z /\
   motor_Th_N (throttle (snd r)) = 0 /\
   motor_per (throttle (snd r)) = 0) /\
  ((TPARAM_cha_pow g < 1 \/ 6 < TPARAM_cha_pow g)%Z ->
   motor_Th_N (throttle (snd (TLAB_Throttle_Controller g sn p)))
   = motor_Th_N (throttle p)).
Proof.
  destruct (TLAB_Throttle_Controller_thrust g sn p)
    as (HT & _ & _ & Hper & Hout).
  cbv zeta in HT, Hper, Hout.
  split.
  - intros Hsel; cbv zeta.
    match type of HT with
    | _ = motor_Th_N (throttle_law g sn ?al ?t1) =>
        destruct (throttle_law_thrust g sn al t1) as [Hz _];
        specialize (Hz Hsel); cbv zeta in Hz
    end.
    rewrite Hz in HT, Hper, Hout.
    rewrite thrust_to_percent_below_cutoff in Hper, Hout by lra.
    rewrite Hout, HT, Hper.
    unfold cast_int32; destruct (Rle_dec 0 0) as [_|N]; [|lra].
    repeat split.
    symmetry; apply Int_part_spec; lra.
  - intros Hsel.
    match type of HT with
    | _ = motor_Th_N (throttle_law g sn ?al ?t1) =>
        destruct (throttle_law_thrust g sn al t1) as [_ Hk];
        specialize (Hk Hsel); cbv zeta in Hk
    end.
    rewrite HT, Hk.
    match goal with
    | |- motor_Th_N (fst (throttle_differentiate sn ?t0 ?lg)) = _ =>
        destruct (throttle_differentiate_keeps_thrust sn t0 lg) as (-> & _)
    end.
    destruct (firsttime_Th (throttle p)); reflexivity.
Qed.

(** The fuzzy PD blend on a state [t]. *)
Lemma throttle_law_pd_blend (g : Parameters) (sn : Sensors) (al : R)
    (t : ThrottleState) :
  TPARAM_cha_pow g = 1%Z ->
  d1_Th t <> d2_Th t ->
  let t' := throttle_law g sn al t in
  let l0 := pd_local_thrust g t 0 (e_m t') (de_m t') in
  let l1 := pd_local_thrust g t 1 (e_m t') (de_m t') in
  Rmin l0 l1 <= motor_Th_N t' <= Rmax l0 l1.
Proof.
  intros Hsel Hd.
  unfold throttle_law; destruct (lmi_z _ _ _ _) as [[z1 z2] z3].
  cbn [motor_Th_N e_m de_m]; rewrite Hsel; cbn [Z.eqb Pos.eqb].
  unfold pd_local_thrust; cbn [fold_left seq elem nth].
  set (em := IZR (alt (current_loc sn)) * 0.01
             - IZR (alt (next_WP_loc sn)) * 0.01).
  set (a := (dz t - d2_Th t) / (d1_Th t - d2_Th t)).
  set (b := (d1_Th t - dz t) / (d1_Th t - d2_Th t)).
  assert (Hab : a + b = 1) by (unfold a, b; field; lra).
  pose proof (constrain_float_complement a b Hab) as Hsum.
  pose proof (constrain_float_range a 0 1 ltac:(lra)) as Ha.
  pose proof (constrain_float_range b 0 1 ltac:(lra)) as Hb.
  remember (constrain_float a 0 1) as h0.
  remember (constrain_float b 0 1) as h1.
  remember (elem (kp_Th t) 0 * em + elem (kd_Th t) 0 * dz t) as c0.
  remember (elem (kp_Th t) 1 * em + elem (kd_Th t) 1 * dz t) as c1.
  remember (equilibrium_thrust g) as T.
  assert (E : h1 = 1 - h0) by lra.
  clear Heqh0 Heqh1 Heqc0 Heqc1 HeqT Hsum.
  unfold Rmin, Rmax; destruct (Rle_dec _ _); subst h1; nra.
Qed.

(** With the fuzzy PD law selected ([TPARAM_cha_pow = 1]) and two distinct
    rate bounds, the thrust command is a convex blend of the two local PD
    commands: it lies between what rule 0 alone and rule 1 alone would
    command for the cycle's altitude error and altitude rate. *)
Theorem pd_blend_between_local_laws (g : Parameters) (sn : Sensors)
    (p : Plane) :
  TPARAM_cha_pow g = 1%Z ->
  firsttime_Th (throttle p) = false ->
  d1_Th (throttle p) <> d2_Th (throttle p) ->
  let t' := throttle (snd (TLAB_Throttle_Controller g sn p)) in
  let l0 := pd_local_thrust g (throttle p) 0 (e_m t') (de_m t') in
  let l1 := pd_local_thrust g (throttle p) 1 (e_m t') (de_m t') in
  Rmin l0 l1 <= motor_Th_N t' <= Rmax l0 l1.
Proof.
  intros Hsel Hft Hd.
  destruct (TLAB_Throttle_Controller_thrust g sn p)
    as (HT & He & Hde & _).
  cbv zeta in HT, He, Hde |- *.
  rewrite Hft in HT, He, Hde.
  rewrite HT, He, Hde.
  destruct (throttle_differentiate_keeps_thrust sn (throttle p)
              (faults (shared p))) as (_ & Hkp & Hkd & Hd1 & Hd2).
  cbv zeta in Hkp, Hkd, Hd1, Hd2.
  pose proof (throttle_law_pd_blend g sn (alpha (shared p))
                (fst (throttle_differentiate sn (throttle p)
                        (faults (shared p)))) Hsel) as H.
  rewrite Hd1, Hd2 in H; specialize (H Hd); cbv zeta in H.
  unfold pd_local_thrust in *.
  rewrite Hkp, Hkd in H.
  exact H.
Qed.

End ThrottleSelection.

(** * Properties of the attitude helpers *)

(** ** Conversions *)

(** Truncation toward zero never crosses an integer. *)
Lemma cast_int32_ge (v : R) (n : Z) : IZR n <= v -> (n <= cast_int32 v)%Z.
Proof.
  intros H; unfold cast_int32.
  pose proof (Int_part_bounds v) as [H1 H2].
  pose proof (Int_part_bounds (- v)) as [H3 H4].
  destruct (Rle_dec 0 v).
  - assert (n < Int_part v + 1)%Z by (apply lt_IZR; rewrite plus_IZR; lra).
    lia.
  - assert (n < - Int_part (- v) + 1)%Z
      by (apply lt_IZR; rewrite plus_IZR, opp_IZR; lra).
    lia.
Qed.

Lemma cast_int32_le (v : R) (n : Z) : v <= IZR n -> (cast_int32 v <= n)%Z.
Proof.
  intros H; unfold cast_int32.
  pose proof (Int_part_bounds v) as [H1 H2].
  pose proof (Int_part_bounds (- v)) as [H3 H4].
  destruct (Rle_dec 0 v).
  - apply le_IZR; lra.
  - assert (- n < Int_part (- v) + 1)%Z
      by (apply lt_IZR; rewrite plus_IZR, opp_IZR; lra).
    lia.
Qed.

(** On a non-negative value it is the floor. *)
Lemma cast_int32_floor (v : R) :
  0 <= v -> IZR (cast_int32 v) <= v < IZR (cast_int32 v) + 1.
Proof.
  intros H; rewrite cast_int32_nonneg by exact H.
  apply Int_part_bounds.
Qed.

(** Its magnitude never exceeds the magnitude of its argument. *)
Lemma cast_int32_abs (v : R) : IZR (Z.abs (cast_int32 v)) <= Rabs v.
Proof.
  unfold cast_int32.
  pose proof (Int_part_bounds v) as [H1 H2].
  pose proof (Int_part_bounds (- v)) as [H3 H4].
  destruct (Rle_dec 0 v) as [Hv|Hv].
  - pose proof (Int_part_nonneg v Hv).
    rewrite Z.abs_eq by lia; rewrite Rabs_pos_eq by lra; lra.
  - assert (Hv' : 0 <= - v) by lra.
    pose proof (Int_part_nonneg (- v) Hv').
    rewrite Z.abs_opp, Z.abs_eq by lia.
    rewrite Rabs_left by lra; lra.
Qed.

Lemma to_int16_small (n : Z) :
  (-32768 <= n <= 32767)%Z -> to_int16 n = n.
Proof. intros H; unfold to_int16; rewrite Z.mod_small; lia. Qed.

Lemma to_int8_small (n : Z) : (-128 <= n <= 127)%Z -> to_int8 n = n.
Proof. intros H; unfold to_int8; rewrite Z.mod_small; lia. Qed.

Lemma to_int16_range (n : Z) : (-32768 <= to_int16 n <= 32767)%Z.
Proof.
  unfold to_int16.
  pose proof (Z.mod_pos_bound (n + 32768) 65536 ltac:(lia)); lia.
Qed.

Lemma constrain_int16_inside (v lo hi : Z) :
  (-32768 <= v <= 32767)%Z -> (lo <= v <= hi)%Z ->
  constrain_int16 v lo hi = v.
Proof.
  intros Hv Hin; unfold constrain_int16; cbv zeta.
  rewrite to_int16_small by exact Hv.
  destruct (Z.ltb_spec v lo); [lia|].
  destruct (Z.gtb_spec v hi); [lia | reflexivity].
Qed.

(** ** Speed scaling *)

Lemma constrain_float_monotone (a b lo hi : R) :
  lo <= hi -> a <= b -> constrain_float a lo hi <= constrain_float b lo hi.
Proof. unfold constrain_float; intros; rdec; lra. Qed.

Lemma constrain_float_top (a lo hi : R) :
  lo <= hi -> hi <= a -> constrain_float a lo hi = hi.
Proof. unfold constrain_float; intros; rdec; lra. Qed.

(** The speed scaler lies in [[0.5, 2]], and in [[0.6, 1.67]] when there is
    no airspeed estimate; the recorded highest airspeed never decreases and
    is at least the current estimate; and neither quotient is ever taken
    with a zero divisor. *)
Theorem speed_scaler_bounds (i : SpeedScalerInputs) (highest : R)
    (lg : list fault) :
  let r := get_speed_scaler i highest lg in
  0.5 <= fst (fst r) <= 2 /\
  (airspeed_estimate i = None -> 0.6 <= fst (fst r) <= 1.67) /\
  highest <= snd (fst r) /\
  (forall a, airspeed_estimate i = Some a -> a <= snd (fst r)) /\
  snd r = lg.
Proof.
  unfold get_speed_scaler.
  destruct (airspeed_estimate i) as [a|].
  - assert (Hlog : snd (if Rgtb a 0.0001
                        then fdiv "speed_scaler" (scaling_speed i) a lg
                        else (2, lg)) = lg).
    { unfold fdiv, Rgtb, Reqb.
      destruct (Rgt_dec a 0.0001); [|reflexivity].
      destruct (Req_dec_T a 0); [lra | reflexivity]. }
    destruct (if Rgtb a 0.0001 then _ else _) as [sc lg'].
    cbn [fst snd] in *.
    pose proof (constrain_float_range sc 0.5 2 ltac:(lra)).
    repeat split; try lra; try discriminate; try exact Hlog.
    + unfold Rgtb; destruct (Rgt_dec a highest); lra.
    + intros a' E; injection E as <-.
      unfold Rgtb; destruct (Rgt_dec a highest); lra.
  - assert (Hlog : snd (if (throttle_servo_out i >? 0)%Z
                        then
                          let '(q, lg0) :=
                            fdiv "speed_scaler" (IZR (THROTTLE_CRUISE i))
                                 (IZR (throttle_servo_out i)) lg in
                          (0.5 + q / 2, lg0)
                        else (1.67, lg)) = lg).
    { destruct (Z.gtb_spec (throttle_servo_out i) 0) as [Hpos|]; [|reflexivity].
      unfold fdiv, Reqb; cbn [snd].
      destruct (Req_dec_T (IZR (throttle_servo_out i)) 0) as [E|]; [|reflexivity].
      apply eq_IZR in E; lia. }
    destruct (if (throttle_servo_out i >? 0)%Z then _ else _) as [sc lg'].
    cbn [fst snd] in *.
    pose proof (constrain_float_range sc 0.6 1.67 ltac:(lra)).
    repeat split; try lra; try discriminate; exact Hlog.
Qed.

(** "At high speed we move the surfaces less": for a non-negative
    [scaling_speed] the scaler computed from a larger airspeed estimate is
    never larger. *)
Theorem speed_scaler_decreasing (sp : R) (so tc : Z) (a1 a2 h1 h2 : R)
    (lg : list fault) :
  0 <= sp -> a1 <= a2 ->
  fst (fst (get_speed_scaler
              {| airspeed_estimate := Some a2; scaling_speed := sp;
                 throttle_servo_out := so; THROTTLE_CRUISE := tc |} h2 lg))
  <= fst (fst (get_speed_scaler
                 {| airspeed_estimate := Some a1; scaling_speed := sp;
                    throttle_servo_out := so; THROTTLE_CRUISE := tc |} h1 lg)).
Proof.
  intros Hsp Ha; unfold get_speed_scaler; cbn [airspeed_estimate scaling_speed].
  unfold fdiv.
  destruct (Rgtb a1 0.0001) eqn:E1.
  - apply Rgtb_true in E1.
    assert (E2 : Rgtb a2 0.0001 = true) by (apply Rgtb_true; lra).
    rewrite E2; cbn [fst].
    apply constrain_float_monotone; [lra|].
    unfold Rdiv; apply Rmult_le_compat_l; [exact Hsp|].
    apply Rinv_le_contravar; lra.
  - cbn [fst].
    rewrite (constrain_float_top 2 0.5 2) by lra.
    destruct (Rgtb a2 0.0001); cbn [fst];
      match goal with
      | |- constrain_float ?v 0.5 2 <= _ =>
          pose proof (constrain_float_range v 0.5 2 ltac:(lra))
      end; lra.
Qed.

(** ** Stick mixing *)

(** With the stick at trim the controller's output passes unchanged and the
    pilot's angle is added to it; with the stick 400 PWM or more away from
    trim nothing of the controller's output is left and the result is the
    pilot's angle alone. *)
Theorem stick_mix_channel_edges (radio_in radio_trim pwm_angle servo_out : Z) :
  (-32768 <= servo_out <= 32767)%Z ->
  (radio_in = radio_trim ->
   stick_mix_channel radio_in radio_trim pwm_angle servo_out
   = to_int16 (servo_out + pwm_angle)) /\
  ((400 <= Z.abs (radio_in - radio_trim))%Z ->
   stick_mix_channel radio_in radio_trim pwm_angle servo_out
   = to_int16 pwm_angle).
Proof.
  intros Hs; unfold stick_mix_channel, float_to_int16; cbv zeta; split.
  - intros ->.
    replace (IZR radio_trim - IZR radio_trim) with 0 by ring.
    rewrite Rabs_R0.
    assert (E : Rltb 0 400 = true) by (apply Rltb_true; lra).
    rewrite E.
    replace (IZR servo_out * ((400 - 0) / 400)) with (IZR servo_out)
      by (field; lra).
    rewrite cast_int32_IZR, (to_int16_small servo_out) by exact Hs.
    reflexivity.
  - intros Hfar.
    rewrite <- minus_IZR, <- abs_IZR.
    assert (E : Rltb (IZR (Z.abs (radio_in - radio_trim))) 400 = false).
    { apply Rltb_false. apply IZR_le in Hfar. lra. }
    rewrite E.
    replace (IZR servo_out * ((400 - 400) / 400)) with (IZR 0)
      by (simpl; field).
    rewrite cast_int32_IZR, (to_int16_small 0) by lia.
    reflexivity.
Qed.

(** The stick curve maps a normalised input of [[-1, 1]] into [[-2, 2]]. *)
Lemma fbw_stick_curve_range (v : R) :
  -1 <= v <= 1 -> -2 <= fbw_stick_curve v <= 2.
Proof. unfold fbw_stick_curve; intros; rdec; lra. Qed.

(** FBW stick mixing, when it is not switched off, leaves [nav_roll_cd]
    within the roll limit and [nav_pitch_cd] within the pitch limits; and a
    full roll stick commands the roll limit itself whatever the navigation
    had demanded within that limit. *)
Theorem fbw_stick_mixing_limits (i : FbwInputs) (nav_roll_cd nav_pitch_cd : Z) :
  fbw_mixing_off i = false ->
  (0 <= fbw_roll_limit_cd i)%Z ->
  (pitch_limit_min_cd i <= pitch_limit_max_cd i)%Z ->
  let r := stabilize_stick_mixing_fbw i nav_roll_cd nav_pitch_cd in
  (- fbw_roll_limit_cd i <= fst r <= fbw_roll_limit_cd i)%Z /\
  (pitch_limit_min_cd i <= snd r <= pitch_limit_max_cd i)%Z /\
  (roll_norm_input i = 1 -> (- fbw_roll_limit_cd i <= nav_roll_cd)%Z ->
   fst r = fbw_roll_limit_cd i) /\
  (roll_norm_input i = -1 -> (nav_roll_cd <= fbw_roll_limit_cd i)%Z ->
   fst r = (- fbw_roll_limit_cd i)%Z).
Proof.
  intros Hoff HL Hp; unfold stabilize_stick_mixing_fbw; rewrite Hoff.
  cbv zeta; cbn [fst snd].
  split; [apply constrain_int32_range; lia|].
  split; [apply constrain_int32_range; exact Hp|].
  split.
  - intros H1 Hn; rewrite H1.
    assert (E : fbw_stick_curve 1 = 2).
    { unfold fbw_stick_curve.
      assert (G : Rgtb 1 0.5 = true) by (apply Rgtb_true; lra).
      rewrite G; ring. }
    rewrite E.
    replace (IZR nav_roll_cd + 2 * IZR (fbw_roll_limit_cd i))
      with (IZR (nav_roll_cd + 2 * fbw_roll_limit_cd i))
      by (rewrite plus_IZR, mult_IZR; reflexivity).
    rewrite cast_int32_IZR; unfold constrain_int32.
    destruct (Z.ltb_spec (nav_roll_cd + 2 * fbw_roll_limit_cd i)
                         (- fbw_roll_limit_cd i)); [lia|].
    destruct (Z.gtb_spec (nav_roll_cd + 2 * fbw_roll_limit_cd i)
                         (fbw_roll_limit_cd i)); lia.
  - intros H1 Hn; rewrite H1.
    assert (E : fbw_stick_curve (-1) = -2).
    { unfold fbw_stick_curve.
      assert (G : Rgtb (-1) 0.5 = false) by (apply Rgtb_false; lra).
      assert (G' : Rltb (-1) (- 0.5) = true) by (apply Rltb_true; lra).
      rewrite G, G'; ring. }
    rewrite E.
    replace (IZR nav_roll_cd + -2 * IZR (fbw_roll_limit_cd i))
      with (IZR (nav_roll_cd + -2 * fbw_roll_limit_cd i))
      by (rewrite plus_IZR, mult_IZR; reflexivity).
    rewrite cast_int32_IZR; unfold constrain_int32.
    destruct (Z.ltb_spec (nav_roll_cd + -2 * fbw_roll_limit_cd i)
                         (- fbw_roll_limit_cd i)); [lia|].
    destruct (Z.gtb_spec (nav_roll_cd + -2 * fbw_roll_limit_cd i)
                         (fbw_roll_limit_cd i)); lia.
Qed.

(** ** Navigation demands and load factor *)

Lemma constrain_int32_inside (v lo hi : Z) :
  (lo <= v <= hi)%Z -> constrain_int32 v lo hi = v.
Proof.
  intros H; unfold constrain_int32.
  destruct (Z.ltb_spec v lo); [lia|].
  destruct (Z.gtb_spec v hi); [lia | reflexivity].
Qed.

(** A symmetric clamp never increases a magnitude. *)
Lemma constrain_int32_symmetric (v l : Z) :
  (0 <= l)%Z ->
  (Z.abs (constrain_int32 v (- l) l) <= Z.abs v)%Z /\
  (Z.abs (constrain_int32 v (- l) l) <= l)%Z.
Proof.
  intros H; unfold constrain_int32.
  destruct (Z.ltb_spec v (- l)); [lia|].
  destruct (Z.gtb_spec v l); lia.
Qed.

(** The load factor computed from the demanded roll. *)
Lemma load_factor_at_least_one (d : R) :
  0 <= d <= 85 -> 1 <= 1 / safe_sqrt (cos (radians d)).
Proof.
  intros [H0 H1].
  pose proof PI_RGT_0 as Hpi.
  assert (Hr : - (PI / 2) < radians d < PI / 2).
  { unfold radians; split; [|].
    - assert (0 <= d * PI / 180); [|lra].
      unfold Rdiv; apply Rmult_le_pos; [apply Rmult_le_pos|]; lra.
    - assert (d * PI / 180 <= 85 * PI / 180); [|lra].
      unfold Rdiv; apply Rmult_le_compat_r; [lra|].
      apply Rmult_le_compat_r; lra. }
  pose proof (cos_gt_0 (radians d) (proj1 Hr) (proj2 Hr)) as Hc.
  pose proof (COS_bound (radians d)) as [_ Hc1].
  unfold safe_sqrt.
  assert (E : Rltb (cos (radians d)) 0 = false) by (apply Rltb_false; lra).
  rewrite E.
  pose proof (sqrt_lt_R0 _ Hc) as Hs.
  assert (Hs1 : sqrt (cos (radians d)) <= 1).
  { rewrite <- sqrt_1; apply sqrt_le_1_alt; exact Hc1. }
  apply Rmult_le_reg_r with (r := sqrt (cos (radians d))); [exact Hs|].
  unfold Rdiv; rewrite Rmult_assoc, Rinv_l by lra.
  lra.
Qed.

(** [update_load_factor]: the load factor is at least 1; a roll demand of
    at most 25 degrees is never touched ("we always allow at least 25
    degrees of roll"); the roll demand never grows in magnitude; and a
    non-negative roll limit never grows and stays non-negative. *)
Theorem load_factor_roll_limit (nav_roll_cd roll_limit_cd : Z)
    (stall_prevention inverted : bool) (smoothed_airspeed airspeed_min : R) :
  let r := update_load_factor nav_roll_cd roll_limit_cd stall_prevention
                              inverted smoothed_airspeed airspeed_min in
  1 <= fst (fst r) /\
  ((Z.abs nav_roll_cd <= 2500)%Z -> snd (fst r) = nav_roll_cd) /\
  (Z.abs (snd (fst r)) <= Z.abs nav_roll_cd)%Z /\
  ((0 <= roll_limit_cd)%Z -> (0 <= snd r <= roll_limit_cd)%Z).
Proof.
  unfold update_load_factor.
  set (d := if Rgtb (Rabs (IZR nav_roll_cd * 0.01)) 85 then 85
            else Rabs (IZR nav_roll_cd * 0.01)).
  assert (Hd : 0 <= d <= 85).
  { unfold d; pose proof (Rabs_pos (IZR nav_roll_cd * 0.01)).
    unfold Rgtb; destruct (Rgt_dec _ 85); lra. }
  pose proof (load_factor_at_least_one d Hd) as Hlf.
  cbv zeta.
  assert (Hclamp : forall l : Z,
             (2500 <= l)%Z ->
             ((Z.abs nav_roll_cd <= 2500)%Z ->
              constrain_int32 nav_roll_cd (- l) l = nav_roll_cd) /\
             (Z.abs (constrain_int32 nav_roll_cd (- l) l)
              <= Z.abs nav_roll_cd)%Z /\
             ((0 <= roll_limit_cd)%Z ->
              (0 <= constrain_int32 roll_limit_cd (- l) l
               <= roll_limit_cd)%Z)).
  { intros l Hl; split; [|split].
    - intros Hn; apply constrain_int32_inside; lia.
    - apply constrain_int32_symmetric; lia.
    - intros Hr; unfold constrain_int32.
      destruct (Z.ltb_spec roll_limit_cd (- l)); [lia|].
      destruct (Z.gtb_spec roll_limit_cd l); lia. }
  destruct (negb stall_prevention); [cbn; repeat split; auto; lia|].
  destruct inverted; [cbn; repeat split; auto; lia|].
  destruct (Rleb _ 1).
  - cbn [fst snd]; split; [exact Hlf|]; apply (Hclamp 2500%Z); lia.
  - destruct (Rltb _ _); [|cbn; repeat split; auto; lia].
    cbn [fst snd]; split; [exact Hlf|].
    apply Hclamp.
    destruct (Z.ltb_spec (cast_int32
                            (degrees (acos (sq (1 / (smoothed_airspeed
                                                     / airspeed_min))))
                             * 100)) 2500); lia.
Qed.

(** After [calc_nav_roll] the roll demand is within the roll limit that
    was in force, whatever the navigation controller or a guided-mode
    message asked for. *)
Theorem nav_roll_within_limit (mode : FlightMode) (now_ms last_ms : Z)
    (forced roll_demand roll_limit_cd : Z)
    (stall_prevention inverted : bool) (smoothed_airspeed airspeed_min : R) :
  (0 <= roll_limit_cd)%Z ->
  let r := calc_nav_roll mode now_ms last_ms forced roll_demand
                         roll_limit_cd stall_prevention inverted
                         smoothed_airspeed airspeed_min in
  (- roll_limit_cd <= snd (fst r) <= roll_limit_cd)%Z /\
  (0 <= snd r <= roll_limit_cd)%Z.
Proof.
  intros HL; unfold calc_nav_roll; cbv zeta.
  set (c := guided_override mode now_ms last_ms forced roll_demand).
  destruct (load_factor_roll_limit
              (constrain_int32 c (- roll_limit_cd) roll_limit_cd)
              roll_limit_cd stall_prevention inverted smoothed_airspeed
              airspeed_min) as (_ & _ & Habs & Hlim).
  cbv zeta in Habs, Hlim.
  destruct (constrain_int32_symmetric c roll_limit_cd HL) as [_ Hc].
  split; [lia | apply Hlim; exact HL].
Qed.

(** [adjust_nav_pitch_throttle] never divides by a zero cruise throttle;
    it leaves the pitch demand alone at or above cruise throttle, and
    below it lowers the demand by less than [stab_pitch_down*100 + 1]
    centidegrees and never raises it. *)
Theorem nav_pitch_throttle_adjustment (throttle throttle_cruise : Z)
    (stage : FlightStage) (stab_pitch_down : R) (nav_pitch_cd : Z)
    (lg : list fault) :
  0 <= stab_pitch_down ->
  let r := adjust_nav_pitch_throttle throttle throttle_cruise stage
                                     stab_pitch_down nav_pitch_cd lg in
  snd r = lg /\
  ((throttle_cruise <= throttle)%Z -> fst r = nav_pitch_cd) /\
  (fst r <= nav_pitch_cd)%Z /\
  IZR nav_pitch_cd - stab_pitch_down * 100 - 1 < IZR (fst r).
Proof.
  intros Hsd; unfold adjust_nav_pitch_throttle.
  destruct (Z.geb_spec throttle 0) as [H0|H0];
    [|cbn; repeat split; auto; try lia; nra].
  destruct (Z.ltb_spec throttle throttle_cruise) as [H1|H1];
    [|cbn; repeat split; auto; try lia; nra].
  destruct (FlightStage_eqb stage FLIGHT_VTOL);
    [cbn; repeat split; auto; try lia; nra|].
  cbn [andb negb]; unfold fdiv.
  assert (Hc : 0 < IZR throttle_cruise) by (apply IZR_lt; lia).
  assert (E : Reqb (IZR throttle_cruise) 0 = false).
  { unfold Reqb; destruct (Req_dec_T _ 0); [lra | reflexivity]. }
  rewrite E; cbn [fst snd].
  set (q := IZR (throttle_cruise - throttle) / IZR throttle_cruise).
  assert (Hq : 0 < q <= 1).
  { unfold q; rewrite minus_IZR.
    assert (0 <= IZR throttle) by (apply IZR_le; lia).
    assert (IZR throttle < IZR throttle_cruise) by (apply IZR_lt; lia).
    split.
    - apply Rdiv_lt_0_compat; lra.
    - apply Rmult_le_reg_r with (r := IZR throttle_cruise); [exact Hc|].
      unfold Rdiv; rewrite Rmult_assoc, Rinv_l by lra; lra. }
  assert (Hx : IZR nav_pitch_cd - stab_pitch_down * 100
               <= IZR nav_pitch_cd - stab_pitch_down * 100 * q
               <= IZR nav_pitch_cd) by nra.
  split; [reflexivity|]; split; [intros; lia|]; split.
  - apply cast_int32_le; lra.
  - remember (IZR nav_pitch_cd - stab_pitch_down * 100 * q) as v.
    unfold cast_int32.
    pose proof (Int_part_bounds v) as [B1 B2].
    pose proof (Int_part_bounds (- v)) as [B3 B4].
    destruct (Rle_dec 0 v); [lra|].
    rewrite opp_IZR; lra.
Qed.

(** ** Slew limits *)

Lemma slew_step_at_least_one (rate : Z) (dt_s span : R) :
  1 <= slew_step rate dt_s span.
Proof. unfold slew_step; cbv zeta; rdec; lra. Qed.

Lemma flap_step_at_least_one (rate : Z) (dt_s : R) : 1 <= flap_step rate dt_s.
Proof. unfold flap_step; cbv zeta; rdec; lra. Qed.

(** The window [[trunc (last - step), trunc (last + step)]] around an
    integer [last], for a step of at least 1 whose sums fit 16 bits. *)
Lemma slew_window (last : Z) (step : R) :
  1 <= step ->
  -32000 <= IZR last - step -> IZR last + step <= 32000 ->
  let lo := float_to_int16 (IZR last - step) in
  let hi := float_to_int16 (IZR last + step) in
  (lo <= last - 1)%Z /\ (last + 1 <= hi)%Z /\
  IZR last - step - 1 < IZR lo /\ IZR hi < IZR last + step + 1 /\
  (-32000 <= lo)%Z /\ (hi <= 32000)%Z.
Proof.
  intros H1 Hlo Hhi; cbv zeta; unfold float_to_int16.
  assert (A1 : (cast_int32 (IZR last - step) <= last - 1)%Z)
    by (apply cast_int32_le; rewrite minus_IZR; lra).
  assert (A2 : (-32000 <= cast_int32 (IZR last - step))%Z)
    by (apply cast_int32_ge; lra).
  assert (B1 : (last + 1 <= cast_int32 (IZR last + step))%Z)
    by (apply cast_int32_ge; rewrite plus_IZR; lra).
  assert (B2 : (cast_int32 (IZR last + step) <= 32000)%Z)
    by (apply cast_int32_le; lra).
  assert (Hl : (-32000 <= last <= 32000)%Z).
  { split; apply le_IZR; lra. }
  rewrite !to_int16_small by lia.
  repeat split; try lia.
  - unfold cast_int32.
    pose proof (Int_part_bounds (IZR last - step)) as [C1 C2].
    pose proof (Int_part_bounds (- (IZR last - step))) as [C3 C4].
    destruct (Rle_dec 0 (IZR last - step)); [lra|].
    rewrite opp_IZR; lra.
  - unfold cast_int32.
    pose proof (Int_part_bounds (IZR last + step)) as [C1 C2].
    pose proof (Int_part_bounds (- (IZR last + step))) as [C3 C4].
    destruct (Rle_dec 0 (IZR last + step)); [lra|].
    rewrite opp_IZR; lra.
Qed.

(** With a zero slew rate the throttle output is not limited.  Otherwise
    the new output lies within the step of the cycle (at least 1 PWM, plus
    the truncation of the window's ends to integers) around the last
    output, and an output that is within 1 PWM of the last one passes
    unchanged. *)
Theorem throttle_slew_window (i : SlewInputs) (last_throttle radio_out : Z) :
  (-32768 <= radio_out <= 32767)%Z ->
  let rate := throttle_slew_rate i in
  let step :=
    slew_step rate (G_Dt i)
              (IZR (throttle_radio_max i - throttle_radio_min i)) in
  -32000 <= IZR last_throttle - step ->
  IZR last_throttle + step <= 32000 ->
  let r := throttle_slew_limit i last_throttle radio_out in
  (rate = 0%Z -> r = radio_out) /\
  (rate <> 0%Z ->
   IZR last_throttle - step - 1 < IZR r < IZR last_throttle + step + 1 /\
   ((Z.abs (radio_out - last_throttle) <= 1)%Z -> r = radio_out)).
Proof.
  intros Hr rate step Hlo Hhi; unfold throttle_slew_limit; fold rate.
  cbv zeta; fold step; split.
  - intros ->; reflexivity.
  - intros Hrate.
    destruct (Z.eqb_spec rate 0) as [E|_]; [contradiction|]; cbn [negb].
    pose proof (slew_step_at_least_one rate (G_Dt i)
                  (IZR (throttle_radio_max i - throttle_radio_min i)))
      as H1; fold step in H1.
    destruct (slew_window last_throttle step H1 Hlo Hhi)
      as (L1 & L2 & L3 & L4 & L5 & L6).
    cbv zeta in L1, L2, L3, L4, L5, L6.
    set (lo := float_to_int16 (IZR last_throttle - step)) in *.
    set (hi := float_to_int16 (IZR last_throttle + step)) in *.
    pose proof (constrain_int16_range radio_out lo hi ltac:(lia)) as [R1 R2].
    apply IZR_le in R1, R2.
    split; [lra|].
    intros Hnear; apply constrain_int16_inside; lia.
Qed.

(** One call of [flap_slew_limit] with in-range flap percentages. *)
Lemma flap_slew_limit_step (rate : Z) (dt_s : R) (last demand : Z) :
  (-128 <= last <= 127)%Z -> (-128 <= demand <= 127)%Z ->
  IZR (to_uint8 rate) * dt_s <= 30000 ->
  let r := flap_slew_limit rate dt_s last demand in
  snd r = fst r /\
  (-128 <= fst r <= 127)%Z /\
  (Z.abs (demand - fst r) <= Z.max 0 (Z.abs (demand - last) - 1))%Z /\
  (to_uint8 rate <> 0%Z ->
   IZR (Z.abs (fst r - last)) < flap_step (to_uint8 rate) dt_s + 1).
Proof.
  intros Hl Hd Hdt; unfold flap_slew_limit; cbv zeta; cbn [fst snd].
  split; [reflexivity|].
  destruct (Z.eqb_spec (to_uint8 rate) 0) as [E|E]; cbn [negb].
  - repeat split; try lia; contradiction.
  - pose proof (flap_step_at_least_one (to_uint8 rate) dt_s) as H1.
    assert (H2 : flap_step (to_uint8 rate) dt_s <= 30000).
    { unfold flap_step; cbv zeta; rdec; lra. }
    assert (Hlr : -128 <= IZR last <= 127)
      by (split; apply IZR_le; lia).
    destruct (slew_window last (flap_step (to_uint8 rate) dt_s) H1
                ltac:(lra) ltac:(lra))
      as (L1 & L2 & L3 & L4 & L5 & L6).
    cbv zeta in L1, L2, L3, L4, L5, L6.
    set (lo := float_to_int16 (IZR last - flap_step (to_uint8 rate) dt_s))
      in *.
    set (hi := float_to_int16 (IZR last + flap_step (to_uint8 rate) dt_s))
      in *.
    assert (L1r : IZR lo <= IZR last - 1)
      by (rewrite <- minus_IZR; apply IZR_le; exact L1).
    assert (L2r : IZR last + 1 <= IZR hi)
      by (rewrite <- plus_IZR; apply IZR_le; exact L2).
    unfold constrain_int16; cbv zeta.
    rewrite (to_int16_small demand) by lia.
    destruct (Z.ltb_spec demand lo) as [A|A].
    + rewrite to_int8_small by lia.
      repeat split; try lia.
      intros _; rewrite abs_IZR, minus_IZR.
      rewrite Rabs_left1 by lra; lra.
    + destruct (Z.gtb_spec demand hi) as [B|B].
      * rewrite to_int8_small by lia.
        repeat split; try lia.
        intros _; rewrite abs_IZR, minus_IZR.
        rewrite Rabs_pos_eq by lra; lra.
      * rewrite to_int8_small by lia.
        repeat split; try lia.
        intros _; rewrite abs_IZR, minus_IZR.
        apply IZR_le in A, B.
        apply Rabs_def1; lra.
Qed.

(** The flap percentage moves toward the demanded value by at least 1 on
    every call, and by less than the step of the cycle plus one; so after
    as many calls as the two values are apart the demand is reached, and it
    is then held. *)
Theorem flap_slew_reaches_demand (n : nat) (rate : Z) (dt_s : R)
    (last demand : Z) :
  (-128 <= last <= 127)%Z -> (-128 <= demand <= 127)%Z ->
  IZR (to_uint8 rate) * dt_s <= 30000 ->
  (Z.abs (demand - last) <= Z.of_nat n)%Z ->
  flap_slew_run n rate dt_s last demand = demand /\
  (to_uint8 rate <> 0%Z ->
   IZR (Z.abs (fst (flap_slew_limit rate dt_s last demand) - last))
   < flap_step (to_uint8 rate) dt_s + 1).
Proof.
  intros Hl Hd Hdt Hn; split.
  - revert last Hl Hn; induction n as [|n IH]; intros last Hl Hn.
    + cbn [flap_slew_run]; lia.
    + cbn [flap_slew_run].
      destruct (flap_slew_limit_step rate dt_s last demand Hl Hd Hdt)
        as (_ & Hr & Hstep & _).
      cbv zeta in Hr, Hstep.
      apply IH; [exact Hr | lia].
  - apply (flap_slew_limit_step rate dt_s last demand Hl Hd Hdt).
Qed.

(** ** Output mixer *)

(** With a mixing type other than [MIXING_DISABLED] both mixed outputs lie
    in the PWM range 900..2100, whatever the inputs, gain and offset, and
    centred inputs give centred outputs; with [MIXING_DISABLED] the two
    channels are returned as they were. *)
Theorem channel_output_mixer_range (mixing_offset : Z) (mixing_gain : R)
    (mixing_type : ChannelMixing) (chan1_out chan2_out : Z) :
  let r := channel_output_mixer mixing_offset mixing_gain mixing_type
                                chan1_out chan2_out in
  (mixing_type = MIXING_DISABLED -> r = (chan1_out, chan2_out)) /\
  (mixing_type <> MIXING_DISABLED ->
   (900 <= fst r <= 2100)%Z /\ (900 <= snd r <= 2100)%Z /\
   (chan1_out = 1500%Z -> chan2_out = 1500%Z -> r = (1500%Z, 1500%Z))).
Proof.
  cbv zeta; split.
  - intros ->; reflexivity.
  - intros Hne.
    assert (Hout : forall v : Z,
               (900 <= to_int16 (1500 + constrain_int16 v (-600) 600)
                <= 2100)%Z).
    { intros v.
      pose proof (constrain_int16_range v (-600) 600 ltac:(lia)).
      rewrite to_int16_small; lia. }
    split; [|split].
    + unfold channel_output_mixer; cbv zeta.
      destruct mixing_type; try contradiction; cbn [fst]; apply Hout.
    + unfold channel_output_mixer; cbv zeta.
      destruct mixing_type; try contradiction; cbn [snd]; apply Hout.
    + intros -> ->.
      unfold channel_output_mixer, float_to_int16; cbv zeta.
      change (to_int16 (1500 - 1500)) with 0%Z.
      assert (Q : forall k : Z, to_int16 (Z.quot (0 * k) 100) = 0%Z)
        by (intros k; rewrite Z.mul_0_l; reflexivity).
      rewrite !Q.
      replace (if (mixing_offset <? 0)%Z then 0%Z else 0%Z) with 0%Z
        by (destruct (mixing_offset <? 0)%Z; reflexivity).
      replace (if (mixing_offset <? 0)%Z then 0%Z
               else if (mixing_offset >? 0)%Z then 0%Z else 0%Z) with 0%Z
        by (destruct (mixing_offset <? 0)%Z, (mixing_offset >? 0)%Z;
            reflexivity).
      change (0 - 0)%Z with 0%Z; change (0 + 0)%Z with 0%Z.
      rewrite Rmult_0_l, (cast_int32_IZR 0).
      destruct mixing_type; try contradiction; reflexivity.
Qed.

(** ** Idle-mode wiggle *)

Lemma set_servos_idle_range_bool :
  forallb
    (fun n =>
       let r := set_servos_idle (Z.of_nat n) in
       ((0 <=? fst r) && (fst r <=? 255))%Z
       && match snd r with
          | Some v => ((-4500 <=? v) && (v <=? 4500))%Z
          | None => (Z.of_nat n =? 0)%Z
          end
       && (idle_wiggle_run 101 (Z.of_nat n) =? 0)%Z)
    (seq 0 256) = true.
Proof. vm_compute; reflexivity. Qed.

(** For every value of the 8-bit counter: a counter at 0 stays there and
    nothing is written; otherwise the value written to the servos lies in
    [-4500, 4500], and the wiggle ends (the counter is back at 0) within
    101 calls. *)
Theorem idle_wiggle_bounded (stage : Z) :
  (0 <= stage <= 255)%Z ->
  let r := set_servos_idle stage in
  (0 <= fst r <= 255)%Z /\
  match snd r with
  | Some v => (-4500 <= v <= 4500)%Z
  | None => stage = 0%Z /\ fst r = 0%Z
  end /\
  idle_wiggle_run 101 stage = 0%Z.
Proof.
  intros Hs.
  pose proof set_servos_idle_range_bool as H.
  rewrite forallb_forall in H.
  specialize (H (Z.to_nat stage)).
  rewrite Z2Nat.id in H by lia.
  assert (Hin : In (Z.to_nat stage) (seq 0 256)) by (apply in_seq; lia).
  specialize (H Hin); cbv zeta in H.
  apply andb_prop in H; destruct H as [H H3].
  apply andb_prop in H; destruct H as [H1 H2].
  apply andb_prop in H1; destruct H1 as [H1a H1b].
  cbv zeta; split; [lia|]; split; [|lia].
  destruct (snd (set_servos_idle stage)) as [v|] eqn:E.
  - apply andb_prop in H2; lia.
  - split; [lia|].
    unfold set_servos_idle in *.
    destruct (stage =? 0)%Z eqn:E0; [cbn; lia|].
    exfalso; revert E.
    repeat match goal with
           | |- context [if ?b then _ else _] => destruct b
           end; discriminate.
Qed.

(** ** Further properties of the comparison fuzzy law and of the supervisor *)

(** The threshold [2*180/pi] of the heading membership is far above any
    angle in [[-pi, pi]]. *)
Lemma heading_threshold_above_pi : PI < 2 * 180 / PI.
Proof.
  pose proof PI_RGT_0 as H0; pose proof PI_4 as H4.
  apply Rmult_lt_reg_r with (r := PI); [exact H0|].
  unfold Rdiv; rewrite Rmult_assoc, Rinv_l by lra.
  nra.
Qed.

Section FuzzyHeading.
Context {platform : Platform}.

#[local] Arguments fuzzy_h_mem : simpl never.

(** In the comparison fuzzy law the heading membership [n_mem] is (1, 0)
    for every [x2] whose magnitude is below [2*180/pi] (about 114.6), hence
    for every angle of [[-pi, pi]]: with four rules the weights of rules 1
    and 3 are zero, and the weights of rules 0 and 2 add up to one. *)
Theorem fuzzy_heading_rules_without_weight (sn : Sensors) (x1 x2 : R)
    (p : Plane) :
  use_fuzzy_controller (lccfg p) = true ->
  rule_num (lccfg p) <> 2%Z ->
  Rabs x2 <= PI ->
  let h := h_mem (law (snd (calc_controller sn x1 x2 p))) in
  elem h 1 = 0 /\ elem h 3 = 0 /\ elem h 0 + elem h 2 = 1.
Proof.
  intros Hf Hr Hx.
  destruct (calc_controller_h_mem sn x1 x2 p Hf) as [vg E].
  cbv zeta; rewrite E; unfold fuzzy_h_mem.
  destruct (Z.eqb_spec (rule_num (lccfg p)) 2) as [C|_]; [contradiction|].
  assert (Hn : n_mem x2 (phi_max (lccfg p)) = (1, 0)).
  { unfold n_mem.
    assert (G : Rltb (Rabs x2) (2 * 180 / PI) = true).
    { apply Rltb_true; pose proof heading_threshold_above_pi; lra. }
    rewrite G; reflexivity. }
  rewrite Hn; cbn [fst snd elem nth].
  pose proof (m_mem_sum vg (Vg_min (lccfg p)) (Vg_max (lccfg p))).
  repeat split; lra.
Qed.

End FuzzyHeading.

Section SupervisorAfterInit.
Context {platform : Platform}.

#[local] Arguments TLAB_Line_Trace_Controller : simpl never.
#[local] Arguments waypoint_frame : simpl never.

Lemma TLAB_Combine_Controller_navigation_off (g : Parameters) (sn : Sensors)
    (p : Plane) :
  TLAB_WP_nav_flag (sup p) = false ->
  let p' := snd (TLAB_Combine_Controller g sn p) in
  TLAB_WP_nav_flag (sup p') = false /\
  TLAB_Control_flag (sup p') = 0%Z /\
  change_to_circle_flag (sup p') = change_to_circle_flag (sup p) /\
  gcs (shared p') = gcs (shared p).
Proof.
  intros Hnav; unfold TLAB_Combine_Controller; rewrite Hnav; cbn [negb].
  cbv zeta.
  destruct (line_view_eq _ _ _ _ _ _
              (TLAB_Line_Trace_Controller_frame g sn
                 (set_TLAB_Control_flag p 0)))
    as (Hs & _ & _ & _ & Hg).
  rewrite Hs, Hg; cbn; auto.
Qed.

Lemma run_Combine_navigation_off (g : Parameters) (sns : list Sensors) :
  forall p : Plane,
    TLAB_WP_nav_flag (sup p) = false ->
    let p' := run_Combine g sns p in
    TLAB_WP_nav_flag (sup p') = false /\
    change_to_circle_flag (sup p') = change_to_circle_flag (sup p) /\
    gcs (shared p') = gcs (shared p) /\
    (sns <> [] -> TLAB_Control_flag (sup p') = 0%Z) /\
    (TLAB_Control_flag (sup p) = 0%Z -> TLAB_Control_flag (sup p') = 0%Z).
Proof.
  induction sns as [|sn sns IH]; intros p Hnav; cbn [run_Combine]; cbv zeta.
  - repeat split; auto; intros H; contradiction H; reflexivity.
  - destruct (TLAB_Combine_Controller_navigation_off g sn p Hnav)
      as (H1 & H2 & H3 & H4).
    cbv zeta in H1, H2, H3, H4.
    destruct (IH (snd (TLAB_Combine_Controller g sn p)) H1)
      as (I1 & I2 & I3 & _ & I5).
    cbv zeta in I1, I2, I3, I5.
    rewrite I2, I3, H3, H4.
    repeat split; auto.
Qed.

(** After [init_TLAB_Controller] waypoint navigation is off and the
    circle-switch trigger is clear; as long as no other code sets
    [TLAB_WP_nav_flag], every cycle of the supervisor keeps line mode,
    leaves the trigger clear and sends no notification. *)
Theorem supervisor_idle_after_init (g : Parameters) (sns : list Sensors)
    (p : Plane) :
  let p0 := init_TLAB_Controller g p in
  let p' := run_Combine g sns p0 in
  TLAB_WP_nav_flag (sup p') = false /\
  change_to_circle_flag (sup p') = false /\
  gcs (shared p') = gcs (shared p) /\
  (TPARAM_Combine g = 1%Z \/ sns <> [] -> TLAB_Control_flag (sup p') = 0%Z).
Proof.
  cbv zeta.
  assert (Hnav : TLAB_WP_nav_flag (sup (init_TLAB_Controller g p)) = false)
    by reflexivity.
  destruct (run_Combine_navigation_off g sns (init_TLAB_Controller g p) Hnav)
    as (H1 & H2 & H3 & H4 & H5).
  cbv zeta in H1, H2, H3, H4, H5.
  split; [exact H1|]; split; [rewrite H2; reflexivity|].
  split; [rewrite H3; reflexivity|].
  intros [Hc|Hne]; [|apply H4; exact Hne].
  apply H5; unfold init_TLAB_Controller; cbn.
  rewrite Hc; reflexivity.
Qed.

End SupervisorAfterInit.

(** ** The further statements at concrete inputs *)

Lemma rational_controller_witness :
  fst (@calc_controller sensors0 0 0 plane_rational)
  = rational_numerator 0 0 / rational_denominator 0 0 /\
  25 < rational_denominator 0 0.
Proof.
  apply (rational_controller_never_divides_by_zero sensors0 0 0
           plane_rational).
  reflexivity.
Defined.

Lemma bar_angle_saturated_witness :
  U_min (lccfg plane0) * PI / 180
  <= u (shared (snd (@TLAB_Circle_Trace_Controller test_platform params0
                       sensors0 plane0)))
     - TPARAM_servo_neutral params0 * PI / 180
  <= U_max (lccfg plane0) * PI / 180.
Proof.
  apply (@bar_angle_saturated test_platform params0 sensors0 plane0).
  cbn; lra.
Defined.

Lemma circle_mode_kept_witness :
  let p' := @run_Combine test_platform params0 [sensors0; sensors90]
              plane_orbit0 in
  TLAB_Control_flag (sup p') = 1%Z /\
  Int_theta (circle p') = 0 /\
  gcs (shared p') = [].
Proof.
  apply (@circle_mode_kept_without_angle_count test_platform params0
           [sensors0; sensors90] plane_orbit0).
  - reflexivity.
  - cbn; discriminate.
  - reflexivity.
  - cbn. rewrite Rabs_R0. pose proof PI_RGT_0. lra.
Defined.


Lemma pd_blend_witness :
  let t' := throttle (snd (@TLAB_Throttle_Controller test_platform params_pd
                             sensors0 plane0)) in
  let l0 := pd_local_thrust params_pd (throttle plane0) 0 (e_m t') (de_m t') in
  let l1 := pd_local_thrust params_pd (throttle plane0) 1 (e_m t') (de_m t') in
  Rmin l0 l1 <= motor_Th_N t' <= Rmax l0 l1.
Proof.
  apply (@pd_blend_between_local_laws test_platform params_pd sensors0
           plane0).
  - reflexivity.
  - reflexivity.
  - cbn; lra.
Defined.

Lemma fuzzy_heading_witness :
  let h := h_mem (law (snd (@calc_controller sensors0 0 0 plane0))) in
  elem h 1 = 0 /\ elem h 3 = 0 /\ elem h 0 + elem h 2 = 1.
Proof.
  apply (@fuzzy_heading_rules_without_weight sensors0 0 0 plane0).
  - reflexivity.
  - cbn; discriminate.
  - rewrite Rabs_R0; pose proof PI_RGT_0; lra.
Defined.

Lemma speed_scaler_decreasing_witness :
  fst (fst (get_speed_scaler
              {| airspeed_estimate := Some 20; scaling_speed := 15;
                 throttle_servo_out := 50; THROTTLE_CRUISE := 45 |} 0 []))
  <= fst (fst (get_speed_scaler
                 {| airspeed_estimate := Some 10; scaling_speed := 15;
                    throttle_servo_out := 50; THROTTLE_CRUISE := 45 |} 0 [])).
Proof. apply speed_scaler_decreasing; lra. Defined.

Lemma stick_mix_channel_witness :
  stick_mix_channel 1500 1500 200 1000 = to_int16 (1000 + 200) /\
  stick_mix_channel 1950 1500 4000 1000 = to_int16 4000.
Proof.
  split.
  - apply (stick_mix_channel_edges 1500 1500 200 1000); [lia | reflexivity].
  - apply (stick_mix_channel_edges 1950 1500 4000 1000); [lia | cbn; lia].
Defined.

Lemma fbw_stick_mixing_witness :
  fst (stabilize_stick_mixing_fbw fbw_inputs0 (-3000) 500) = 4500%Z.
Proof.
  apply (fbw_stick_mixing_limits fbw_inputs0 (-3000) 500);
    try reflexivity; cbn; lia.
Defined.

Lemma nav_roll_within_limit_witness :
  let r := calc_nav_roll AUTO 5000 0 0 9000 4500 true false 8 10 in
  (-4500 <= snd (fst r) <= 4500)%Z /\ (0 <= snd r <= 4500)%Z.
Proof.
  apply (nav_roll_within_limit AUTO 5000 0 0 9000 4500 true false 8 10).
  lia.
Defined.

Lemma nav_pitch_throttle_witness :
  let r := adjust_nav_pitch_throttle 0 45 FLIGHT_NORMAL 2 1000 [] in
  snd r = [] /\
  ((45 <= 0)%Z -> fst r = 1000%Z) /\
  (fst r <= 1000)%Z /\
  IZR 1000 - 2 * 100 - 1 < IZR (fst r).
Proof.
  apply (nav_pitch_throttle_adjustment 0 45 FLIGHT_NORMAL 2 1000 []).
  lra.
Defined.

Lemma flap_slew_witness :
  flap_slew_run 100 20 0.02 0 100 = 100%Z.
Proof.
  apply (flap_slew_reaches_demand 100 20 0.02 0 100); try lia.
  unfold to_uint8; cbn; lra.
Defined.

Lemma idle_wiggle_witness :
  (0 <= fst (set_servos_idle 1) <= 255)%Z /\
  match snd (set_servos_idle 1) with
  | Some v => (-4500 <= v <= 4500)%Z
  | None => 1%Z = 0%Z /\ fst (set_servos_idle 1) = 0%Z
  end /\
  idle_wiggle_run 101 1 = 0%Z.
Proof. apply (idle_wiggle_bounded 1); lia. Defined.

Lemma throttle_slew_witness :
  let step :=
    slew_step (throttle_slew_rate slew_inputs0) (G_Dt slew_inputs0)
              (IZR (throttle_radio_max slew_inputs0
                    - throttle_radio_min slew_inputs0)) in
  let r := throttle_slew_limit slew_inputs0 1500 1800 in
  IZR 1500 - step - 1 < IZR r < IZR 1500 + step + 1.
Proof.
  assert (Hs : 1 <= slew_step (throttle_slew_rate slew_inputs0)
                              (G_Dt slew_inputs0)
                              (IZR (throttle_radio_max slew_inputs0
                                    - throttle_radio_min slew_inputs0))
               <= 20).
  { split; [apply slew_step_at_least_one|].
    unfold slew_step, throttle_slew_rate, to_uint8; cbn.
    rewrite Rabs_pos_eq by lra.
    unfold Rltb; destruct (Rlt_dec _ 1); lra. }
  destruct (throttle_slew_window slew_inputs0 1500 1800 ltac:(lia)
              ltac:(cbv zeta; lra) ltac:(cbv zeta; lra)) as [_ H].
  cbv zeta in H |- *.
  apply H.
  unfold throttle_slew_rate, to_uint8; cbn; discriminate.
Defined.
